(** * Hybrid forecasting and model-fallback engine

    Shallow embedding of [services/sarimaFallbackService.py] and
    [services/forecastService.py], and of their caller in [app.py].

    Numbers.  Python floats are modelled as exact rationals ([Q]); the
    theorems below are therefore statements about the arithmetic the code
    writes down, not about IEEE rounding, and equality of computed numbers
    is [==].  numpy divides by zero without raising.  The one such division
    that reaches a result is the normalisation of the autocorrelations in
    [_fitArCoefficients]: there 0 / 0 is nan, and the arrays that can carry
    it are [Np.Floats].  The same normalisation in [_detectSeasonality]
    only feeds strict comparisons, which an array of nan fails throughout
    as does the array of [0] that [Q] gives for [x / 0].

    Timestamps.  A timestamp string is kept as the instant pandas reads from
    it and the format pandas infers for it ([Sarima.Point]).

    Integers.  The integer configuration fields (orders, periods, window and
    horizon sizes) are counts and are modelled as [nat].

    Exceptions.  A Python expression that can raise is a function into
    [option]; [None] is the raised exception and a [try]/[except] is a
    [match] on it. *)

From Stdlib Require Import QArith ZArith List Bool Arith Lia Qround Qabs.
From Stdlib Require Import Sorted.
Import ListNotations.

Open Scope Q_scope.

(** ** Python and numpy primitives used by the two services *)

Module Py.

(** [a < b] and [a > b] on floats. *)
Definition ltb (a b : Q) : bool :=
  match a ?= b with Lt => true | _ => false end.

Definition gtb (a b : Q) : bool := ltb b a.

(** The builtins [min(a, b)] and [max(a, b)]: the first argument is kept
    unless the second one is strictly smaller (resp. larger). *)
Definition min (a b : Q) : Q := if ltb b a then b else a.
Definition max (a b : Q) : Q := if gtb b a then b else a.

(** [l[-n:]] for a non-negative [n]; note that [l[-0:]] is [l[0:]]. *)
Definition tail {A} (n : nat) (l : list A) : list A :=
  if (n =? 0)%nat then l else skipn (length l - n) l.

(** [l[n:]] and [l[:-n]] for a non-negative [n]; [l[:-0]] is [l[:0]]. *)
Definition from {A} (n : nat) (l : list A) : list A := skipn n l.
Definition upto_neg {A} (n : nat) (l : list A) : list A :=
  if (n =? 0)%nat then [] else firstn (length l - n) l.

(** [l[-1]], which raises [IndexError] on an empty sequence. *)
Definition last_item {A} (l : list A) : option A :=
  match rev l with [] => None | x :: _ => Some x end.

(** [l[i]] for a non-negative [i]. *)
Definition item {A} (i : nat) (l : list A) : option A := nth_error l i.

(** [sum(l)] and [np.sum(l)]; the running total is kept in lowest terms,
    which leaves its value as it is ([Qred_correct]). *)
Definition sum (l : list Q) : Q :=
  fold_left (fun total x => Qred (total + x)) l 0.

Definition len {A} (l : list A) : Q := inject_Z (Z.of_nat (length l)).

(** [collections.deque(maxlen=n).append(x)]: append on the right, then drop
    the leftmost element when the bound is exceeded. *)
Definition deque_append {A} (maxlen : nat) (dq : list A) (x : A) : list A :=
  let dq' := dq ++ [x] in
  if (maxlen <? length dq')%nat then tl dq' else dq'.

End Py.

Module Np.

(** [np.mean], [np.var] (population variance), [np.cumsum], [np.diff],
    [np.full]. *)
Definition mean (l : list Q) : Q := Py.sum l / Py.len l.

Definition var (l : list Q) : Q :=
  let m := mean l in
  mean (map (fun x => (x - m) * (x - m)) l).

Fixpoint cumsum_from (acc : Q) (l : list Q) : list Q :=
  match l with
  | [] => []
  | x :: l' => (acc + x) :: cumsum_from (acc + x) l'
  end.

Definition cumsum (l : list Q) : list Q := cumsum_from 0 l.

Fixpoint diff (l : list Q) : list Q :=
  match l with
  | x :: ((y :: _) as l') => (y - x) :: diff l'
  | _ => []
  end.

Definition full (n : nat) (x : Q) : list Q := repeat x n.

(** Element-wise [a - b] on one-dimensional arrays with numpy's
    broadcasting: equal shapes, or one side of length one; any other pair
    of shapes raises [ValueError]. *)
Definition sub (a b : list Q) : option (list Q) :=
  if (length a =? length b)%nat then
    Some (map (fun xy => fst xy - snd xy) (combine a b))
  else
    match a, b with
    | [x], _ => Some (map (fun y => x - y) b)
    | _, [y] => Some (map (fun x => x - y) a)
    | _, _ => None
    end.

(** A float as a result carries it: a finite number or nan. *)
Inductive float := Fin (q : Q) | NaN.

(** A float array on the forecasting path: finite numbers, or [n] times
    nan.  The one division whose divisor can be zero there, in
    [_fitArCoefficients], turns every entry into nan at once, and only sums
    and products are formed from its result afterwards. *)
Inductive Floats := Numbers (values : list Q) | NaNs (n : nat).

Definition size (a : Floats) : nat :=
  match a with Numbers values => length values | NaNs n => n end.

(** [a.tolist()]. *)
Definition tolist (a : Floats) : list float :=
  match a with Numbers values => map Fin values | NaNs n => repeat NaN n end.

(** [np.dot] of two vectors; raises on a shape mismatch. *)
Definition dot (a b : list Q) : option Q :=
  if (length a =? length b)%nat then
    Some (Py.sum (map (fun xy => fst xy * snd xy) (combine a b)))
  else None.

End Np.

(** ** [services/sarimaFallbackService.py] *)

Module Sarima.

(** [SarimaConfig].  The field [Q] of the source is [cfg_Q] here, and the
    other orders are prefixed alike. *)
Record SarimaConfig := mkConfig {
  cfg_p : nat;
  cfg_d : nat;
  cfg_q : nat;
  cfg_P : nat;
  cfg_D : nat;
  cfg_Q : nat;
  cfg_s : nat;
  maeThreshold : Q;
  maeWindowSize : nat;
  autoSelectParams : bool
}.

Definition defaultConfig : SarimaConfig :=
  mkConfig 1 1 1 1 1 0 24 5 50 true.

Definition with_s (cfg : SarimaConfig) (s' : nat) : SarimaConfig :=
  mkConfig (cfg_p cfg) (cfg_d cfg) (cfg_q cfg) (cfg_P cfg) (cfg_D cfg)
           (cfg_Q cfg) s' (maeThreshold cfg) (maeWindowSize cfg)
           (autoSelectParams cfg).

(** The mutable attributes of a [SarimaFallbackService] instance.
    [modelFitted] only records whether a fitted statsmodels handle is
    stored. *)
Record Service := mkService {
  config : SarimaConfig;
  predictionHistory : list Q;
  actualHistory : list Q;
  currentMae : Q;
  fallbackActive : bool;
  modelFitted : bool;
  _running : bool
}.

(** [__init__]. *)
Definition init (cfg : SarimaConfig) : Service :=
  mkService cfg [] [] 0 false false true.

Definition stop (st : Service) : Service :=
  mkService (config st) (predictionHistory st) (actualHistory st)
            (currentMae st) (fallbackActive st) (modelFitted st) false.

Definition start (st : Service) : Service :=
  mkService (config st) (predictionHistory st) (actualHistory st)
            (currentMae st) (fallbackActive st) (modelFitted st) true.

Definition set_fallbackActive (st : Service) (b : bool) : Service :=
  mkService (config st) (predictionHistory st) (actualHistory st)
            (currentMae st) b (modelFitted st) (_running st).

Definition set_config (st : Service) (cfg : SarimaConfig) : Service :=
  mkService cfg (predictionHistory st) (actualHistory st)
            (currentMae st) (fallbackActive st) (modelFitted st)
            (_running st).

Definition set_modelFitted (st : Service) (b : bool) : Service :=
  mkService (config st) (predictionHistory st) (actualHistory st)
            (currentMae st) (fallbackActive st) b (_running st).

(** [calculateMae]. *)
Definition calculateMae (predictions actuals : list Q) : Q :=
  match predictions, actuals with
  | [], _ | _, [] => 0
  | _, _ =>
      let n := Nat.min (length predictions) (length actuals) in
      if (n =? 0)%nat then 0
      else
        let errors :=
          map (fun pa => Qabs (fst pa - snd pa))
              (combine predictions actuals) in
        Py.sum errors / inject_Z (Z.of_nat n)
  end.

(** [updateMaeTracking]: returns the new MAE and the new state. *)
Definition updateMaeTracking (st : Service) (predicted actual : Q)
  : Q * Service :=
  let w := maeWindowSize (config st) in
  let ph := Py.deque_append w (predictionHistory st) predicted in
  let ah := Py.deque_append w (actualHistory st) actual in
  let mae := calculateMae ph ah in
  (mae, mkService (config st) ph ah mae (fallbackActive st)
                  (modelFitted st) (_running st)).

(** [resetMaeTracking]. *)
Definition resetMaeTracking (st : Service) : Service :=
  mkService (config st) [] [] 0 false (modelFitted st) (_running st).

(** [shouldUseFallback]; [graniteMae = None] is the Python [None]. *)
Definition shouldUseFallback (st : Service) (graniteMae : option Q)
  : bool * Service :=
  match graniteMae with
  | None =>
      (true, if negb (fallbackActive st) then set_fallbackActive st true
             else st)
  | Some mae =>
      if Py.gtb mae (maeThreshold (config st)) then
        (true, if negb (fallbackActive st) then set_fallbackActive st true
               else st)
      else
        (false, if fallbackActive st then set_fallbackActive st false
                else st)
  end.

(** The state reached from [st] by a sequence of [updateMaeTracking]
    calls, one per (predicted, actual) pair. *)
Definition track (st : Service) (updates : list (Q * Q)) : Service :=
  fold_left (fun st pa => snd (updateMaeTracking st (fst pa) (snd pa)))
            updates st.

(** *** Input points and external libraries *)

(** One element of [dataHistory].  The string under ['timestamp'] is kept
    as what pandas makes of it: [timestamp] is the instant, in seconds, that
    [pd.to_datetime] reads from it, and [None] when [pd.to_datetime] raises
    on it; [layout] numbers the format [pd.to_datetime] infers for it, with
    [iso] for what [isoformat()] and [strftime('%Y-%m-%dT%H:%M:%S')] write.
    Rendering an instant back with [isoformat()] is left implicit: results
    carry instants. *)
Record Point := mkPoint {
  timestamp : option Q;
  value : Q;
  layout : nat
}.

Definition iso : nat := 0.

(** Outcome of fitting and forecasting with statsmodels' [SARIMAX]. *)
Inductive SarimaxOutcome :=
| FitRaised
| ForecastRaised
| Forecasted (values : list Q).

(** What this module imports and does not define: statsmodels and numpy's
    linear algebra.  [None] is a raised exception ([LinAlgError] for the
    two solvers). *)
Record Libs := mkLibs {
  STATSMODELS_AVAILABLE : bool;
  SARIMAX : SarimaConfig -> list (Q * Q) -> nat -> SarimaxOutcome;
  acf : list Q -> nat -> option (list Q);
  linalg_solve : list (list Q) -> list Q -> option (list Q);
  linalg_lstsq : list (list Q) -> list Q -> option (list Q)
}.

(** [ForecastResult].  [modelUsed] is the configuration whose seven orders
    the source formats into the tag [SARIMA(p,d,q)(P,D,Q)_s]. *)
Record ForecastResult := mkForecastResult {
  predictions : Np.Floats;
  timestamps : list Q;
  mae : option Q;
  modelUsed : SarimaConfig;
  isFromFallback : bool;
  confidence : Q
}.

(** *** Differencing *)

(** [for _ in range(n): x = f(x)], stopping at the first exception. *)
Fixpoint repeat_steps {A} (n : nat) (f : A -> option A) (x : A)
  : option A :=
  match n with
  | O => Some x
  | S n' =>
      match f x with
      | Some y => repeat_steps n' f y
      | None => None
      end
  end.

Definition seasonal_difference (s : nat) (result : list Q)
  : option (list Q) :=
  if (s <? length result)%nat then
    Np.sub (Py.from s result) (Py.upto_neg s result)
  else Some result.

Definition plain_difference (result : list Q) : option (list Q) :=
  if (1 <? length result)%nat then Some (Np.diff result) else Some result.

(** [_applyDifferencing(series, d, s, D)]. *)
Definition _applyDifferencing (series : list Q) (d s D : nat)
  : option (list Q) :=
  match repeat_steps D (seasonal_difference s) series with
  | Some result => repeat_steps d plain_difference result
  | None => None
  end.

(** One pass of the first loop of [_invertDifferencing]. *)
Definition undo_plain (originalSeries result : list Q) : option (list Q) :=
  match Py.last_item originalSeries with
  | Some lastValue => Some (map (fun c => lastValue + c) (Np.cumsum result))
  | None => None
  end.

(** The inner [for i, val in enumerate(result)] loop; [i % s] raises
    [ZeroDivisionError] when [s = 0]. *)
Fixpoint add_base (s : nat) (baseValues : list Q) (i : nat)
         (result : list Q) : option (list Q) :=
  match result with
  | [] => Some []
  | val :: rest =>
      if (s =? 0)%nat then None
      else
        match Py.item (i mod s) baseValues with
        | None => None
        | Some b =>
            match add_base s baseValues (S i) rest with
            | Some newResult => Some ((val + b) :: newResult)
            | None => None
            end
        end
  end.

Definition undo_seasonal (s : nat) (originalSeries result : list Q)
  : option (list Q) :=
  if (s <=? length originalSeries)%nat then
    add_base s (Py.tail s originalSeries) 0 result
  else Some result.

(** [_invertDifferencing(forecasts, originalSeries, d, s, D)]. *)
Definition _invertDifferencing (forecasts originalSeries : list Q)
           (d s D : nat) : option (list Q) :=
  match repeat_steps d (undo_plain originalSeries) forecasts with
  | Some result => repeat_steps D (undo_seasonal s originalSeries) result
  | None => None
  end.

(** *** Autoregressive fit *)

(** [np.correlate(c, c, mode='full')[n-1+k]]: the lag-[k] product sum. *)
Definition correlate_lag (c : list Q) (k : nat) : Q :=
  Py.sum (map (fun xy => fst xy * snd xy) (combine c (skipn k c))).

(** [np.correlate(c, c, mode='full')[n-1:]]. *)
Definition correlate_tail (c : list Q) : list Q :=
  map (correlate_lag c) (seq 0 (length c)).

Definition centered (series : list Q) : list Q :=
  let m := Np.mean series in map (fun x => x - m) series.

Definition abs_diff (i j : nat) : nat := (i - j) + (j - i).

(** [_fitArCoefficients(series, p)].  When the lag-0 product sum is 0 the
    centered series is 0 throughout, so the normalisation divides 0 by 0 at
    every lag: numpy warns without raising, every autocorrelation is nan,
    and [np.linalg.solve], which finds no zero pivot in a matrix of nan,
    returns [p] times nan. *)
Definition _fitArCoefficients (L : Libs) (series : list Q) (p : nat)
  : Np.Floats :=
  if ((p =? 0) || (length series <=? p))%nat then Np.Numbers []
  else
    let acorr0 := correlate_tail (centered series) in
    let a0 := nth 0 acorr0 0 in
    if Qeq_bool a0 0 then Np.NaNs p
    else
      let acorr := map (fun a => a / a0) acorr0 in
      let R :=
        map (fun i => map (fun j => nth (abs_diff i j) acorr 0) (seq 0 p))
            (seq 0 p) in
      let r := firstn p (skipn 1 acorr) in
      match linalg_solve L R r with
      | Some phi => Np.Numbers phi
      | None =>
          match linalg_lstsq L R r with
          | Some phi => Np.Numbers phi
          | None => Np.Numbers (Np.full p 0)
          end
      end.

(** *** Forecasts *)

(** The [for _ in range(steps)] loop of [_simpleSarimaForecast]; [buffer]
    grows on the right. *)
Fixpoint ar_loop (p : nat) (arCoeffs diffSeries : list Q) (steps : nat)
         (buffer : list Q) : option (list Q) :=
  match steps with
  | O => Some []
  | S steps' =>
      let pred :=
        if ((0 <? p) && (0 <? length arCoeffs))%nat then
          Np.dot arCoeffs (rev (Py.tail p buffer))
        else Some (Np.mean (Py.tail 10 diffSeries)) in
      match pred with
      | None => None
      | Some x =>
          match ar_loop p arCoeffs diffSeries steps' (buffer ++ [x]) with
          | Some forecasts => Some (x :: forecasts)
          | None => None
          end
      end
  end.

(** [_invertDifferencing] on [n] forecasts that are nan: it only adds to
    them, so what it returns is nan throughout; whether it raises depends on
    the shapes alone, which are those of any [n] forecasts. *)
Definition invert_nans (n : nat) (originalSeries : list Q) (d s D : nat)
  : option Np.Floats :=
  match _invertDifferencing (Np.full n 0) originalSeries d s D with
  | Some result => Some (Np.NaNs (length result))
  | None => None
  end.

(** The [try] block of [_simpleSarimaForecast].  With coefficients that
    are nan every [np.dot] of the loop is nan: the buffer holds at least [p]
    values, so the shapes agree. *)
Definition simpleSarima_body (L : Libs) (cfg : SarimaConfig)
           (series : list Q) (steps : nat) : option Np.Floats :=
  match _applyDifferencing series (cfg_d cfg) (cfg_s cfg) (cfg_D cfg) with
  | None => None
  | Some diffSeries =>
      if (length diffSeries <? cfg_p cfg + 1)%nat then
        let lastValues := Py.tail (Nat.min 10 (length series)) series in
        Some (Np.Numbers (Np.full steps (Np.mean lastValues)))
      else
        match _fitArCoefficients L diffSeries (cfg_p cfg) with
        | Np.NaNs _ =>
            invert_nans steps series (cfg_d cfg) (cfg_s cfg) (cfg_D cfg)
        | Np.Numbers arCoeffs =>
            let buffer :=
              if (0 <? cfg_p cfg)%nat then Py.tail (cfg_p cfg) diffSeries
              else [] in
            match ar_loop (cfg_p cfg) arCoeffs diffSeries steps buffer with
            | None => None
            | Some forecasts =>
                option_map Np.Numbers
                  (_invertDifferencing forecasts series (cfg_d cfg)
                                       (cfg_s cfg) (cfg_D cfg))
            end
        end
  end.

(** [_simpleSarimaForecast(series, steps)]: the [except] branch repeats
    the mean of the last ten raw values. *)
Definition _simpleSarimaForecast (L : Libs) (cfg : SarimaConfig)
           (series : list Q) (steps : nat) : Np.Floats :=
  match simpleSarima_body L cfg series steps with
  | Some result => result
  | None => Np.Numbers (Np.full steps (Np.mean (Py.tail 10 series)))
  end.

(** [[pd.to_datetime(point['timestamp']) for point in data]]: raises as
    soon as one entry does. *)
Fixpoint parse_timestamps (data : list Point) : option (list Q) :=
  match data with
  | [] => Some []
  | pt :: rest =>
      match timestamp pt, parse_timestamps rest with
      | Some t, Some ts => Some (t :: ts)
      | _, _ => None
      end
  end.

(** [sort_index()] of a series of (instant, value) rows, as a stable
    insertion sort on the instant. *)
Fixpoint insert_row (row : Q * Q) (rows : list (Q * Q)) : list (Q * Q) :=
  match rows with
  | [] => [row]
  | r :: rows' =>
      if Py.ltb (fst row) (fst r) then row :: rows
      else r :: insert_row row rows'
  end.

Definition sort_index (rows : list (Q * Q)) : list (Q * Q) :=
  fold_left (fun sorted row => insert_row row sorted) rows [].

(** [_statsmodelsSarimaForecast(series, steps)]; a successful fit is
    stored in [modelFitted] before [forecast] is called on it. *)
Definition _statsmodelsSarimaForecast (L : Libs) (st : Service)
           (series : list (Q * Q)) (steps : nat) : Np.Floats * Service :=
  match SARIMAX L (config st) series steps with
  | Forecasted values => (Np.Numbers values, set_modelFitted st true)
  | ForecastRaised =>
      (_simpleSarimaForecast L (config st) (map snd series) steps,
       set_modelFitted st true)
  | FitRaised =>
      (_simpleSarimaForecast L (config st) (map snd series) steps, st)
  end.

(** The peak search of [_detectSeasonality]: indices [i] in
    [range(2, len(autocorr) - 1)] that are strict local maxima above 0.3,
    with their values. *)
Definition find_peaks (autocorr : list Q) : list (nat * Q) :=
  let a i := nth i autocorr 0 in
  flat_map
    (fun i =>
       if Py.gtb (a i) (a (i - 1)%nat) && Py.gtb (a i) (a (i + 1)%nat)
          && Py.gtb (a i) (3 # 10)
       then [(i, a i)] else [])
    (seq 2 (length autocorr - 1 - 2)).

(** [max(peaks, key=lambda x: x[1])] on a non-empty list headed by
    [best]: the first element carrying the largest value. *)
Fixpoint max_by_value (best : nat * Q) (peaks : list (nat * Q))
  : nat * Q :=
  match peaks with
  | [] => best
  | pk :: rest =>
      max_by_value (if Py.gtb (snd pk) (snd best) then pk else best) rest
  end.

(** [_detectSeasonality(series)]. *)
Definition _detectSeasonality (L : Libs) (cfg : SarimaConfig)
           (series : list Q) : nat :=
  if (length series <? 50)%nat then cfg_s cfg
  else
    let n := length series in
    let nlags := Nat.min 100 (n / 2) in
    let autocorr :=
      if STATSMODELS_AVAILABLE L then acf L series nlags
      else
        let raw := firstn nlags (correlate_tail (centered series)) in
        let a0 := nth 0 raw 0 in
        Some (map (fun a => a / a0) raw) in
    match autocorr with
    | None => cfg_s cfg
    | Some ac =>
        match find_peaks ac with
        | [] => cfg_s cfg
        | pk :: rest => fst (max_by_value pk rest)
        end
    end.

(** [confidence] as [forecast] computes it from the raw values. *)
Definition forecast_confidence (values : list Q) : Q :=
  let variance :=
    if (50 <=? length values)%nat then Np.var (Py.tail 50 values)
    else Np.var values in
  Py.max (5 # 10)
    (Py.min (95 # 100)
       (1 - variance / (Np.mean values * Np.mean values + (1 # 1000000)))).

Definition future_timestamps (lastTimestamp interval : Q) (steps : nat)
  : list Q :=
  map (fun i => lastTimestamp + interval * inject_Z (Z.of_nat (i + 1)))
      (seq 0 steps).

(** [forecast(dataHistory, steps)]: the result, or [None], and the state
    the call leaves behind. *)
Definition forecast (L : Libs) (st : Service) (dataHistory : list Point)
           (steps : nat) : option ForecastResult * Service :=
  if negb (_running st) then (None, st)
  else if (length dataHistory <? 10)%nat then (None, st)
  else
    let values := map value dataHistory in
    match parse_timestamps dataHistory with
    | None => (None, st)
    | Some tss =>
        let st1 :=
          if autoSelectParams (config st) then
            let detectedSeason :=
              _detectSeasonality L (config st) values in
            if negb (detectedSeason =? cfg_s (config st))%nat then
              set_config st (with_s (config st) detectedSeason)
            else st
          else st in
        let series := sort_index (combine tss values) in
        let '(preds, st2) :=
          if STATSMODELS_AVAILABLE L then
            _statsmodelsSarimaForecast L st1 series steps
          else (_simpleSarimaForecast L (config st1) values steps, st1) in
        match Py.last_item tss with
        | None => (None, st2)
        | Some lastTimestamp =>
            let interval :=
              if (2 <=? length tss)%nat then
                lastTimestamp - nth (length tss - 2) tss 0
              else 1 in
            (Some (mkForecastResult
                     preds
                     (future_timestamps lastTimestamp interval steps)
                     (Some (currentMae st2))
                     (config st2)
                     true
                     (forecast_confidence values)),
             st2)
        end
    end.

(** [st] with the two attributes [forecast] may write, the seasonal period
    and the fitted-model handle, blanked out. *)
Definition frame (st : Service) : Service :=
  mkService (with_s (config st) 0) (predictionHistory st) (actualHistory st)
            (currentMae st) (fallbackActive st) false (_running st).

(** The two state-writing steps of [forecast], named: the update of the
    period by the detection, and the model run. *)
Definition detect_step (L : Libs) (values : list Q) (st : Service)
  : Service :=
  if autoSelectParams (config st) then
    let detectedSeason := _detectSeasonality L (config st) values in
    if negb (detectedSeason =? cfg_s (config st))%nat then
      set_config st (with_s (config st) detectedSeason)
    else st
  else st.

Definition model_step (L : Libs) (values : list Q) (series : list (Q * Q))
           (steps : nat) (st1 : Service) : Np.Floats * Service :=
  if STATSMODELS_AVAILABLE L then
    _statsmodelsSarimaForecast L st1 series steps
  else (_simpleSarimaForecast L (config st1) values steps, st1).

End Sarima.

(** ** [services/forecastService.py] *)

Module Forecast.

Import Sarima(Point, mkPoint, timestamp, value, layout, iso).

(** A value as the Granite pipeline may hand it back in a result column:
    a number [float()] accepts and that is finite, one that is not finite
    (nan, inf), an object [float()] rejects or an empty array, or a list,
    tuple or array of such values. *)
#[warnings="-register-all"]
Inductive PyVal :=
| PyFloat (x : Q)
| PyNonFinite
| PyOther
| PyList (items : list PyVal).

(** What this module imports and does not define.  [granite_load] tells
    whether [from_pretrained] and the pipeline construction succeed;
    [granite_pipeline] is the column the pipeline returns for the sorted
    (instant, value) rows, [None] when it raises;
    [ExponentialSmoothing values seasonal_periods steps] is statsmodels'
    Holt-Winters fit and forecast, [None] when the import or the fit
    raises; [tm_yday] is the day of the year of an instant;
    [seasonalFactor k] is [np.cos(2 * np.pi * k / 365)]; and
    [random_normal recent i] is the draw of
    [np.random.normal(0, np.std(recent) * 0.1)] made at step [i]. *)
Record Libs := mkLibs {
  sarimaLibs : Sarima.Libs;
  GRANITE_AVAILABLE : bool;
  granite_load : bool;
  granite_pipeline : list (Q * Q) -> option (list PyVal);
  ExponentialSmoothing : list Q -> nat -> nat -> option (list Q);
  tm_yday : Q -> Z;
  seasonalFactor : Z -> Q;
  random_normal : list Q -> nat -> Q
}.

(** The attributes of a [ForecastService] instance that the modelled
    methods read or write.  The model handles, the device name and the
    aggregation buffers, which no modelled method touches, are left
    out. *)
Record Service := mkService {
  forecast_horizon : nat;
  context_length : nat;
  use_granite : bool;
  sampleInterval : nat;
  _model_loaded : bool;
  _running : bool;
  sarimaFallback : Sarima.Service;
  enableAnnualSeasonality : bool;
  maeThreshold : Q;
  currentMae : Q;
  useFallback : bool;
  predictionHistory : list Q;
  actualHistory : list Q
}.

(** [__init__]; the four environment settings are arguments. *)
Definition init (L : Libs) (forecast_horizon context_length : nat)
           (sampleInterval : nat) (maeThreshold : Q)
           (seasonalPeriodDaily : nat) (enableAnnualSeasonality : bool)
  : Service :=
  let sarimaConfig :=
    Sarima.mkConfig 2 1 1 1 1 1 seasonalPeriodDaily maeThreshold 168
                    true in
  mkService forecast_horizon context_length (GRANITE_AVAILABLE L)
            sampleInterval false true (Sarima.init sarimaConfig)
            enableAnnualSeasonality maeThreshold 0
            (negb (GRANITE_AVAILABLE L)) [] [].

Definition set_sarimaFallback (st : Service) (s : Sarima.Service)
  : Service :=
  mkService (forecast_horizon st) (context_length st) (use_granite st)
            (sampleInterval st) (_model_loaded st) (_running st) s
            (enableAnnualSeasonality st) (maeThreshold st) (currentMae st)
            (useFallback st) (predictionHistory st) (actualHistory st).

Definition set_useFallback (st : Service) (b : bool) : Service :=
  mkService (forecast_horizon st) (context_length st) (use_granite st)
            (sampleInterval st) (_model_loaded st) (_running st)
            (sarimaFallback st) (enableAnnualSeasonality st)
            (maeThreshold st) (currentMae st) b (predictionHistory st)
            (actualHistory st).

Definition set_use_granite (st : Service) (b : bool) : Service :=
  mkService (forecast_horizon st) (context_length st) b
            (sampleInterval st) (_model_loaded st) (_running st)
            (sarimaFallback st) (enableAnnualSeasonality st)
            (maeThreshold st) (currentMae st) (useFallback st)
            (predictionHistory st) (actualHistory st).

Definition set_model_loaded (st : Service) (b : bool) : Service :=
  mkService (forecast_horizon st) (context_length st) (use_granite st)
            (sampleInterval st) b (_running st) (sarimaFallback st)
            (enableAnnualSeasonality st) (maeThreshold st) (currentMae st)
            (useFallback st) (predictionHistory st) (actualHistory st).

Definition stop (st : Service) : Service :=
  mkService (forecast_horizon st) (context_length st) (use_granite st)
            (sampleInterval st) (_model_loaded st) false
            (Sarima.stop (sarimaFallback st))
            (enableAnnualSeasonality st) (maeThreshold st) (currentMae st)
            (useFallback st) (predictionHistory st) (actualHistory st).

(** *** Hourly aggregation *)

Definition hour_bucket (t : Q) : Z := Qfloor (t / 3600).

(** Buckets are kept in ascending order of the hour; a value joins the
    bucket of its hour. *)
Fixpoint insert_bucket (b : Z) (v : Q) (buckets : list (Z * list Q))
  : list (Z * list Q) :=
  match buckets with
  | [] => [(b, [v])]
  | (b', vs) :: rest =>
      if (b <? b')%Z then (b, [v]) :: buckets
      else if (b =? b')%Z then (b', vs ++ [v]) :: rest
      else (b', vs) :: insert_bucket b v rest
  end.

Definition resample_hourly (rows : list (Q * Q)) : list (Z * list Q) :=
  fold_left (fun acc row => insert_bucket (hour_bucket (fst row)) (snd row)
                                          acc)
            rows [].

(** [pd.to_datetime(df['timestamp'])] on a whole column: pandas (from
    version 2) infers the format from the first entry and reads every entry
    with it, so that an entry in another layout raises, even one that parses
    on its own. *)
Definition to_datetime_column (data : list Point) : option (list Q) :=
  match data with
  | [] => Some []
  | first :: _ =>
      if forallb (fun pt => (layout pt =? layout first)%nat) data then
        Sarima.parse_timestamps data
      else None
  end.

(** [aggregateHourlyData(data_history)]: [resample('h')] with the mean of
    every non-empty hour, and the input itself when the [try] block
    raises. *)
Definition aggregateHourlyData (data_history : list Point) : list Point :=
  match data_history with
  | [] => []
  | _ =>
      match to_datetime_column data_history with
      | None => data_history
      | Some tss =>
          map (fun bucket =>
                 mkPoint (Some (3600 * inject_Z (fst bucket)))
                         (Np.mean (snd bucket)) iso)
              (resample_hourly (combine tss (map value data_history)))
      end
  end.

(** *** Annual seasonality and humidity correction *)

(** [enumerate]: the elements with their indices, from [i]. *)
Fixpoint enumerate_from {A} (i : nat) (l : list A) : list (nat * A) :=
  match l with
  | [] => []
  | x :: l' => (i, x) :: enumerate_from (S i) l'
  end.

Definition enumerate {A} (l : list A) : list (nat * A) :=
  enumerate_from 0 l.

Definition steps_ahead (i : nat) : Q := inject_Z (Z.of_nat (i + 1)).

(** [addAnnualSeasonalComponent(predictions, baseTimestamp)]. *)
Definition addAnnualSeasonalComponent (L : Libs) (st : Service)
           (predictions : list Q) (baseTimestamp : Q) : list Q :=
  if negb (enableAnnualSeasonality st) then predictions
  else
    map (fun iv =>
           let futureTs := baseTimestamp + 3600 * steps_ahead (fst iv) in
           let dayOfYear := tm_yday L futureTs in
           let seasonalFactor := seasonalFactor L (dayOfYear - 355)%Z in
           let seasonalAmplitude := 3 in
           snd iv + seasonalFactor * seasonalAmplitude)
        (enumerate predictions).

Definition humiditySlope (humidityValues : list Q) : Q :=
  if (2 <=? length humidityValues)%nat then
    (nth (length humidityValues - 1) humidityValues 0
     - nth 0 humidityValues 0) / Py.len humidityValues
  else 0.

(** [applyHumidityCorrection(tempPredictions, humidityHistory, _)]. *)
Definition applyHumidityCorrection (tempPredictions : list Q)
           (humidityHistory : list Point) : list Q :=
  if (length humidityHistory <? 10)%nat then tempPredictions
  else
    match aggregateHourlyData humidityHistory with
    | [] => tempPredictions
    | humidityHourly =>
        let humidityValues := map value (Py.tail 24 humidityHourly) in
        let avgHumidity := Np.mean humidityValues in
        let slope := humiditySlope humidityValues in
        let referenceHumidity := 50 in
        let humidityImpactCoeff := 5 # 100 in
        map (fun it =>
               let projectedHumidity :=
                 Py.max 0
                   (Py.min 100
                      (avgHumidity + slope * steps_ahead (fst it))) in
               let humidityDeviation :=
                 projectedHumidity - referenceHumidity in
               let correction := humidityDeviation * humidityImpactCoeff in
               snd it + correction)
            (enumerate tempPredictions)
    end.

(** *** Sanitising the primary model's output *)

(** Number of loop iterations a value costs on the work stack. *)
Fixpoint weight (v : PyVal) : nat :=
  match v with
  | PyList items => S (fold_right (fun x n => (weight x + n)%nat) O items)
  | _ => 1%nat
  end.

Definition stack_weight (stack : list PyVal) : nat :=
  fold_right (fun x n => (weight x + n)%nat) O stack.

Definition below_limit (limit : option nat) (n : nat) : bool :=
  match limit with
  | None => true
  | Some k => (n <? k)%nat
  end.

(** The [while stack and ...] loop of [_sanitize_predictions].  The head
    of [stack] is the element [stack.pop()] returns; a list is replaced by
    its items, first item on top.  [fuel] bounds the iterations. *)
Fixpoint sanitize_loop (fuel : nat) (limit : option nat)
         (stack : list PyVal) (sanitized_values : list Q) : list Q :=
  match fuel with
  | O => sanitized_values
  | S fuel' =>
      match stack with
      | [] => sanitized_values
      | current :: stack' =>
          if negb (below_limit limit (length sanitized_values)) then
            sanitized_values
          else
            match current with
            | PyList items =>
                sanitize_loop fuel' limit (items ++ stack')
                              sanitized_values
            | PyFloat x =>
                sanitize_loop fuel' limit stack' (sanitized_values ++ [x])
            | PyNonFinite | PyOther =>
                sanitize_loop fuel' limit stack' sanitized_values
            end
      end
  end.

(** [_sanitize_predictions(raw_predictions, limit)], run with as many
    iterations as the input can need. *)
Definition _sanitize_predictions (raw_predictions : PyVal)
           (limit : option nat) : list Q :=
  let sanitized_values :=
    sanitize_loop (weight raw_predictions) limit [raw_predictions] [] in
  match sanitized_values, limit with
  | [], _ => []
  | _, Some k => firstn k sanitized_values
  | _, None => sanitized_values
  end.

(** *** The three predictors *)

(** [_load_granite_model()]. *)
Definition _load_granite_model (L : Libs) (st : Service) : Service :=
  if _model_loaded st || negb (GRANITE_AVAILABLE L) then st
  else if granite_load L then set_model_loaded st true
  else set_use_granite st false.

(** [_granite_forecast(data_history, steps)]. *)
Definition _granite_forecast (L : Libs) (st : Service)
           (data_history : list Point) (steps : nat)
  : option (list Q) * Service :=
  let st1 := _load_granite_model L st in
  if negb (_model_loaded st1) then (None, st1)
  else
    let recent_data := Py.tail (context_length st1) data_history in
    match Sarima.parse_timestamps recent_data with
    | None => (None, st1)
    | Some tss =>
        let df := Sarima.sort_index (combine tss (map value recent_data)) in
        match granite_pipeline L df with
        | None => (None, st1)
        | Some column =>
            let predictions :=
              _sanitize_predictions (PyList (firstn steps column))
                                    (Some steps) in
            match predictions with
            | [] => (None, st1)
            | _ => (Some predictions, st1)
            end
        end
    end.

(** [_sarima_fallback_forecast(data_history, steps)]. *)
Definition _sarima_fallback_forecast (L : Libs) (st : Service)
           (data_history : list Point) (steps : nat)
  : option Np.Floats * Service :=
  let '(result, sarima') :=
    Sarima.forecast (sarimaLibs L) (sarimaFallback st) data_history
                    steps in
  (option_map Sarima.predictions result, set_sarimaFallback st sarima').

(** [_prepare_series(data_history)]. *)
Definition _prepare_series (st : Service) (data_history : list Point)
  : option (list (Q * Q)) :=
  let recent_data := Py.tail (context_length st) data_history in
  match Sarima.parse_timestamps recent_data with
  | None => None
  | Some tss =>
      Some (Sarima.sort_index (combine tss (map value recent_data)))
  end.

(** [np.polyfit(x, y, 1)] for [x = 0, 1, ..., len(y) - 1]: slope and
    intercept of the least-squares line. *)
Definition polyfit1 (ys : list Q) : Q * Q :=
  let xs := map (fun i => inject_Z (Z.of_nat i)) (seq 0 (length ys)) in
  let xbar := Np.mean xs in
  let ybar := Np.mean ys in
  let sxx := Py.sum (map (fun x => (x - xbar) * (x - xbar)) xs) in
  let sxy :=
    Py.sum (map (fun xy => (fst xy - xbar) * (snd xy - ybar))
                (combine xs ys)) in
  let slope := sxy / sxx in
  (slope, ybar - slope * xbar).

(** [_simple_forecast(series, steps)]; [series.values[-1]] raises on an
    empty series. *)
Definition _simple_forecast (L : Libs) (series : list (Q * Q))
           (steps : nat) : option (list Q) :=
  let values := map snd series in
  let recent_values := Py.tail 50 values in
  let trend : Q -> Q :=
    if (1 <? length recent_values)%nat then
      let '(slope, intercept) := polyfit1 recent_values in
      fun x => slope * x + intercept
    else fun _ => nth (length recent_values - 1) recent_values 0 in
  let period := 50%nat in
  let seasonal :=
    if (period <=? length recent_values)%nat then
      Py.tail period recent_values
    else Np.full period 0 in
  match Py.last_item values with
  | None => None
  | Some last_value =>
      Some
        (map (fun i =>
                let trend_value :=
                  trend (inject_Z (Z.of_nat (length recent_values + i))) in
                let seasonal_idx := (i mod length seasonal)%nat in
                let seasonal_value :=
                  nth seasonal_idx seasonal 0 - Np.mean recent_values in
                let pred := trend_value + seasonal_value * (3 # 10) in
                let noise := random_normal L recent_values i in
                pred + noise)
             (seq 0 steps))
  end.

(** [_exponential_smoothing_forecast(series, steps)]. *)
Definition _exponential_smoothing_forecast (L : Libs)
           (series : list (Q * Q)) (steps : nat) : option (list Q) :=
  match ExponentialSmoothing L (map snd series)
                             (Nat.min 50 (length series / 2)) steps with
  | Some forecast => Some forecast
  | None => _simple_forecast L series steps
  end.

(** *** [predict] *)

(** The values of [model_used]. *)
Inductive Model :=
| unknown
| IBM_Granite_TTM_R2
| SARIMA
| Exponential_Smoothing.

Inductive ModelType := granite | statistical.

(** One entry of ['predictions']. *)
Record Prediction := mkPrediction {
  pred_timestamp : Q;
  pred_value : Np.float;
  horizon_step : nat;
  hours_ahead : Z
}.

(** The dictionary [predict] returns; ['forecast_timestamp'], the wall
    clock at the time of the call, is left out. *)
Record Result := mkResult {
  predictions : list Prediction;
  forecast_horizon_hours : nat;
  context_size : nat;
  original_data_points : nat;
  aggregated : bool;
  annual_seasonality_applied : bool;
  humidity_correction_applied : bool;
  model : Model;
  model_type : ModelType
}.

(** [int(x)] on a float: truncation towards zero. *)
Definition int_of (x : Q) : Z := Z.quot (Qnum x) (Zpos (Qden x)).

(** Stage 1, the primary model: tried when [use_granite] holds and the
    working data fill the context. *)
Definition try_granite (L : Libs) (st : Service) (workingData : list Point)
           (steps : nat) : option Np.Floats * Model * Service :=
  if use_granite st && (context_length st <=? length workingData)%nat then
    let '(forecast_values, st') :=
      _granite_forecast L st workingData steps in
    match forecast_values with
    | Some values => (Some (Np.Numbers values), IBM_Granite_TTM_R2, st')
    | None => (None, unknown, st')
    end
  else (None, unknown, st).

(** Stage 2, the SARIMA fallback, entered when stage 1 left no values. *)
Definition try_sarima (L : Libs) (workingData : list Point) (steps : nat)
           (stage1 : option Np.Floats * Model * Service)
  : option Np.Floats * Model * Service :=
  let '(forecast_values, model_used, st) := stage1 in
  match forecast_values with
  | Some _ => stage1
  | None =>
      let '(forecast_values', st') :=
        _sarima_fallback_forecast L st workingData steps in
      match forecast_values' with
      | Some _ => (forecast_values', SARIMA, set_useFallback st' true)
      | None => (None, model_used, st')
      end
  end.

(** Stage 3, exponential smoothing, entered when stage 2 left no values;
    the outer [None] is an exception raised on the way. *)
Definition try_smoothing (L : Libs) (workingData : list Point)
           (steps : nat) (stage2 : option Np.Floats * Model * Service)
  : option (Np.Floats * Model) :=
  let '(forecast_values, model_used, st) := stage2 in
  match forecast_values with
  | Some values => Some (values, model_used)
  | None =>
      match _prepare_series st workingData with
      | None => None
      | Some series =>
          match _exponential_smoothing_forecast L series steps with
          | None => None
          | Some values => Some (Np.Numbers values, Exponential_Smoothing)
          end
      end
  end.

(** [interval_hours]. *)
Definition interval_hours (is_aggregated : bool) (workingData : list Point)
  : option Q :=
  if is_aggregated then Some 1
  else if (2 <=? length workingData)%nat then
    match Py.last_item workingData,
          Py.item (length workingData - 2) workingData with
    | Some pt1, Some pt2 =>
        match timestamp pt1, timestamp pt2 with
        | Some t1, Some t2 => Some ((t1 - t2) / 3600)
        | _, _ => None
        end
    | _, _ => None
    end
  else Some 1.

Definition build_predictions (last_timestamp interval : Q)
           (forecast_values : Np.Floats) : list Prediction :=
  map (fun iv =>
         mkPrediction
           (last_timestamp + 3600 * (interval * steps_ahead (fst iv)))
           (snd iv)
           (fst iv + 1)
           (int_of (interval * steps_ahead (fst iv))))
      (enumerate (Np.tolist forecast_values)).

(** A correction that adds a finite number to every prediction, applied to
    a float array: values that are nan stay nan, one per prediction. *)
Definition on_numbers (correction : list Q -> list Q) (a : Np.Floats)
  : Np.Floats :=
  match a with
  | Np.Numbers values => Np.Numbers (correction values)
  | Np.NaNs n => Np.NaNs n
  end.

(** [predict(data_history, aggregateData, exogenousData)]: the returned
    dictionary, or [None], and the state the call leaves behind. *)
Definition predict (L : Libs) (st : Service) (data_history : list Point)
           (aggregateData : bool) (exogenousData : option (list Point))
  : option Result * Service :=
  if (length data_history <? 10)%nat then (None, st)
  else
    let is_aggregated :=
      aggregateData && (sampleInterval st <? length data_history)%nat in
    let workingData :=
      if is_aggregated then aggregateHourlyData data_history
      else data_history in
    let steps := Nat.min (forecast_horizon st) 24 in
    let stage2 :=
      try_sarima L workingData steps
                 (try_granite L st workingData steps) in
    let st' := snd stage2 in
    match try_smoothing L workingData steps stage2 with
    | None => (None, st')
    | Some (forecast_values, model_used) =>
        match option_map timestamp (Py.last_item workingData) with
        | None | Some None => (None, st')
        | Some (Some last_timestamp) =>
            let seasonal_values :=
              if enableAnnualSeasonality st' then
                on_numbers
                  (fun values =>
                     addAnnualSeasonalComponent L st' values last_timestamp)
                  forecast_values
              else forecast_values in
            let '(corrected_values, humidity_correction_applied) :=
              match exogenousData with
              | Some exogenous =>
                  (on_numbers
                     (fun values =>
                        applyHumidityCorrection values exogenous)
                     seasonal_values,
                   true)
              | None => (seasonal_values, false)
              end in
            match interval_hours is_aggregated workingData with
            | None => (None, st')
            | Some interval =>
                (Some (mkResult
                         (build_predictions last_timestamp interval
                                            corrected_values)
                         steps
                         (length workingData)
                         (length data_history)
                         is_aggregated
                         (enableAnnualSeasonality st')
                         humidity_correction_applied
                         model_used
                         (match model_used with
                          | IBM_Granite_TTM_R2 => granite
                          | _ => statistical
                          end)),
                 st')
            end
        end
    end.

(** *** Error tracking *)

(** [calculateMae], identical to the SARIMA service's. *)
Definition calculateMae (predictions actuals : list Q) : Q :=
  Sarima.calculateMae predictions actuals.

(** [updateMaeTracking(predicted, actual)]; both deques are built with
    [maxlen=168]. *)
Definition updateMaeTracking (st : Service) (predicted actual : Q)
  : Q * Service :=
  let ph := Py.deque_append 168 (predictionHistory st) predicted in
  let ah := Py.deque_append 168 (actualHistory st) actual in
  let mae := calculateMae ph ah in
  let sarima1 :=
    snd (Sarima.updateMaeTracking (sarimaFallback st) predicted actual) in
  let '(shouldFallback, sarima2) :=
    Sarima.shouldUseFallback sarima1 (Some mae) in
  let useFallback' :=
    if negb (Bool.eqb shouldFallback (useFallback st)) then shouldFallback
    else useFallback st in
  (mae,
   mkService (forecast_horizon st) (context_length st) (use_granite st)
             (sampleInterval st) (_model_loaded st) (_running st) sarima2
             (enableAnnualSeasonality st) (maeThreshold st) mae
             useFallback' ph ah).

(** [shouldUseFallback()]. *)
Definition shouldUseFallback (L : Libs) (st : Service) : bool * Service :=
  if negb (GRANITE_AVAILABLE L) then (true, st)
  else
    let '(answer, sarima') :=
      Sarima.shouldUseFallback (sarimaFallback st) (Some (currentMae st)) in
    (answer, set_sarimaFallback st sarima').

(** [st] with the attributes [predict] may write blanked out: the two
    Granite flags, [useFallback], and, inside the SARIMA service, what
    [Sarima.frame] blanks. *)
Definition frame (st : Service) : Service :=
  mkService (forecast_horizon st) (context_length st) false
            (sampleInterval st) false (_running st)
            (Sarima.frame (sarimaFallback st))
            (enableAnnualSeasonality st) (maeThreshold st) (currentMae st)
            false (predictionHistory st) (actualHistory st).

(** What the three stages of [predict] may hand on: Granite's values,
    between one and [steps] of them, or exactly [steps] values of another
    model. *)
Definition stage_shape (steps : nat) (values : Np.Floats) (m : Model)
  : Prop :=
  (m = IBM_Granite_TTM_R2 /\ (1 <= Np.size values <= steps)%nat) \/
  (m <> IBM_Granite_TTM_R2 /\ Np.size values = steps).

(** [start()]. *)
Definition start (st : Service) : Service :=
  mkService (forecast_horizon st) (context_length st) (use_granite st)
            (sampleInterval st) (_model_loaded st) true
            (Sarima.start (sarimaFallback st))
            (enableAnnualSeasonality st) (maeThreshold st) (currentMae st)
            (useFallback st) (predictionHistory st) (actualHistory st).

(** The state reached from [st] by a sequence of [updateMaeTracking]
    calls, one per (predicted, actual) pair. *)
Definition track (st : Service) (updates : list (Q * Q)) : Service :=
  fold_left (fun st pa => snd (updateMaeTracking st (fst pa) (snd pa)))
            updates st.

(** The orchestrator and its SARIMA service track in step: same window
    size as the orchestrator's own deques, threshold [threshold], and equal
    histories and MAE. *)
Definition in_step (threshold : Q) (st : Service) : Prop :=
  Sarima.maeWindowSize (Sarima.config (sarimaFallback st)) = 168%nat /\
  Sarima.maeThreshold (Sarima.config (sarimaFallback st)) = threshold /\
  predictionHistory st = Sarima.predictionHistory (sarimaFallback st) /\
  actualHistory st = Sarima.actualHistory (sarimaFallback st) /\
  currentMae st = Sarima.currentMae (sarimaFallback st).

(** The data [predict] works on: the hourly aggregation when it is asked
    for and the history is longer than [sampleInterval], the history itself
    otherwise. *)
Definition workingData_of (st : Service) (data_history : list Sarima.Point)
           (aggregateData : bool) : list Sarima.Point :=
  if aggregateData && (sampleInterval st <? length data_history)%nat
  then aggregateHourlyData data_history else data_history.

(** What the model tag of a result says about the state before ([st]) and
    after ([st']) the call and about the working data. *)
Definition provenance (L : Libs) (st st' : Service)
           (workingData : list Sarima.Point) (steps : nat) (m : Model)
  : Prop :=
  match m with
  | IBM_Granite_TTM_R2 =>
      use_granite st = true /\
      (context_length st <= length workingData)%nat /\
      _model_loaded st' = true /\
      useFallback st' = useFallback st
  | SARIMA =>
      useFallback st' = true /\
      Sarima._running (sarimaFallback st) = true /\
      (10 <= length workingData)%nat
  | Exponential_Smoothing =>
      useFallback st' = useFallback st /\
      fst (Sarima.forecast (sarimaLibs L) (sarimaFallback st) workingData
                           steps) = None
  | unknown => False
  end.

(** The finite numbers of a pipeline value, in the order a depth-first,
    left-to-right reading meets them. *)
Fixpoint finite_leaves (v : PyVal) : list Q :=
  match v with
  | PyFloat x => [x]
  | PyNonFinite | PyOther => []
  | PyList items => flat_map finite_leaves items
  end.

End Forecast.

(** ** [app.py]: the caller of the forecast service *)

Module App.

Inductive Metric := temperature | humidity.

(** The attributes of the dashboard that [update_metric_forecast] reads:
    the service ([None] when it could not be built), [history_limit] and
    [forecast_horizon]. *)
Record Dashboard := mkDashboard {
  forecastService : option Forecast.Service;
  history_limit : nat;
  forecast_horizon : nat
}.

(** What one call writes into the rack state: the forecast list and, on the
    service path only, the four metadata entries (model, aggregated,
    seasonal, humidity corrected). *)
Record Written := mkWritten {
  forecast : list Np.float;
  metadata : option (Forecast.Model * bool * bool * bool)
}.

Definition minSamples : nat := 3600.

(** The loop that stamps the last [history_limit] samples one second apart,
    ending at [currentTime]; [strftime] keeps whole seconds. *)
Definition stamp (history_limit : nat) (currentTime : Q) (history : list Q)
  : list Sarima.Point :=
  let historySlice := Py.tail history_limit history in
  map (fun iv =>
         let timestamp :=
           currentTime
           - inject_Z (Z.of_nat (length historySlice - fst iv - 1)) in
         Sarima.mkPoint (Some (inject_Z (Qfloor timestamp))) (snd iv)
                        Sarima.iso)
      (Forecast.enumerate historySlice).

(** The linear extrapolation at the end of [update_metric_forecast]. *)
Definition linear_forecast (forecast_horizon : nat) (history : list Q)
  : option (list Q) :=
  match Py.last_item history with
  | None => None
  | Some last_value =>
      let slope :=
        if (2 <=? length history)%nat then
          last_value - nth (length history - 2) history 0
        else 0 in
      Some (map (fun step => last_value + slope * inject_Z (Z.of_nat step))
                (seq 1 forecast_horizon))
  end.

(** [update_metric_forecast(state, metric)]: what is written for [metric]
    and the dashboard after the call.  [history] and [humidity_history] are
    the two history lists of the rack state. *)
Definition update_metric_forecast (L : Forecast.Libs) (app : Dashboard)
           (currentTime : Q) (history humidity_history : list Q)
           (metric : Metric) : Written * Dashboard :=
  match history with
  | [] => (mkWritten [] None, app)
  | _ =>
      let fallback (app' : Dashboard) :=
        match linear_forecast (forecast_horizon app') history with
        | Some forecast => (mkWritten (map Np.Fin forecast) None, app')
        | None => (mkWritten [] None, app')
        end in
      match forecastService app with
      | Some service =>
          if (minSamples <=? length history)%nat then
            let dataHistory := stamp (history_limit app) currentTime history in
            let exogenousData :=
              match metric with
              | temperature =>
                  if (minSamples <=? length humidity_history)%nat then
                    Some (stamp (history_limit app) currentTime
                                humidity_history)
                  else None
              | humidity => None
              end in
            let '(result, service') :=
              Forecast.predict L service dataHistory true exogenousData in
            match result with
            | Some r =>
                let forecast :=
                  map Forecast.pred_value
                      (firstn (forecast_horizon app)
                              (Forecast.predictions r)) in
                let service'' :=
                  if (2 <=? length history)%nat then
                    match Py.last_item history with
                    | Some lastPredicted =>
                        snd (Forecast.updateMaeTracking
                               service' lastPredicted
                               (nth (length history - 2) history 0))
                    | None => service'
                    end
                  else service' in
                (mkWritten forecast
                           (Some (Forecast.model r, Forecast.aggregated r,
                                  Forecast.annual_seasonality_applied r,
                                  Forecast.humidity_correction_applied r)),
                 mkDashboard (Some service'') (history_limit app)
                             (forecast_horizon app))
            | None =>
                fallback (mkDashboard (Some service') (history_limit app)
                                      (forecast_horizon app))
            end
          else fallback app
      | None => fallback app
      end
  end.

End App.

(** ** Concrete installations and inputs

    Used to run the definitions above on explicit data. *)

Module Scenario.

Import Sarima(Point, mkPoint, iso).

(** An installation without statsmodels, whose linear solvers report a
    singular matrix on every system. *)
Definition bareSarimaLibs : Sarima.Libs :=
  Sarima.mkLibs false (fun _ _ _ => Sarima.FitRaised) (fun _ _ => None)
                (fun _ _ => None) (fun _ _ => None).

(** An installation with neither Granite nor statsmodels; the annual
    factor and the noise draw are constant stand-ins. *)
Definition bareLibs : Forecast.Libs :=
  Forecast.mkLibs bareSarimaLibs false false (fun _ => None)
                  (fun _ _ _ => None)
                  (fun t => (1 + Qfloor (t / 86400) mod 365)%Z)
                  (fun _ => 0) (fun _ _ => 0).

(** An installation where Granite loads and its pipeline answers every
    request with [column]. *)
Definition graniteLibs (column : list Forecast.PyVal) : Forecast.Libs :=
  Forecast.mkLibs bareSarimaLibs true true (fun _ => Some column)
                  (fun _ _ _ => None)
                  (fun t => (1 + Qfloor (t / 86400) mod 365)%Z)
                  (fun _ => 0) (fun _ _ => 0).

(** Points one hour apart, starting at instant 0, carrying [values]. *)
Definition hourly (values : list Q) : list Point :=
  map (fun iv => mkPoint (Some (3600 * inject_Z (Z.of_nat (fst iv))))
                         (snd iv) iso)
      (Forecast.enumerate values).

Definition ten_values : list Q := [20; 21; 22; 23; 24; 25; 24; 23; 22; 21].

Definition ten_points : list Point := hourly ten_values.

(** A service built with the defaults of [ForecastService.__init__] and of
    the environment: horizon 24, context 168, sample interval 3600,
    threshold 5.0, daily period 24, annual seasonality enabled. *)
Definition defaultService (L : Forecast.Libs) : Forecast.Service :=
  Forecast.init L 24 168 3600 5 24 true.

(** Ten readings of 0 followed by fifty readings alternating 1 and 3. *)
Definition sixty_values : list Q :=
  repeat 0 10 ++ concat (repeat [1; 3] 25).

(** A periodic series and one more period of it. *)
Definition seasonal_series : list Q := [1; 2; 1; 2; 1; 2].
Definition seasonal_continuation : list Q := [1; 2].

(** The default orders with a seasonal period of 0 and no automatic
    detection: the seasonal difference then cannot be formed. *)
Definition zeroPeriodConfig : Sarima.SarimaConfig :=
  Sarima.mkConfig 1 1 1 1 1 0 0 5 50 false.

(** An installation with statsmodels, stood in for by forecasters that
    repeat the mean of the series. *)
Definition statsSarimaLibs : Sarima.Libs :=
  Sarima.mkLibs true
                (fun _ series n =>
                   Sarima.Forecasted (Np.full n (Np.mean (map snd series))))
                (fun _ _ => None) (fun _ _ => None) (fun _ _ => None).

Definition statsLibs : Forecast.Libs :=
  Forecast.mkLibs statsSarimaLibs false false (fun _ => None)
                  (fun values _ n => Some (Np.full n (Np.mean values)))
                  (fun t => (1 + Qfloor (t / 86400) mod 365)%Z)
                  (fun _ => 0) (fun _ _ => 0).

(** The default service with a context of ten points. *)
Definition shortContextService (L : Forecast.Libs) : Forecast.Service :=
  Forecast.init L 24 10 3600 5 24 true.

(** An installation where the Granite library imports but the model fails
    to load, and the state a service with a context of ten points is in
    after one [predict] on it: [_load_granite_model] has cleared
    [use_granite] and SARIMA has answered. *)
Definition unloadableLibs : Forecast.Libs :=
  Forecast.mkLibs bareSarimaLibs true false (fun _ => None)
                  (fun _ _ _ => None)
                  (fun t => (1 + Qfloor (t / 86400) mod 365)%Z)
                  (fun _ => 0) (fun _ _ => 0).

Definition afterFailedLoad : Forecast.Service :=
  snd (Forecast.predict unloadableLibs (shortContextService unloadableLibs)
                        ten_points false None).

(** Ten humidity readings one second apart, rising from 50 to 95, whose
    first timestamp is written in one format and the others in another:
    each parses on its own, the column does not. *)
Definition mixed_layout_humidity : list Point :=
  mkPoint (Some 0) 50 iso
  :: map (fun iv => mkPoint (Some (inject_Z (Z.of_nat (fst iv)))) (snd iv) 1)
         (Forecast.enumerate_from 1 [55; 60; 65; 70; 75; 80; 85; 90; 95]).

(** A pipeline answer of 24 cells, the last of which is nan. *)
Definition column_with_nan : list Forecast.PyVal :=
  map Forecast.PyFloat (repeat 21 23) ++ [Forecast.PyNonFinite].

(** Twelve repetitions of the period 1, 2, 4, 2, 1. *)
Definition periodic_values : list Q := concat (repeat [1; 2; 4; 2; 1] 12).

End Scenario.

(** ** The formulas as the specification words them *)

Module Spec.

(** [clamp(x, lo, hi)]. *)
Definition clamp (x lo hi : Q) : Q :=
  if Py.ltb x lo then lo else if Py.ltb hi x then hi else x.

Definition epsilon : Q := 1 # 1000000.

(** Section 4.3, Confidence: [clamp(1 - variance/(mean^2 + eps), 0.5, 0.95)]
    with variance and mean both taken over the last 50 (or fewer) raw
    values. *)
Definition confidence_last_50 (values : list Q) : Q :=
  let window := Py.tail 50 values in
  clamp (1 - Np.var window / (Np.mean window * Np.mean window + epsilon))
        (5 # 10) (95 # 100).

(** The same formula with the variance over the last 50 (or fewer) raw
    values and the mean over all of them. *)
Definition confidence_mixed (values : list Q) : Q :=
  clamp (1 - Np.var (Py.tail 50 values)
             / (Np.mean values * Np.mean values + epsilon))
        (5 # 10) (95 # 100).

(** Section 4.6: the correction of forecast step [step] from the mean and
    the slope of the exogenous window. *)
Definition humidity_correction (mean slope : Q) (step : nat) : Q :=
  (clamp (mean + slope * inject_Z (Z.of_nat step)) 0 100 - 50) * (5 # 100).

(** Section 4.1: points are grouped into calendar-hour buckets and the
    arithmetic mean of every non-empty bucket is emitted, in ascending time
    order.  Rows are (instant, value) pairs; the hours run from the earliest
    to the latest one of the rows. *)
Definition hour_of (t : Q) : Z := Qfloor (t / 3600).

Definition first_hour (rows : list (Q * Q)) : Z :=
  match rows with
  | [] => 0%Z
  | row :: rest =>
      fold_right (fun r lo => Z.min (hour_of (fst r)) lo)
                 (hour_of (fst row)) rest
  end.

Definition last_hour (rows : list (Q * Q)) : Z :=
  match rows with
  | [] => 0%Z
  | row :: rest =>
      fold_right (fun r hi => Z.max (hour_of (fst r)) hi)
                 (hour_of (fst row)) rest
  end.

Definition calendar_hours (rows : list (Q * Q)) : list Z :=
  map (fun k => (first_hour rows + Z.of_nat k)%Z)
      (seq 0 (Z.to_nat (last_hour rows - first_hour rows + 1))).

Definition samples_of (h : Z) (rows : list (Q * Q)) : list Q :=
  map snd (filter (fun row => (hour_of (fst row) =? h)%Z) rows).

Definition has_sample (h : Z) (rows : list (Q * Q)) : bool :=
  existsb (fun row => (hour_of (fst row) =? h)%Z) rows.

Definition hourly_means (rows : list (Q * Q)) : list Q :=
  map (fun h => Np.mean (samples_of h rows))
      (filter (fun h => has_sample h rows) (calendar_hours rows)).

(** The slope of a window as the rise from its first to its last value
    divided by the number of its values, and 0 for fewer than two values. *)
Definition endpoint_slope (window : list Q) : Q :=
  match window with
  | first :: _ :: _ => (last window 0 - first) / Py.len window
  | _ => 0
  end.

End Spec.

(** * Properties *)

(** ** Bounded FIFOs *)

Section Deque.

Context {A : Type}.

Lemma tl_skipn_snoc (k : nat) (l : list A) (x : A) :
  (k <= length l)%nat ->
  tl (skipn k l ++ [x]) = skipn (S k) (l ++ [x]).
Proof.
  revert k; induction l as [|a l IH]; intros k Hk.
  - simpl in Hk. assert (k = 0)%nat by lia. subst. reflexivity.
  - destruct k as [|k].
    + reflexivity.
    + simpl in Hk. change (skipn (S k) (a :: l)) with (skipn k l).
      rewrite IH by lia. reflexivity.
Qed.

(** Appending to the window that keeps the last [w] elements of [l] gives
    the window that keeps the last [w] elements of [l ++ [x]]. *)
Lemma deque_append_window (w : nat) (l : list A) (x : A) :
  Py.deque_append w (skipn (length l - w) l) x
  = skipn (length (l ++ [x]) - w) (l ++ [x]).
Proof.
  unfold Py.deque_append.
  rewrite !length_app, length_skipn. simpl length.
  destruct (Nat.ltb_spec w (length l - (length l - w) + 1)) as [H|H].
  - rewrite tl_skipn_snoc by lia. f_equal. lia.
  - replace (length l - w)%nat with 0%nat by lia.
    replace (length l + 1 - w)%nat with 0%nat by lia.
    reflexivity.
Qed.

Lemma deque_append_length (w : nat) (dq : list A) (x : A) :
  (length dq <= w)%nat ->
  length (Py.deque_append w dq x) = Nat.min (S (length dq)) w.
Proof.
  intros H. unfold Py.deque_append.
  rewrite length_app. simpl length.
  destruct (Nat.ltb_spec w (length dq + 1)) as [H'|H'].
  - destruct dq as [|a dq]; cbn [length tl app] in *; [lia|].
    rewrite length_app. cbn [length]. lia.
  - rewrite length_app. cbn [length]. lia.
Qed.

End Deque.

(** ** Error tracking of the SARIMA service *)

Section SarimaTracking.

Import Sarima.

Lemma track_snoc (st : Service) (updates : list (Q * Q)) (u : Q * Q) :
  track st (updates ++ [u])
  = snd (updateMaeTracking (track st updates) (fst u) (snd u)).
Proof. unfold track. rewrite fold_left_app. reflexivity. Qed.

Lemma track_config (st : Service) (updates : list (Q * Q)) :
  config (track st updates) = config st.
Proof.
  induction updates as [|u updates IH] using rev_ind; [reflexivity|].
  rewrite track_snoc. simpl. exact IH.
Qed.

Lemma track_histories (cfg : SarimaConfig) (updates : list (Q * Q)) :
  let w := maeWindowSize cfg in
  let st := track (init cfg) updates in
  predictionHistory st = skipn (length updates - w) (map fst updates) /\
  actualHistory st = skipn (length updates - w) (map snd updates).
Proof.
  induction updates as [|u updates IH] using rev_ind; [split; reflexivity|].
  cbv zeta in *. destruct IH as [IHp IHa].
  rewrite track_snoc. simpl.
  rewrite track_config. simpl config.
  rewrite IHp, IHa, !map_app, length_app. simpl.
  split.
  - rewrite <- (length_map fst updates) at 1.
    rewrite deque_append_window, length_app, length_map. reflexivity.
  - rewrite <- (length_map snd updates) at 1.
    rewrite deque_append_window, length_app, length_map. reflexivity.
Qed.

(** One call keeps the two FIFOs paired and bounded, whatever state it
    starts from. *)
Lemma updateMaeTracking_invariant (st : Service) (predicted actual : Q) :
  let w := maeWindowSize (config st) in
  length (predictionHistory st) = length (actualHistory st) ->
  (length (predictionHistory st) <= w)%nat ->
  let st' := snd (updateMaeTracking st predicted actual) in
  length (predictionHistory st') = length (actualHistory st') /\
  (length (predictionHistory st') <= maeWindowSize (config st'))%nat.
Proof.
  intros w Heq Hle. simpl.
  rewrite !deque_append_length by (fold w; lia).
  fold w. lia.
Qed.

(** C5.  Starting from a fresh service, after any sequence of calls to
    [updateMaeTracking] the two histories hold exactly the last
    [maeWindowSize] predicted and actual values of the sequence, in
    insertion order (the oldest pairs are the ones evicted); hence they
    have equal length, at most [maeWindowSize], and exactly
    [maeWindowSize] once more than [maeWindowSize] calls were made. *)
Theorem mae_tracking_window (cfg : SarimaConfig) (updates : list (Q * Q)) :
  let w := maeWindowSize cfg in
  let st := track (init cfg) updates in
  predictionHistory st = skipn (length updates - w) (map fst updates) /\
  actualHistory st = skipn (length updates - w) (map snd updates) /\
  length (predictionHistory st) = length (actualHistory st) /\
  (length (predictionHistory st) <= w)%nat /\
  ((w < length updates)%nat ->
   length (predictionHistory st) = w /\ length (actualHistory st) = w).
Proof.
  intros w st.
  destruct (track_histories cfg updates) as [Hp Ha].
  fold w in Hp, Ha. fold st in Hp, Ha.
  rewrite Hp, Ha, !length_skipn, !length_map.
  repeat split; lia.
Qed.

(** A window of two fed with three pairs keeps the last two. *)
Lemma mae_tracking_window_witness :
  let cfg := mkConfig 1 1 1 1 1 0 24 5 2 true in
  let st := track (init cfg) [(1, 2); (3, 4); (5, 6)] in
  predictionHistory st = [3; 5] /\ actualHistory st = [4; 6] /\
  length (predictionHistory st) = 2%nat /\
  length (actualHistory st) = 2%nat.
Proof.
  cbv zeta.
  destruct (mae_tracking_window (mkConfig 1 1 1 1 1 0 24 5 2 true)
                                [(1, 2); (3, 4); (5, 6)])
    as (Hp & Ha & _ & _ & Hfull).
  split; [exact Hp|]. split; [exact Ha|].
  apply Hfull. simpl. lia.
Defined.

End SarimaTracking.

(** ** The fallback decision *)

Section FallbackDecision.

Lemma gtb_true_iff (a b : Q) : Py.gtb a b = true <-> b < a.
Proof.
  unfold Py.gtb, Py.ltb. rewrite Qlt_alt.
  destruct (b ?= a); split; intro H; congruence.
Qed.

Lemma gtb_false_iff (a b : Q) : Py.gtb a b = false <-> a <= b.
Proof.
  pose proof (gtb_true_iff a b) as H.
  destruct (Py.gtb a b); split; intro H'; try reflexivity.
  - discriminate.
  - exfalso. apply (Qlt_not_le b a); tauto.
  - apply Qnot_lt_le. intro Hlt. apply H in Hlt. discriminate.
Qed.



End FallbackDecision.

(** ** [predict]: the minimum data bar and the humidity flag *)

Section PredictBasics.

Import Forecast.

(** C2.  With fewer than ten points [predict] returns no result, whatever
    the [aggregateData] flag and the exogenous data are; the state is left as
    it was. *)
Theorem predict_insufficient_data (L : Libs) (st : Service)
        (data_history : list Sarima.Point) (aggregateData : bool)
        (exogenousData : option (list Sarima.Point)) :
  (length data_history < 10)%nat ->
  predict L st data_history aggregateData exogenousData = (None, st).
Proof.
  intros H. unfold predict.
  destruct (Nat.ltb_spec (length data_history) 10) as [_|H']; [|lia].
  reflexivity.
Qed.

Lemma predict_insufficient_data_witness :
  predict Scenario.bareLibs (Scenario.defaultService Scenario.bareLibs)
          (Scenario.hourly [20; 21; 22]) true
          (Some (Scenario.hourly [60; 61]))
  = (None, Scenario.defaultService Scenario.bareLibs).
Proof.
  apply (predict_insufficient_data Scenario.bareLibs
           (Scenario.defaultService Scenario.bareLibs)
           (Scenario.hourly [20; 21; 22]) true
           (Some (Scenario.hourly [60; 61]))).
  simpl. lia.
Defined.

Lemma applyHumidityCorrection_short (tempPredictions : list Q)
      (humidityHistory : list Sarima.Point) :
  (length humidityHistory < 10)%nat ->
  applyHumidityCorrection tempPredictions humidityHistory = tempPredictions.
Proof.
  intros H. unfold applyHumidityCorrection.
  destruct (Nat.ltb_spec (length humidityHistory) 10) as [_|H']; [|lia].
  reflexivity.
Qed.

Lemma on_numbers_id (correction : list Q -> list Q) (a : Np.Floats) :
  (forall values, correction values = values) ->
  on_numbers correction a = a.
Proof.
  intros H. destruct a as [values|n]; cbn [on_numbers];
    [rewrite H|]; reflexivity.
Qed.

(** C10.  When [predict] is given exogenous data and returns a result, the
    result's [humidity_correction_applied] is True.  This holds also when
    the exogenous series has fewer than ten points: then
    [applyHumidityCorrection] hands every prediction list back unchanged,
    and the call without exogenous data returns the same predictions with
    the flag False. *)
Theorem humidity_flag_set_with_exogenous (L : Libs) (st st' : Service)
        (data_history exogenous : list Sarima.Point) (aggregateData : bool)
        (r : Result) :
  predict L st data_history aggregateData (Some exogenous) = (Some r, st') ->
  humidity_correction_applied r = true /\
  ((length exogenous < 10)%nat ->
   (forall tempPredictions,
       applyHumidityCorrection tempPredictions exogenous = tempPredictions)
   /\
   exists r0,
     predict L st data_history aggregateData None = (Some r0, st') /\
     predictions r0 = predictions r /\
     humidity_correction_applied r0 = false).
Proof.
  unfold predict.
  destruct (length data_history <? 10)%nat; [discriminate|].
  destruct (try_smoothing _ _ _ _) as [[forecast_values model_used]|];
    [|discriminate].
  destruct (option_map _ _) as [[last_timestamp|]|]; try discriminate.
  destruct (interval_hours _ _) as [interval|]; [|discriminate].
  intros H. injection H as <- <-. split; [reflexivity|].
  intros Hshort. split.
  - intros tempPredictions.
    apply applyHumidityCorrection_short, Hshort.
  - eexists. split; [reflexivity|]. simpl.
    rewrite (on_numbers_id
               (fun values => applyHumidityCorrection values exogenous))
      by (intros values; apply applyHumidityCorrection_short, Hshort).
    split; reflexivity.
Qed.

Lemma humidity_flag_set_with_exogenous_witness :
  match predict Scenario.bareLibs
                (Scenario.defaultService Scenario.bareLibs)
                Scenario.ten_points true (Some (Scenario.hourly [60; 61]))
  with
  | (Some r, _) => humidity_correction_applied r = true
  | (None, _) => False
  end.
Proof.
  destruct (predict Scenario.bareLibs
                    (Scenario.defaultService Scenario.bareLibs)
                    Scenario.ten_points true
                    (Some (Scenario.hourly [60; 61])))
    as [[r|] st'] eqn:E.
  - exact (proj1 (humidity_flag_set_with_exogenous _ _ _ _ _ _ _ E)).
  - vm_compute in E. discriminate E.
Defined.

End PredictBasics.

(** ** Confidence of a SARIMA forecast *)

Section Confidence.

Import Sarima.

Lemma ltb_true_iff (a b : Q) : Py.ltb a b = true <-> a < b.
Proof. exact (gtb_true_iff b a). Qed.

Lemma ltb_false_iff (a b : Q) : Py.ltb a b = false <-> b <= a.
Proof. exact (gtb_false_iff b a). Qed.

(** [max(lo, min(hi, x))] is [clamp(x, lo, hi)] when [lo <= hi]. *)
Lemma max_min_clamp (x lo hi : Q) :
  lo <= hi -> Py.max lo (Py.min hi x) == Spec.clamp x lo hi.
Proof.
  intros Hle. unfold Py.max, Py.min, Spec.clamp.
  destruct (Py.ltb x hi) eqn:E1.
  - apply ltb_true_iff in E1.
    destruct (Py.gtb x lo) eqn:E2.
    + apply gtb_true_iff in E2.
      destruct (Py.ltb x lo) eqn:E3.
      * apply ltb_true_iff in E3. exfalso.
        exact (Qlt_irrefl _ (Qlt_trans _ _ _ E2 E3)).
      * destruct (Py.ltb hi x) eqn:E4; [|reflexivity].
        apply ltb_true_iff in E4. exfalso.
        exact (Qlt_irrefl _ (Qlt_trans _ _ _ E1 E4)).
    + apply gtb_false_iff in E2.
      destruct (Py.ltb x lo) eqn:E3; [reflexivity|].
      apply ltb_false_iff in E3.
      destruct (Py.ltb hi x) eqn:E4.
      * apply ltb_true_iff in E4. exfalso.
        exact (Qlt_irrefl _ (Qlt_trans _ _ _ E1 E4)).
      * apply Qle_antisym; assumption.
  - apply ltb_false_iff in E1.
    destruct (Py.gtb hi lo) eqn:E2.
    + apply gtb_true_iff in E2.
      destruct (Py.ltb x lo) eqn:E3.
      * apply ltb_true_iff in E3. exfalso.
        apply (Qlt_irrefl lo).
        apply (Qlt_le_trans _ hi); [exact E2|].
        apply (Qle_trans _ x); [exact E1|]. apply Qlt_le_weak, E3.
      * destruct (Py.ltb hi x) eqn:E4; [reflexivity|].
        apply ltb_false_iff in E4. apply Qle_antisym; assumption.
    + apply gtb_false_iff in E2.
      assert (Heq : lo == hi) by (apply Qle_antisym; assumption).
      destruct (Py.ltb x lo) eqn:E3; [reflexivity|].
      destruct (Py.ltb hi x) eqn:E4; [exact Heq|].
      apply ltb_false_iff in E3. apply ltb_false_iff in E4.
      rewrite Heq. apply Qle_antisym; assumption.
Qed.

Lemma tail_all {A} (n : nat) (l : list A) :
  (length l <= n)%nat -> Py.tail n l = l.
Proof.
  intros H. unfold Py.tail. destruct (n =? 0)%nat; [reflexivity|].
  replace (length l - n)%nat with 0%nat by lia. reflexivity.
Qed.

(** The value [forecast] computes is the clamp of the specification with
    the variance over the last 50 values and the mean over all values. *)
Lemma forecast_confidence_mixed (values : list Q) :
  forecast_confidence values == Spec.confidence_mixed values.
Proof.
  unfold forecast_confidence, Spec.confidence_mixed, Spec.epsilon.
  assert (Hvar : (if (50 <=? length values)%nat
                  then Np.var (Py.tail 50 values) else Np.var values)
                 = Np.var (Py.tail 50 values)).
  { destruct (Nat.leb_spec 50 (length values)) as [H|H]; [reflexivity|].
    rewrite tail_all by lia. reflexivity. }
  rewrite Hvar. rewrite max_min_clamp; [reflexivity|].
  unfold Qle. simpl. lia.
Qed.

Lemma inject_nat_succ (n : nat) :
  inject_Z (Z.of_nat (S n)) == inject_Z (Z.of_nat n) + 1.
Proof.
  rewrite Nat2Z.inj_succ. unfold Z.succ. rewrite inject_Z_plus. reflexivity.
Qed.

Lemma fold_sum_repeat (c : Q) (n : nat) (a : Q) :
  fold_left (fun total x => Qred (total + x)) (repeat c n) a
  == a + inject_Z (Z.of_nat n) * c.
Proof.
  revert a; induction n as [|n IH]; intros a.
  - simpl. ring.
  - cbn [repeat fold_left]. rewrite IH, Qred_correct, inject_nat_succ. ring.
Qed.

Lemma mean_repeat (c : Q) (n : nat) :
  (0 < n)%nat -> Np.mean (repeat c n) == c.
Proof.
  intros Hn. unfold Np.mean, Py.sum, Py.len.
  rewrite fold_sum_repeat, repeat_length.
  assert (Hnz : ~ inject_Z (Z.of_nat n) == 0).
  { unfold Qeq. simpl. lia. }
  field. exact Hnz.
Qed.

Lemma var_repeat (c : Q) (n : nat) : (0 < n)%nat -> Np.var (repeat c n) == 0.
Proof.
  intros Hn. unfold Np.var. rewrite map_repeat, mean_repeat by exact Hn.
  rewrite mean_repeat by exact Hn. ring.
Qed.

Lemma skipn_repeat_count {A} (c : A) (a n : nat) :
  skipn a (repeat c n) = repeat c (n - a).
Proof.
  revert n; induction a as [|a IH]; intros n.
  - rewrite Nat.sub_0_r. reflexivity.
  - destruct n as [|n]; [reflexivity|]. simpl. apply IH.
Qed.

Lemma tail_repeat {A} (c : A) (k n : nat) :
  Py.tail k (repeat c n) = repeat c (if (k =? 0)%nat then n else Nat.min k n).
Proof.
  unfold Py.tail. destruct (k =? 0)%nat eqn:E; [reflexivity|].
  rewrite repeat_length, skipn_repeat_count. f_equal. lia.
Qed.

Lemma clamp_above (x lo hi : Q) : lo <= hi -> hi < x -> Spec.clamp x lo hi = hi.
Proof.
  intros Hle Hlt. unfold Spec.clamp.
  destruct (Py.ltb x lo) eqn:E.
  - apply ltb_true_iff in E. exfalso. apply (Qlt_irrefl x).
    apply (Qlt_le_trans _ lo); [exact E|].
    apply (Qle_trans _ hi); [exact Hle|]. apply Qlt_le_weak, Hlt.
  - apply ltb_true_iff in Hlt. rewrite Hlt. reflexivity.
Qed.

(** A constant series has confidence 0.95. *)
Lemma forecast_confidence_constant (c : Q) (n : nat) :
  (0 < n)%nat -> forecast_confidence (repeat c n) == 95 # 100.
Proof.
  intros Hn. rewrite forecast_confidence_mixed.
  unfold Spec.confidence_mixed.
  rewrite clamp_above; [reflexivity|unfold Qle; simpl; lia|].
  rewrite tail_repeat. cbn [Nat.eqb].
  rewrite var_repeat by lia.
  unfold Qdiv. rewrite Qmult_0_l. unfold Qlt. simpl. lia.
Qed.

Lemma forecast_confidence_of_result (L : Libs) (st st' : Service)
      (dataHistory : list Point) (steps : nat) (r : ForecastResult) :
  forecast L st dataHistory steps = (Some r, st') ->
  confidence r = forecast_confidence (map value dataHistory) /\
  (10 <= length dataHistory)%nat.
Proof.
  unfold forecast.
  destruct (negb (_running st)); [discriminate|].
  destruct (Nat.ltb_spec (length dataHistory) 10) as [|Hlen];
    [discriminate|].
  destruct (parse_timestamps dataHistory) as [tss|]; [|discriminate].
  match goal with
  | |- context [let '(_, _) := ?e in _] => destruct e as [preds st2]
  end.
  destruct (Py.last_item tss) as [lastTimestamp|]; [|discriminate].
  intros H. injection H as <- <-. split; [reflexivity|exact Hlen].
Qed.

(** C7 (amended).  The confidence of a returned SARIMA forecast is
    [clamp(1 - variance/(mean^2 + eps), 0.5, 0.95)] where the variance is
    taken over the last 50 (or fewer) raw values and the mean over all raw
    values; for a constant series it is 0.95. *)
Theorem forecast_confidence_formula (L : Libs) (st st' : Service)
        (dataHistory : list Point) (steps : nat) (r : ForecastResult) :
  forecast L st dataHistory steps = (Some r, st') ->
  confidence r == Spec.confidence_mixed (map value dataHistory) /\
  (forall c : Q,
      map value dataHistory = repeat c (length dataHistory) ->
      confidence r == 95 # 100).
Proof.
  intros H. apply forecast_confidence_of_result in H as [Hc Hlen].
  rewrite Hc. split.
  - apply forecast_confidence_mixed.
  - intros c Hconst. rewrite Hconst.
    apply forecast_confidence_constant. lia.
Qed.

(** Twelve readings of 20.0: the confidence is 0.95. *)
Lemma forecast_confidence_formula_witness :
  match forecast Scenario.bareSarimaLibs (init defaultConfig)
                 (Scenario.hourly (repeat 20 12)) 5
  with
  | (Some r, _) => confidence r == 95 # 100
  | (None, _) => False
  end.
Proof.
  destruct (forecast Scenario.bareSarimaLibs (init defaultConfig)
                     (Scenario.hourly (repeat 20 12)) 5)
    as [[r|] st'] eqn:E.
  - apply (proj2 (forecast_confidence_formula _ _ _ _ _ _ E) 20).
    reflexivity.
  - vm_compute in E. discriminate E.
Defined.

(** C7, as first stated, fails: on ten readings of 0 followed by fifty
    readings alternating 1 and 3 the returned confidence is
    16000009/25000009 (about 0.64), while the formula evaluated over the
    last 50 values alone gives 3000001/4000001 (about 0.75). *)
Lemma forecast_confidence_not_last_50 :
  match forecast Scenario.bareSarimaLibs (init defaultConfig)
                 (Scenario.hourly Scenario.sixty_values) 5
  with
  | (Some r, _) =>
      confidence r == 16000009 # 25000009 /\
      Spec.confidence_last_50 Scenario.sixty_values == 3000001 # 4000001 /\
      ~ confidence r == Spec.confidence_last_50 Scenario.sixty_values
  | (None, _) => False
  end.
Proof.
  destruct (forecast Scenario.bareSarimaLibs (init defaultConfig)
                     (Scenario.hourly Scenario.sixty_values) 5)
    as [[r|] st'] eqn:E.
  - apply forecast_confidence_of_result in E as [Hc _]. rewrite Hc.
    assert (Hv : map value (Scenario.hourly Scenario.sixty_values)
                 = Scenario.sixty_values) by reflexivity.
    rewrite Hv.
    assert (H1 : forecast_confidence Scenario.sixty_values
                 == 16000009 # 25000009) by (vm_compute; reflexivity).
    assert (H2 : Spec.confidence_last_50 Scenario.sixty_values
                 == 3000001 # 4000001) by (vm_compute; reflexivity).
    split; [exact H1|]. split; [exact H2|].
    rewrite H1, H2. vm_compute. discriminate.
  - unfold forecast in E. cbn [negb init _running] in E.
    change (length (Scenario.hourly Scenario.sixty_values) <? 10)%nat
      with false in E.
    change (parse_timestamps (Scenario.hourly Scenario.sixty_values))
      with (Some (map (fun i => 3600 * inject_Z (Z.of_nat i)) (seq 0 60)))
      in E.
    cbv beta iota in E.
    match type of E with
    | context [let '(_, _) := ?e in _] => destruct e as [preds st2]
    end.
    vm_compute in E. discriminate E.
Defined.

End Confidence.

(** ** Humidity correction *)

Section Humidity.

Import Forecast.

Lemma enumerate_from_length {A} (i : nat) (l : list A) :
  length (enumerate_from i l) = length l.
Proof.
  revert i; induction l as [|x l IH]; intros i; simpl; [|rewrite IH];
    reflexivity.
Qed.

Lemma enumerate_from_nth {A} (i k : nat) (l : list A) :
  nth_error (enumerate_from i l) k
  = option_map (fun x => ((i + k)%nat, x)) (nth_error l k).
Proof.
  revert i k; induction l as [|x l IH]; intros i k.
  - destruct k; reflexivity.
  - destruct k as [|k]; simpl.
    + rewrite Nat.add_0_r. reflexivity.
    + rewrite IH. destruct (nth_error l k); simpl; [|reflexivity].
      rewrite Nat.add_succ_r. reflexivity.
Qed.

Lemma parse_timestamps_length (data : list Sarima.Point) (tss : list Q) :
  Sarima.parse_timestamps data = Some tss -> length tss = length data.
Proof.
  revert tss; induction data as [|pt data IH]; intros tss; simpl.
  - intros H. injection H as <-. reflexivity.
  - destruct (Sarima.timestamp pt); [|discriminate].
    destruct (Sarima.parse_timestamps data) as [ts|]; [|discriminate].
    intros H. injection H as <-. simpl. rewrite (IH ts eq_refl). reflexivity.
Qed.

Lemma insert_bucket_nonempty (b : Z) (v : Q) (buckets : list (Z * list Q)) :
  insert_bucket b v buckets <> [].
Proof.
  destruct buckets as [|[b' vs] rest]; simpl; [discriminate|].
  destruct (b <? b')%Z; [discriminate|].
  destruct (b =? b')%Z; discriminate.
Qed.

Lemma resample_hourly_nonempty (rows : list (Q * Q)) :
  rows <> [] -> resample_hourly rows <> [].
Proof.
  destruct rows as [|r rows] using rev_ind; [congruence|].
  intros _. unfold resample_hourly. rewrite fold_left_app. simpl.
  apply insert_bucket_nonempty.
Qed.

(** *** The column parse *)

Lemma to_datetime_column_parse (data : list Sarima.Point) (tss : list Q) :
  to_datetime_column data = Some tss ->
  Sarima.parse_timestamps data = Some tss.
Proof.
  unfold to_datetime_column. destruct data as [|first rest]; [trivial|].
  destruct (forallb _ _); [trivial|discriminate].
Qed.

Lemma to_datetime_column_uniform (data : list Sarima.Point) (l : nat) :
  (forall pt, In pt data -> Sarima.layout pt = l) ->
  to_datetime_column data = Sarima.parse_timestamps data.
Proof.
  destruct data as [|first rest]; [reflexivity|]. intros H.
  unfold to_datetime_column.
  replace (forallb (fun pt => (Sarima.layout pt =? Sarima.layout first)%nat)
                   (first :: rest)) with true; [reflexivity|].
  symmetry. apply forallb_forall. intros pt Hin. apply Nat.eqb_eq.
  rewrite (H pt Hin), (H first (or_introl eq_refl)). reflexivity.
Qed.

Lemma parse_timestamps_unparsed (data : list Sarima.Point)
      (pt : Sarima.Point) :
  In pt data -> Sarima.timestamp pt = None ->
  Sarima.parse_timestamps data = None.
Proof.
  induction data as [|p data IH]; intros Hin Hpt; [destruct Hin|].
  cbn [Sarima.parse_timestamps]. destruct Hin as [->|Hin].
  - rewrite Hpt. reflexivity.
  - rewrite (IH Hin Hpt). destruct (Sarima.timestamp p); reflexivity.
Qed.

(** The column does not parse when an entry does not parse, nor when an
    entry does not follow the layout of the first. *)
Lemma to_datetime_column_none (data : list Sarima.Point) :
  (exists pt, In pt data /\ Sarima.timestamp pt = None) \/
  (exists first rest other,
      data = first :: rest /\ In other rest /\
      Sarima.layout other <> Sarima.layout first) ->
  to_datetime_column data = None.
Proof.
  intros [(pt & Hin & Hpt)|(first & rest & other & -> & Hin & Hl)].
  - unfold to_datetime_column. destruct data as [|first rest];
      [destruct Hin|].
    rewrite (parse_timestamps_unparsed _ _ Hin Hpt).
    destruct (forallb _ _); reflexivity.
  - unfold to_datetime_column.
    destruct (forallb _ _) eqn:E; [|reflexivity].
    rewrite forallb_forall in E.
    specialize (E other (or_intror Hin)). apply Nat.eqb_eq in E.
    congruence.
Qed.

(** A non-empty history never aggregates to an empty one. *)
Lemma aggregateHourlyData_nonempty (data_history : list Sarima.Point) :
  data_history <> [] -> aggregateHourlyData data_history <> [].
Proof.
  intros Hne. unfold aggregateHourlyData.
  destruct data_history as [|pt rest] eqn:Hd; [congruence|].
  rewrite <- Hd in *.
  destruct (to_datetime_column data_history) as [tss|] eqn:Hp;
    [|exact Hne].
  intros Hmap. apply map_eq_nil in Hmap. revert Hmap.
  apply resample_hourly_nonempty.
  apply to_datetime_column_parse, parse_timestamps_length in Hp.
  intros Hc. apply (f_equal (@length _)) in Hc.
  rewrite length_combine, length_map, Hp in Hc.
  rewrite Hd in Hc. simpl in Hc. lia.
Qed.

(** *** The buckets of [resample('h')] against the hourly means of the
    specification *)

Lemma insert_bucket_keys (b k : Z) (v : Q) (buckets : list (Z * list Q)) :
  In k (map fst (insert_bucket b v buckets)) <->
  k = b \/ In k (map fst buckets).
Proof.
  induction buckets as [|[b' vs] rest IH]; cbn [insert_bucket].
  - cbn. intuition.
  - destruct (b <? b')%Z; [cbn; intuition|].
    destruct (Z.eqb_spec b b') as [->|Hne]; [cbn; intuition|].
    cbn [map fst In]. rewrite IH. intuition.
Qed.

Lemma insert_bucket_sorted (b : Z) (v : Q) (buckets : list (Z * list Q)) :
  StronglySorted Z.lt (map fst buckets) ->
  StronglySorted Z.lt (map fst (insert_bucket b v buckets)).
Proof.
  induction buckets as [|[b' vs] rest IH]; intros Hs; cbn [insert_bucket].
  - cbn. repeat constructor.
  - cbn [map fst] in Hs. apply StronglySorted_inv in Hs.
    destruct Hs as [Hs Hall].
    destruct (Z.ltb_spec b b') as [Hlt|Hge].
    + cbn [map fst]. constructor; [constructor; assumption|].
      constructor; [exact Hlt|].
      eapply Forall_impl; [|exact Hall]. intros a Ha. lia.
    + destruct (Z.eqb_spec b b') as [->|Hne].
      * cbn [map fst]. constructor; assumption.
      * cbn [map fst]. constructor; [exact (IH Hs)|].
        apply Forall_forall. intros k Hk. apply insert_bucket_keys in Hk.
        destruct Hk as [->|Hk]; [lia|].
        rewrite Forall_forall in Hall. exact (Hall k Hk).
Qed.

(** Where a bucket of [insert_bucket b v buckets] comes from: it is an old
    bucket of another hour, the old bucket of [b] with [v] appended, or the
    new bucket [[v]] when [b] had none. *)
Lemma insert_bucket_cases (b h : Z) (v : Q) (vs' : list Q)
      (buckets : list (Z * list Q)) :
  StronglySorted Z.lt (map fst buckets) ->
  In (h, vs') (insert_bucket b v buckets) ->
  (h <> b /\ In (h, vs') buckets) \/
  (h = b /\
   ((exists vs, In (b, vs) buckets /\ vs' = vs ++ [v]) \/
    (~ In b (map fst buckets) /\ vs' = [v]))).
Proof.
  induction buckets as [|[b' vs] rest IH]; intros Hs Hin.
  - cbn in Hin. destruct Hin as [H|[]]. injection H as <- <-.
    right. split; [reflexivity|]. right. split; [intros []|reflexivity].
  - cbn [insert_bucket] in Hin. cbn [map fst] in Hs.
    apply StronglySorted_inv in Hs. destruct Hs as [Hs Hall].
    rewrite Forall_forall in Hall.
    assert (Hkey : forall k ws, In (k, ws) rest -> (b' < k)%Z).
    { intros k ws Hk. apply Hall. apply in_map_iff.
      exists (k, ws). split; [reflexivity|exact Hk]. }
    destruct (Z.ltb_spec b b') as [Hlt|Hge].
    + destruct Hin as [H|Hin].
      * injection H as <- <-. right. split; [reflexivity|]. right.
        split; [|reflexivity]. cbn [map fst In]. intros [Heq|Hk].
        -- lia.
        -- specialize (Hall _ Hk). lia.
      * left. split; [|exact Hin]. destruct Hin as [H|Hin].
        -- injection H as <- _. lia.
        -- specialize (Hkey _ _ Hin). lia.
    + destruct (Z.eqb_spec b b') as [->|Hne].
      * destruct Hin as [H|Hin].
        -- injection H as <- <-. right. split; [reflexivity|]. left.
           exists vs. split; [left; reflexivity|reflexivity].
        -- left. split; [|right; exact Hin].
           specialize (Hkey _ _ Hin). lia.
      * destruct Hin as [H|Hin].
        -- injection H as <- <-. left. split; [congruence|].
           left; reflexivity.
        -- destruct (IH Hs Hin)
             as [[Hh Hin']|[-> [(vs0 & Hin' & ->)|[Hnot ->]]]].
           ++ left. split; [exact Hh|right; exact Hin'].
           ++ right. split; [reflexivity|]. left. exists vs0.
              split; [right; exact Hin'|reflexivity].
           ++ right. split; [reflexivity|]. right.
              split; [|reflexivity]. cbn [map fst In].
              intros [Heq|Hk]; [congruence|exact (Hnot Hk)].
Qed.

Lemma samples_of_snoc (h : Z) (rows : list (Q * Q)) (t v : Q) :
  Spec.samples_of h (rows ++ [(t, v)])
  = Spec.samples_of h rows
    ++ (if (Spec.hour_of t =? h)%Z then [v] else []).
Proof.
  unfold Spec.samples_of. rewrite filter_app, map_app. cbn [filter fst].
  destruct (Spec.hour_of t =? h)%Z; reflexivity.
Qed.

Lemma samples_of_none (h : Z) (rows : list (Q * Q)) :
  (forall row, In row rows -> Spec.hour_of (fst row) <> h) ->
  Spec.samples_of h rows = [].
Proof.
  unfold Spec.samples_of. induction rows as [|row rows IH]; intros H;
    [reflexivity|].
  cbn [filter]. destruct (Z.eqb_spec (Spec.hour_of (fst row)) h) as [E|_].
  - destruct (H row (or_introl eq_refl) E).
  - apply IH. intros r Hr. apply H. right. exact Hr.
Qed.

(** The buckets [resample('h')] builds: hours strictly ascending, every
    bucket holding the samples of its hour in their order of arrival, and
    one bucket for every hour that has a sample. *)
Lemma resample_hourly_buckets (rows : list (Q * Q)) :
  StronglySorted Z.lt (map fst (resample_hourly rows)) /\
  (forall h vs, In (h, vs) (resample_hourly rows) ->
                vs = Spec.samples_of h rows) /\
  (forall h, In h (map fst (resample_hourly rows)) <->
             exists row, In row rows /\ Spec.hour_of (fst row) = h).
Proof.
  unfold resample_hourly.
  induction rows as [|[t v] rows IH] using rev_ind.
  - cbn. split; [constructor|]. split; [intros h vs []|].
    intros h. split; [intros []|intros (row & [] & _)].
  - destruct IH as (Hs & Hv & Hk).
    rewrite fold_left_app. cbn [fold_left fst snd].
    set (buckets := fold_left _ rows []) in *.
    change (hour_bucket t) with (Spec.hour_of t).
    split; [exact (insert_bucket_sorted _ _ _ Hs)|]. split.
    + intros h vs Hin. rewrite samples_of_snoc.
      destruct (insert_bucket_cases _ _ _ _ _ Hs Hin)
        as [[Hne Hin']|[-> [(vs0 & Hin' & ->)|[Hnot ->]]]].
      * destruct (Z.eqb_spec (Spec.hour_of t) h) as [E|_];
          [congruence|].
        rewrite app_nil_r. exact (Hv _ _ Hin').
      * rewrite Z.eqb_refl, (Hv _ _ Hin'). reflexivity.
      * rewrite Z.eqb_refl, samples_of_none; [reflexivity|].
        intros row Hrow E. apply Hnot. apply Hk.
        exists row. split; assumption.
    + intros h. rewrite insert_bucket_keys, Hk. split.
      * intros [->|(row & Hin & E)].
        -- exists (t, v). split; [apply in_or_app; right; left|];
             reflexivity.
        -- exists row. split; [apply in_or_app; left|]; assumption.
      * intros (row & Hin & E). apply in_app_or in Hin.
        destruct Hin as [Hin|[<-|[]]].
        -- right. exists row. split; assumption.
        -- left. symmetry. exact E.
Qed.

Lemma hour_bounds (rows : list (Q * Q)) (row : Q * Q) :
  In row rows ->
  (Spec.first_hour rows <= Spec.hour_of (fst row)
   <= Spec.last_hour rows)%Z.
Proof.
  destruct rows as [|r0 rest]; [intros []|].
  unfold Spec.first_hour, Spec.last_hour.
  assert (H : forall r, In r rest \/ r = r0 ->
             (fold_right (fun r lo => Z.min (Spec.hour_of (fst r)) lo)
                         (Spec.hour_of (fst r0)) rest
              <= Spec.hour_of (fst r)
              <= fold_right (fun r hi => Z.max (Spec.hour_of (fst r)) hi)
                            (Spec.hour_of (fst r0)) rest)%Z).
  { induction rest as [|r1 rest IH]; intros r [Hin| ->]; cbn [fold_right].
    - destruct Hin.
    - lia.
    - destruct Hin as [->|Hin].
      + specialize (IH r0 (or_intror eq_refl)). lia.
      + specialize (IH r (or_introl Hin)). lia.
    - specialize (IH r0 (or_intror eq_refl)). lia. }
  intros [<-|Hin]; apply H; [right; reflexivity|left; exact Hin].
Qed.

Lemma range_sorted (lo : Z) (n start : nat) :
  StronglySorted Z.lt (map (fun k => (lo + Z.of_nat k)%Z) (seq start n)).
Proof.
  revert start; induction n as [|n IH]; intros start; cbn [seq map];
    constructor; [apply IH|].
  apply Forall_forall. intros h Hh. apply in_map_iff in Hh.
  destruct Hh as (k & <- & Hk). apply in_seq in Hk. lia.
Qed.

Lemma StronglySorted_filter (f : Z -> bool) (l : list Z) :
  StronglySorted Z.lt l -> StronglySorted Z.lt (filter f l).
Proof.
  induction 1 as [|x l Hs IH Hall]; cbn [filter]; [constructor|].
  destruct (f x); [|exact IH]. constructor; [exact IH|].
  apply Forall_forall. intros y Hy. apply filter_In in Hy.
  rewrite Forall_forall in Hall. apply Hall, Hy.
Qed.

(** Two strictly ascending lists with the same elements are equal. *)
Lemma sorted_ext (l1 l2 : list Z) :
  StronglySorted Z.lt l1 -> StronglySorted Z.lt l2 ->
  (forall x, In x l1 <-> In x l2) -> l1 = l2.
Proof.
  intros H1. revert l2. induction H1 as [|x l1 H1 IH Hall1];
    intros l2 H2 Hext.
  - destruct l2 as [|y l2]; [reflexivity|].
    destruct (proj2 (Hext y) (or_introl eq_refl)).
  - destruct H2 as [|y l2 H2 Hall2].
    { destruct (proj1 (Hext x) (or_introl eq_refl)). }
    rewrite Forall_forall in Hall1, Hall2.
    assert (Hxy : x = y).
    { destruct (proj1 (Hext x) (or_introl eq_refl)) as [E|Hx];
        [congruence|].
      destruct (proj2 (Hext y) (or_introl eq_refl)) as [E|Hy];
        [congruence|].
      specialize (Hall1 _ Hy). specialize (Hall2 _ Hx). lia. }
    subst y. f_equal. apply IH; [exact H2|].
    intros z. split; intros Hz.
    + destruct (proj1 (Hext z) (or_intror Hz)) as [E|Hz']; [|exact Hz'].
      specialize (Hall1 _ Hz). lia.
    + destruct (proj2 (Hext z) (or_intror Hz)) as [E|Hz']; [|exact Hz'].
      specialize (Hall2 _ Hz). lia.
Qed.

(** The means of the buckets are the hourly means of the specification. *)
Lemma resample_hourly_means (rows : list (Q * Q)) :
  map (fun bucket => Np.mean (snd bucket)) (resample_hourly rows)
  = Spec.hourly_means rows.
Proof.
  destruct (resample_hourly_buckets rows) as (Hs & Hv & Hk).
  unfold Spec.hourly_means.
  assert (Hkeys : map fst (resample_hourly rows)
                  = filter (fun h => Spec.has_sample h rows)
                           (Spec.calendar_hours rows)).
  { apply sorted_ext;
      [exact Hs|apply StronglySorted_filter, range_sorted|].
    intros h. rewrite Hk, filter_In. unfold Spec.has_sample.
    rewrite existsb_exists. split.
    - intros (row & Hin & E). split.
      + pose proof (hour_bounds rows row Hin) as Hb. rewrite E in Hb.
        unfold Spec.calendar_hours. apply in_map_iff.
        exists (Z.to_nat (h - Spec.first_hour rows)).
        split; [lia|]. apply in_seq. lia.
      + exists row. split; [exact Hin|]. apply Z.eqb_eq. exact E.
    - intros [_ (row & Hin & E)]. exists row.
      split; [exact Hin|]. apply Z.eqb_eq. exact E. }
  rewrite <- Hkeys, map_map. apply map_ext_in.
  intros [h vs] Hin. cbn [fst snd]. rewrite (Hv h vs Hin). reflexivity.
Qed.

(** When the column parses, the aggregated values are the hourly means of
    the rows. *)
Lemma aggregateHourlyData_values (data_history : list Sarima.Point)
      (tss : list Q) :
  to_datetime_column data_history = Some tss ->
  map Sarima.value (aggregateHourlyData data_history)
  = Spec.hourly_means (combine tss (map Sarima.value data_history)).
Proof.
  intros Hp. unfold aggregateHourlyData.
  destruct data_history as [|pt rest] eqn:Hd.
  - injection Hp as <-. reflexivity.
  - rewrite <- Hd in *. rewrite Hp, map_map. cbn [Sarima.value].
    apply resample_hourly_means.
Qed.

Lemma tail_map {A B} (f : A -> B) (n : nat) (l : list A) :
  map f (Py.tail n l) = Py.tail n (map f l).
Proof.
  unfold Py.tail. destruct (n =? 0)%nat; [reflexivity|].
  rewrite length_map. symmetry. apply skipn_map.
Qed.

Lemma nth_last_item (l : list Q) :
  nth (length l - 1) l 0 = last l 0.
Proof.
  induction l as [|x l IH]; [reflexivity|].
  destruct l as [|y l]; [reflexivity|].
  cbn [length Nat.sub] in *. rewrite Nat.sub_0_r in *.
  change (nth (S (length l)) (x :: y :: l) 0)
    with (nth (length l) (y :: l) 0).
  rewrite IH. reflexivity.
Qed.

Lemma humiditySlope_endpoints (humidityValues : list Q) :
  humiditySlope humidityValues = Spec.endpoint_slope humidityValues.
Proof.
  unfold humiditySlope, Spec.endpoint_slope.
  destruct humidityValues as [|x [|y l]]; [reflexivity|reflexivity|].
  replace (2 <=? length (x :: y :: l))%nat with true
    by (symmetry; apply Nat.leb_le; cbn [length]; lia).
  rewrite nth_last_item. reflexivity.
Qed.

(** The window of the correction: the last 24 hourly means of the
    exogenous rows, or the last 24 raw values when the column of timestamps
    does not parse and [aggregateHourlyData] hands the history back. *)
Lemma humidity_window (humidityHistory : list Sarima.Point) :
  map Sarima.value (Py.tail 24 (aggregateHourlyData humidityHistory))
  = Py.tail 24
      match to_datetime_column humidityHistory with
      | Some tss =>
          Spec.hourly_means
            (combine tss (map Sarima.value humidityHistory))
      | None => map Sarima.value humidityHistory
      end.
Proof.
  rewrite tail_map. f_equal.
  destruct (to_datetime_column humidityHistory) as [tss|] eqn:Hp.
  - exact (aggregateHourlyData_values _ _ Hp).
  - unfold aggregateHourlyData. rewrite Hp.
    destruct humidityHistory; reflexivity.
Qed.

(** With at least ten exogenous points the correction loop runs. *)
Lemma applyHumidityCorrection_loop (tempPredictions : list Q)
      (humidityHistory : list Sarima.Point) :
  (10 <= length humidityHistory)%nat ->
  let window :=
    map Sarima.value (Py.tail 24 (aggregateHourlyData humidityHistory)) in
  applyHumidityCorrection tempPredictions humidityHistory
  = map (fun it =>
           snd it
           + (Py.max 0
                (Py.min 100
                   (Np.mean window
                    + humiditySlope window * steps_ahead (fst it)))
              - 50) * (5 # 100))
        (enumerate tempPredictions).
Proof.
  intros Hlen window. unfold applyHumidityCorrection.
  destruct (Nat.ltb_spec (length humidityHistory) 10) as [H|_]; [lia|].
  assert (Hne : aggregateHourlyData humidityHistory <> []).
  { apply aggregateHourlyData_nonempty. destruct humidityHistory;
      [simpl in Hlen; lia|discriminate]. }
  destruct (aggregateHourlyData humidityHistory) as [|pt rest] eqn:E;
    [congruence|].
  reflexivity.
Qed.

Lemma clamp_inside (x lo hi : Q) :
  lo <= x -> x <= hi -> Spec.clamp x lo hi = x.
Proof.
  intros Hlo Hhi. unfold Spec.clamp.
  apply ltb_false_iff in Hlo. apply ltb_false_iff in Hhi.
  rewrite Hlo, Hhi. reflexivity.
Qed.

Lemma nth_repeat_inside {A} (c d : A) (k n : nat) :
  (k < n)%nat -> nth k (repeat c n) d = c.
Proof.
  revert k; induction n as [|n IH]; intros k Hk; [lia|].
  destruct k as [|k]; [reflexivity|]. simpl. apply IH. lia.
Qed.

Lemma endpoint_slope_constant (c : Q) (n : nat) :
  Spec.endpoint_slope (repeat c n) == 0.
Proof.
  rewrite <- humiditySlope_endpoints.
  unfold humiditySlope. rewrite repeat_length.
  destruct (Nat.leb_spec 2 n) as [H|H]; [|reflexivity].
  rewrite !nth_repeat_inside by lia.
  unfold Qdiv, Qminus. rewrite Qplus_opp_r. apply Qmult_0_l.
Qed.




Lemma scenario_C_every_step :
  Forall (fun t => t == 27)
         (applyHumidityCorrection (repeat 25 24)
                                  (Scenario.hourly (repeat 90 24))).
Proof. vm_compute. repeat constructor. Qed.

End Humidity.

(** ** Differencing and its inversion *)

Section Differencing.

Import Sarima.

Lemma cumsum_from_length (acc : Q) (l : list Q) :
  length (Np.cumsum_from acc l) = length l.
Proof.
  revert acc; induction l as [|x l IH]; intros acc; simpl; [|rewrite IH];
    reflexivity.
Qed.

Lemma cumsum_from_zeros (acc : Q) (k : nat) :
  Forall (fun v => v == acc) (Np.cumsum_from acc (repeat 0 k)).
Proof.
  revert acc; induction k as [|k IH]; intros acc; simpl; constructor.
  - ring.
  - eapply Forall_impl; [|apply IH]. intros v Hv. simpl in Hv.
    rewrite Hv. ring.
Qed.

(** With one plain difference and no seasonal one, zero deltas continue the
    series at its last value. *)
Lemma invertDifferencing_plain_zero_deltas (originalSeries : list Q)
      (lastValue : Q) (k s : nat) :
  Py.last_item originalSeries = Some lastValue ->
  exists result,
    _invertDifferencing (repeat 0 k) originalSeries 1 s 0 = Some result /\
    length result = k /\
    Forall (fun v => v == lastValue) result.
Proof.
  intros Hlast. unfold _invertDifferencing. cbn [repeat_steps].
  unfold undo_plain. rewrite Hlast.
  eexists. split; [reflexivity|]. split.
  - rewrite length_map. unfold Np.cumsum.
    rewrite cumsum_from_length. apply repeat_length.
  - apply Forall_map. eapply Forall_impl; [|apply cumsum_from_zeros].
    intros v Hv. simpl in Hv. rewrite Hv. ring.
Qed.

(** C6 at its failing input.  The series 1, 2, 1, 2, 1, 2 continues with
    1, 2: differenced with [d = 1], [s = 2], [D = 1], the series and its
    continuation give zeros only, so the deltas to forecast are zero.
    [_invertDifferencing] on these zero deltas returns 3, 4: the last raw
    value is added by the plain inversion and a full raw season is added on
    top by the seasonal inversion.  With [d = 0] the same call returns the
    continuation 1, 2.  The same happens without a season for [d = 2]: the
    line 1, 2, 3, 4 continues with 5, 6, its second differences are zero, and
    the inversion of zero deltas returns 8, 12. *)
Theorem invertDifferencing_overshoots :
  let x := Scenario.seasonal_series in
  let continuation := Scenario.seasonal_continuation in
  _applyDifferencing x 1 2 1 = Some [0; 0; 0] /\
  _applyDifferencing (x ++ continuation) 1 2 1 = Some [0; 0; 0; 0; 0] /\
  _invertDifferencing [0; 0] x 1 2 1 = Some [3; 4] /\
  _invertDifferencing [0; 0] x 0 2 1 = Some continuation /\
  _applyDifferencing ([1; 2; 3; 4] ++ [5; 6]) 2 0 0 = Some [0; 0; 0; 0] /\
  _invertDifferencing [0; 0] [1; 2; 3; 4] 2 0 0 = Some [8; 12].
Proof. vm_compute. repeat split; reflexivity. Qed.

End Differencing.

(** ** [SarimaFallbackService.forecast] above the data bar *)

Section SarimaTotality.

Import Sarima.

Lemma parse_timestamps_some (data : list Point) :
  (forall pt, In pt data -> timestamp pt <> None) ->
  exists tss, parse_timestamps data = Some tss.
Proof.
  induction data as [|pt data IH]; intros H; simpl.
  - eexists; reflexivity.
  - destruct (timestamp pt) as [t|] eqn:E.
    + destruct IH as [tss Htss].
      { intros pt' Hin. apply H. right. exact Hin. }
      rewrite Htss. eexists; reflexivity.
    + exfalso. apply (H pt); [left; reflexivity|exact E].
Qed.

Lemma last_item_some {A} (l : list A) :
  l <> [] -> exists x, Py.last_item l = Some x.
Proof.
  intros H. unfold Py.last_item.
  destruct (rev l) as [|x l'] eqn:E.
  - apply (f_equal (@rev A)) in E. rewrite rev_involutive in E.
    simpl in E. congruence.
  - eexists; reflexivity.
Qed.

Lemma repeat_steps_length (n : nat) (f : list Q -> option (list Q))
      (x y : list Q) :
  (forall a b, f a = Some b -> length b = length a) ->
  repeat_steps n f x = Some y -> length y = length x.
Proof.
  intros Hf. revert x; induction n as [|n IH]; intros x; simpl.
  - intros H. injection H as <-. reflexivity.
  - destruct (f x) as [z|] eqn:E; [|discriminate].
    intros H. rewrite (IH _ H). apply Hf, E.
Qed.

Lemma undo_plain_length (originalSeries a b : list Q) :
  undo_plain originalSeries a = Some b -> length b = length a.
Proof.
  unfold undo_plain. destruct (Py.last_item originalSeries); [|discriminate].
  intros H. injection H as <-.
  rewrite length_map. apply cumsum_from_length.
Qed.

Lemma add_base_length (s : nat) (baseValues : list Q) (i : nat)
      (a b : list Q) :
  add_base s baseValues i a = Some b -> length b = length a.
Proof.
  revert i b; induction a as [|val rest IH]; intros i b; simpl.
  - intros H. injection H as <-. reflexivity.
  - destruct (s =? 0)%nat; [discriminate|].
    destruct (Py.item (i mod s) baseValues); [|discriminate].
    destruct (add_base s baseValues (S i) rest) as [newResult|] eqn:E;
      [|discriminate].
    intros H. injection H as <-. simpl. rewrite (IH _ _ E). reflexivity.
Qed.

Lemma undo_seasonal_length (s : nat) (originalSeries a b : list Q) :
  undo_seasonal s originalSeries a = Some b -> length b = length a.
Proof.
  unfold undo_seasonal. destruct (s <=? length originalSeries)%nat.
  - apply add_base_length.
  - intros H. injection H as <-. reflexivity.
Qed.

Lemma invertDifferencing_length (forecasts originalSeries result : list Q)
      (d s D : nat) :
  _invertDifferencing forecasts originalSeries d s D = Some result ->
  length result = length forecasts.
Proof.
  unfold _invertDifferencing.
  destruct (repeat_steps d (undo_plain originalSeries) forecasts)
    as [mid|] eqn:E; [|discriminate].
  intros H.
  rewrite (repeat_steps_length _ _ _ _
             (undo_seasonal_length s originalSeries) H).
  exact (repeat_steps_length _ _ _ _ (undo_plain_length originalSeries) E).
Qed.

Lemma ar_loop_length (p : nat) (arCoeffs diffSeries : list Q) (steps : nat)
      (buffer forecasts : list Q) :
  ar_loop p arCoeffs diffSeries steps buffer = Some forecasts ->
  length forecasts = steps.
Proof.
  revert buffer forecasts; induction steps as [|steps IH];
    intros buffer forecasts; simpl.
  - intros H. injection H as <-. reflexivity.
  - destruct (if ((0 <? p)%nat && (0 <? length arCoeffs)%nat)%bool
              then Np.dot arCoeffs (rev (Py.tail p buffer))
              else Some (Np.mean (Py.tail 10 diffSeries))) as [x|];
      [|discriminate].
    destruct (ar_loop p arCoeffs diffSeries steps (buffer ++ [x]))
      as [rest|] eqn:E; [|discriminate].
    intros H. injection H as <-. simpl. rewrite (IH _ _ E). reflexivity.
Qed.

Lemma tail_length {A} (s : nat) (l : list A) :
  (s <= length l)%nat -> length (Py.tail s l) = (if (s =? 0)%nat
                                                 then length l else s).
Proof.
  intros H. unfold Py.tail. destruct (s =? 0)%nat eqn:E; [reflexivity|].
  rewrite length_skipn. apply Nat.eqb_neq in E. lia.
Qed.

Lemma add_base_total (s : nat) (baseValues : list Q) :
  (1 <= s)%nat -> length baseValues = s ->
  forall (result : list Q) (i : nat),
  exists newResult, add_base s baseValues i result = Some newResult.
Proof.
  intros Hs Hb. induction result as [|val rest IH]; intros i.
  - exists []. reflexivity.
  - cbn [add_base]. destruct (Nat.eqb_spec s 0) as [H|_]; [lia|].
    unfold Py.item.
    destruct (nth_error baseValues (i mod s)) as [b|] eqn:E.
    + destruct (IH (S i)) as [r Hr]. rewrite Hr. eexists; reflexivity.
    + apply nth_error_None in E.
      pose proof (Nat.mod_upper_bound i s). lia.
Qed.

(** With a period between 1 and the length of the original series the
    inversion never raises, and it returns as many values as it is given. *)
Lemma invertDifferencing_some (forecasts originalSeries : list Q)
      (d s D : nat) :
  (1 <= s <= length originalSeries)%nat ->
  exists result,
    _invertDifferencing forecasts originalSeries d s D = Some result /\
    length result = length forecasts.
Proof.
  intros [Hs Hn].
  assert (Hne : originalSeries <> []).
  { destruct originalSeries; [simpl in Hn; lia|discriminate]. }
  destruct (last_item_some _ Hne) as [lastValue Hl].
  assert (H1 : forall n l, exists r,
             repeat_steps n (undo_plain originalSeries) l = Some r).
  { induction n as [|n IH]; intros l; [eexists; reflexivity|].
    cbn [repeat_steps]. unfold undo_plain at 1. rewrite Hl. apply IH. }
  assert (H2 : forall n l, exists r,
             repeat_steps n (undo_seasonal s originalSeries) l = Some r).
  { induction n as [|n IH]; intros l; [eexists; reflexivity|].
    cbn [repeat_steps]. unfold undo_seasonal at 1.
    destruct (Nat.leb_spec s (length originalSeries)) as [_|H]; [|lia].
    destruct (add_base_total s (Py.tail s originalSeries) Hs) with
      (result := l) (i := 0%nat) as [r Hr].
    - rewrite tail_length by lia.
      destruct (Nat.eqb_spec s 0); [lia|reflexivity].
    - rewrite Hr. apply IH. }
  destruct (H1 d forecasts) as [mid Hmid].
  destruct (H2 D mid) as [r Hr].
  exists r.
  assert (E : _invertDifferencing forecasts originalSeries d s D = Some r).
  { unfold _invertDifferencing. rewrite Hmid. exact Hr. }
  split; [exact E|]. exact (invertDifferencing_length _ _ _ _ _ _ E).
Qed.

(** The simplified SARIMA forecast has one value per requested step, on
    every path. *)
Lemma simpleSarimaForecast_length (L : Libs) (cfg : SarimaConfig)
      (series : list Q) (steps : nat) :
  Np.size (_simpleSarimaForecast L cfg series steps) = steps.
Proof.
  unfold _simpleSarimaForecast.
  destruct (simpleSarima_body L cfg series steps) as [result|] eqn:E;
    [|apply repeat_length].
  unfold simpleSarima_body in E.
  destruct (_applyDifferencing series (cfg_d cfg) (cfg_s cfg) (cfg_D cfg))
    as [diffSeries|]; [|discriminate].
  destruct (length diffSeries <? cfg_p cfg + 1)%nat.
  - injection E as <-. apply repeat_length.
  - destruct (_fitArCoefficients L diffSeries (cfg_p cfg)) as [arCoeffs|k].
    + destruct (ar_loop _ _ _ _ _) as [forecasts|] eqn:Ear; [|discriminate].
      destruct (_invertDifferencing _ _ _ _ _) as [inverted|] eqn:Ei;
        [|discriminate].
      injection E as <-. cbn [Np.size].
      rewrite (invertDifferencing_length _ _ _ _ _ _ Ei).
      exact (ar_loop_length _ _ _ _ _ _ Ear).
    + unfold invert_nans in E.
      destruct (_invertDifferencing _ _ _ _ _) as [inverted|] eqn:Ei;
        [|discriminate].
      injection E as <-. cbn [Np.size].
      rewrite (invertDifferencing_length _ _ _ _ _ _ Ei).
      apply repeat_length.
Qed.

(** A sum of zeros is 0, also with the running total kept in lowest
    terms. *)
Lemma sum_of_zeros (l : list Q) :
  Forall (fun x => x == 0) l -> Py.sum l = 0.
Proof.
  unfold Py.sum. induction 1 as [|x l Hx Hl IH]; [reflexivity|].
  cbn [fold_left].
  replace (Qred (0 + x)) with 0; [exact IH|].
  symmetry. change 0 with (Qred 0) at 2. apply Qred_complete.
  rewrite Hx. reflexivity.
Qed.

Lemma centered_constant (c : Q) (m : nat) :
  Forall (fun x => x == 0) (centered (repeat c m)).
Proof.
  unfold centered. apply Forall_map, Forall_forall. intros x Hx.
  destruct m as [|m]; [destruct Hx|].
  apply repeat_spec in Hx. subst x.
  rewrite mean_repeat by lia. ring.
Qed.

Lemma correlate_lag_zeros (series : list Q) (k : nat) :
  Forall (fun x => x == 0) series -> correlate_lag series k = 0.
Proof.
  intros H. unfold correlate_lag. apply sum_of_zeros.
  apply Forall_map, Forall_forall. intros [x y] Hin. cbn [fst snd].
  apply in_combine_l in Hin. rewrite Forall_forall in H.
  rewrite (H x Hin). ring.
Qed.

(** On a constant series the lag-0 product sum is 0 and the fit is nan. *)
Lemma fitArCoefficients_constant (L : Libs) (c : Q) (m p : nat) :
  (1 <= p < m)%nat ->
  _fitArCoefficients L (repeat c m) p = Np.NaNs p.
Proof.
  intros Hp. unfold _fitArCoefficients. rewrite repeat_length.
  destruct (Nat.eqb_spec p 0) as [H|_]; [lia|].
  destruct (Nat.leb_spec m p) as [H|_]; [lia|]. cbn [orb].
  assert (Ha : nth 0 (correlate_tail (centered (repeat c m))) 0 = 0).
  { unfold correlate_tail.
    assert (Hl : length (centered (repeat c m)) = m)
      by (unfold centered; rewrite length_map; apply repeat_length).
    rewrite Hl. destruct m as [|m]; [lia|]. cbn [seq map nth].
    apply correlate_lag_zeros, centered_constant. }
  rewrite Ha. reflexivity.
Qed.

(** An exception in the [try] block is absorbed: with a seasonal period of
    0 the seasonal difference of two or more values cannot be formed, and
    the mean of the last ten raw values is repeated. *)
Lemma simpleSarimaForecast_zero_period (L : Libs) (cfg : SarimaConfig)
      (series : list Q) (steps : nat) :
  cfg_s cfg = 0%nat -> (1 <= cfg_D cfg)%nat -> (2 <= length series)%nat ->
  _simpleSarimaForecast L cfg series steps
  = Np.Numbers (Np.full steps (Np.mean (Py.tail 10 series))).
Proof.
  intros Hs HD Hlen. unfold _simpleSarimaForecast, simpleSarima_body.
  assert (Hd : _applyDifferencing series (cfg_d cfg) (cfg_s cfg)
                                  (cfg_D cfg) = None).
  { unfold _applyDifferencing. rewrite Hs.
    destruct (cfg_D cfg) as [|D]; [lia|]. cbn [repeat_steps].
    unfold seasonal_difference at 1.
    destruct series as [|x [|y rest]]; [cbn in Hlen; lia..|].
    reflexivity. }
  rewrite Hd. reflexivity.
Qed.

(** A division of 0 by 0 is not an exception: when the differenced series
    is constant, every value the simplified forecast returns is nan. *)
Lemma simpleSarimaForecast_nan (L : Libs) (cfg : SarimaConfig)
      (series : list Q) (steps : nat) (c : Q) (m : nat) :
  (1 <= cfg_p cfg < m)%nat ->
  (1 <= cfg_s cfg <= length series)%nat ->
  _applyDifferencing series (cfg_d cfg) (cfg_s cfg) (cfg_D cfg)
  = Some (repeat c m) ->
  _simpleSarimaForecast L cfg series steps = Np.NaNs steps.
Proof.
  intros Hp Hs Hd. unfold _simpleSarimaForecast, simpleSarima_body.
  rewrite Hd, repeat_length.
  destruct (Nat.ltb_spec m (cfg_p cfg + 1)) as [H|_]; [lia|].
  rewrite (fitArCoefficients_constant L c m (cfg_p cfg) Hp).
  unfold invert_nans.
  destruct (invertDifferencing_some (Np.full steps 0) series (cfg_d cfg)
                                    (cfg_s cfg) (cfg_D cfg) Hs)
    as (result & -> & Hlen).
  rewrite Hlen. unfold Np.full. rewrite repeat_length. reflexivity.
Qed.




End SarimaTotality.

(** ** The sanitising loop of [_sanitize_predictions] *)

Section Sanitize.

Import Forecast.

Lemma weight_positive (v : PyVal) : (1 <= weight v)%nat.
Proof. destruct v; simpl; lia. Qed.

Lemma stack_weight_app (a b : list PyVal) :
  stack_weight (a ++ b) = (stack_weight a + stack_weight b)%nat.
Proof.
  unfold stack_weight. induction a as [|x a IH]; simpl; [reflexivity|].
  rewrite IH. lia.
Qed.

Lemma sanitize_loop_step (limit : option nat) (fuel : nat) :
  forall (stack : list PyVal) (sanitized_values : list Q),
    (stack_weight stack <= fuel)%nat ->
    sanitize_loop (S fuel) limit stack sanitized_values
    = sanitize_loop fuel limit stack sanitized_values.
Proof.
  induction fuel as [|fuel IH]; intros stack acc Hw.
  - destruct stack as [|v stack]; [reflexivity|].
    pose proof (weight_positive v). simpl in Hw. lia.
  - destruct stack as [|current stack']; [reflexivity|].
    change (sanitize_loop (S (S fuel)) limit (current :: stack') acc)
      with (if negb (below_limit limit (length acc)) then acc
            else match current with
                 | PyList items =>
                     sanitize_loop (S fuel) limit (items ++ stack') acc
                 | PyFloat x =>
                     sanitize_loop (S fuel) limit stack' (acc ++ [x])
                 | _ => sanitize_loop (S fuel) limit stack' acc
                 end).
    change (sanitize_loop (S fuel) limit (current :: stack') acc)
      with (if negb (below_limit limit (length acc)) then acc
            else match current with
                 | PyList items =>
                     sanitize_loop fuel limit (items ++ stack') acc
                 | PyFloat x => sanitize_loop fuel limit stack' (acc ++ [x])
                 | _ => sanitize_loop fuel limit stack' acc
                 end).
    destruct (negb (below_limit limit (length acc))); [reflexivity|].
    pose proof (weight_positive current) as Hc.
    change (stack_weight (current :: stack'))
      with (weight current + stack_weight stack')%nat in Hw.
    destruct current as [x| | |items]; try (apply IH; lia).
    apply IH. rewrite stack_weight_app.
    change (weight (PyList items)) with (S (stack_weight items)) in Hw.
    lia.
Qed.

(** Iterations beyond the weight of the stack change nothing: the loop of
    [_sanitize_predictions] has left through its own condition by then. *)
Lemma sanitize_loop_enough_fuel (limit : option nat) (extra : nat)
      (stack : list PyVal) (sanitized_values : list Q) :
  sanitize_loop (stack_weight stack + extra) limit stack sanitized_values
  = sanitize_loop (stack_weight stack) limit stack sanitized_values.
Proof.
  induction extra as [|extra IH].
  - rewrite Nat.add_0_r. reflexivity.
  - rewrite Nat.add_succ_r, sanitize_loop_step by lia. exact IH.
Qed.

Lemma sanitize_loop_leaves (k : nat) (fuel : nat) :
  forall (stack : list PyVal) (acc : list Q),
    (stack_weight stack <= fuel)%nat ->
    sanitize_loop fuel (Some k) stack acc
    = if (k <=? length acc)%nat then acc
      else acc ++ firstn (k - length acc) (flat_map finite_leaves stack).
Proof.
  induction fuel as [|fuel IH]; intros stack acc Hw.
  - destruct stack as [|v stack].
    + cbn. destruct (k <=? length acc)%nat; [|rewrite firstn_nil, app_nil_r];
        reflexivity.
    + pose proof (weight_positive v).
      change (stack_weight (v :: stack))
        with (weight v + stack_weight stack)%nat in Hw. lia.
  - destruct stack as [|current stack'].
    + cbn. destruct (k <=? length acc)%nat; [|rewrite firstn_nil, app_nil_r];
        reflexivity.
    + cbn [sanitize_loop below_limit].
      change (stack_weight (current :: stack'))
        with (weight current + stack_weight stack')%nat in Hw.
      pose proof (weight_positive current) as Hc.
      destruct (Nat.leb_spec k (length acc)) as [Hk|Hk].
      * destruct (Nat.ltb_spec (length acc) k); [lia|]. reflexivity.
      * destruct (Nat.ltb_spec (length acc) k) as [_|]; [|lia].
        cbn [negb].
        destruct current as [x| | |items]; cbn [flat_map finite_leaves app].
        -- rewrite IH by lia. rewrite length_app. cbn [length].
           destruct (Nat.leb_spec k (length acc + 1)) as [Hk'|Hk'].
           ++ replace (k - length acc)%nat with 1%nat by lia.
              reflexivity.
           ++ replace (k - length acc)%nat
                with (S (k - (length acc + 1)))%nat by lia.
              cbn [firstn]. rewrite <- app_assoc. reflexivity.
        -- rewrite IH by lia.
           destruct (Nat.leb_spec k (length acc)); [lia|reflexivity].
        -- rewrite IH by lia.
           destruct (Nat.leb_spec k (length acc)); [lia|reflexivity].
        -- rewrite IH.
           ++ destruct (Nat.leb_spec k (length acc)); [lia|].
              rewrite flat_map_app. reflexivity.
           ++ rewrite stack_weight_app.
              change (weight (PyList items))
                with (S (stack_weight items)) in Hw. lia.
Qed.

Lemma sanitize_loop_leaves_unbounded (fuel : nat) :
  forall (stack : list PyVal) (acc : list Q),
    (stack_weight stack <= fuel)%nat ->
    sanitize_loop fuel None stack acc
    = acc ++ flat_map finite_leaves stack.
Proof.
  induction fuel as [|fuel IH]; intros stack acc Hw.
  - destruct stack as [|v stack]; [cbn; rewrite app_nil_r; reflexivity|].
    pose proof (weight_positive v).
    change (stack_weight (v :: stack))
      with (weight v + stack_weight stack)%nat in Hw. lia.
  - destruct stack as [|current stack'];
      [cbn; rewrite app_nil_r; reflexivity|].
    cbn [sanitize_loop below_limit negb].
    change (stack_weight (current :: stack'))
      with (weight current + stack_weight stack')%nat in Hw.
    pose proof (weight_positive current) as Hc.
    destruct current as [x| | |items]; cbn [flat_map finite_leaves app].
    + rewrite IH by lia. rewrite <- app_assoc. reflexivity.
    + apply IH. lia.
    + apply IH. lia.
    + rewrite IH.
      * rewrite flat_map_app. reflexivity.
      * rewrite stack_weight_app.
        change (weight (PyList items)) with (S (stack_weight items)) in Hw.
        lia.
Qed.

(** With a limit, [_sanitize_predictions] returns the first [limit] finite
    numbers of its argument, read depth-first and left to right. *)
Lemma sanitize_predictions_limited (raw_predictions : PyVal) (k : nat) :
  _sanitize_predictions raw_predictions (Some k)
  = firstn k (finite_leaves raw_predictions).
Proof.
  unfold _sanitize_predictions.
  rewrite sanitize_loop_leaves
    by (unfold stack_weight; cbn [fold_right]; lia).
  cbn [length flat_map app]. rewrite app_nil_r, Nat.sub_0_r.
  destruct k as [|k]; [reflexivity|]. cbn [Nat.leb app].
  destruct (firstn (S k) (finite_leaves raw_predictions)) as [|x l] eqn:E;
    [reflexivity|].
  rewrite <- E, firstn_firstn, Nat.min_id. reflexivity.
Qed.

End Sanitize.

(** ** Number of predictions *)

Section PredictionCount.

Import Sarima.

Section WithLibraries.

Variable L : Forecast.Libs.

(** statsmodels returns as many values as it is asked for. *)
Hypothesis SARIMAX_length :
  forall cfg series n values,
    SARIMAX (Forecast.sarimaLibs L) cfg series n = Forecasted values ->
    length values = n.

Hypothesis ExponentialSmoothing_length :
  forall values seasonal_periods n forecast,
    Forecast.ExponentialSmoothing L values seasonal_periods n
    = Some forecast ->
    length forecast = n.

Lemma statsmodelsSarimaForecast_length (st : Service)
      (series : list (Q * Q)) (steps : nat) :
  Np.size (fst (_statsmodelsSarimaForecast (Forecast.sarimaLibs L) st
                                           series steps)) = steps.
Proof.
  unfold _statsmodelsSarimaForecast.
  destruct (SARIMAX _ _ _ _) as [| |values] eqn:E; cbn [fst].
  - apply simpleSarimaForecast_length.
  - apply simpleSarimaForecast_length.
  - exact (SARIMAX_length _ _ _ _ E).
Qed.

Lemma forecast_length (st st' : Service) (dataHistory : list Point)
      (steps : nat) (r : ForecastResult) :
  forecast (Forecast.sarimaLibs L) st dataHistory steps = (Some r, st') ->
  Np.size (predictions r) = steps.
Proof.
  unfold forecast.
  destruct (negb (_running st)); [discriminate|].
  destruct (length dataHistory <? 10)%nat; [discriminate|].
  destruct (parse_timestamps dataHistory) as [tss|]; [|discriminate].
  destruct (STATSMODELS_AVAILABLE (Forecast.sarimaLibs L)).
  - match goal with
    | |- context [_statsmodelsSarimaForecast ?a ?b ?c ?d] =>
        pose proof (statsmodelsSarimaForecast_length b c d) as Hlen;
        destruct (_statsmodelsSarimaForecast a b c d) as [preds st2]
    end.
    destruct (Py.last_item tss); [|discriminate].
    intros H. injection H as <- <-. exact Hlen.
  - destruct (Py.last_item tss); [|discriminate].
    intros H. injection H as <- <-. apply simpleSarimaForecast_length.
Qed.

Import Forecast.

Lemma sanitize_predictions_length (raw_predictions : PyVal) (k : nat) :
  (length (_sanitize_predictions raw_predictions (Some k)) <= k)%nat.
Proof.
  unfold _sanitize_predictions.
  destruct (sanitize_loop _ _ _ _) as [|x l]; [simpl; lia|].
  rewrite length_firstn. lia.
Qed.

Lemma granite_forecast_bounds (st st' : Forecast.Service)
      (data_history : list Point) (steps : nat) (values : list Q) :
  _granite_forecast L st data_history steps = (Some values, st') ->
  (1 <= length values <= steps)%nat.
Proof.
  unfold _granite_forecast.
  destruct (negb (_model_loaded (_load_granite_model L st)));
    [discriminate|].
  destruct (parse_timestamps _) as [tss|]; [|discriminate].
  destruct (granite_pipeline L _) as [column|]; [|discriminate].
  pose proof (sanitize_predictions_length
                (PyList (firstn steps column)) steps) as Hle.
  destruct (_sanitize_predictions _ _) as [|x l] eqn:E; [discriminate|].
  intros H. injection H as <- <-. simpl in *. lia.
Qed.

(** What Granite hands over: the first [steps] finite numbers found in the
    first [steps] cells of the pipeline's column, at least one of them; the
    frame given to the pipeline is the one [_prepare_series] builds. *)
Lemma granite_forecast_count (st st' : Forecast.Service)
      (data_history : list Point) (steps : nat) (values : list Q) :
  _granite_forecast L st data_history steps = (Some values, st') ->
  exists (df : list (Q * Q)) (column : list PyVal),
    _prepare_series st data_history = Some df /\
    granite_pipeline L df = Some column /\
    values = firstn steps (finite_leaves (PyList (firstn steps column))).
Proof.
  unfold _granite_forecast, _prepare_series.
  assert (Hc : context_length (_load_granite_model L st)
               = context_length st).
  { unfold _load_granite_model.
    destruct (_model_loaded st || negb (GRANITE_AVAILABLE L));
      [reflexivity|].
    destruct (granite_load L); reflexivity. }
  rewrite Hc.
  destruct (negb (_model_loaded (_load_granite_model L st)));
    [discriminate|].
  destruct (parse_timestamps _) as [tss|]; [|discriminate].
  destruct (granite_pipeline L _) as [column|] eqn:Ep; [|discriminate].
  rewrite sanitize_predictions_limited.
  destruct (firstn steps _) as [|x l] eqn:E; [discriminate|].
  intros H. injection H as <- <-.
  eexists; exists column. split; [reflexivity|]. split; [exact Ep|].
  symmetry. exact E.
Qed.

Lemma try_smoothing_granite (st : Forecast.Service)
      (workingData : list Point) (steps : nat) (values : Np.Floats) :
  try_smoothing L workingData steps
                (try_sarima L workingData steps
                            (try_granite L st workingData steps))
  = Some (values, IBM_Granite_TTM_R2) ->
  exists (df : list (Q * Q)) (column : list PyVal),
    _prepare_series st workingData = Some df /\
    granite_pipeline L df = Some column /\
    values
    = Np.Numbers
        (firstn steps (finite_leaves (PyList (firstn steps column)))).
Proof.
  assert (Hsar : forall st1 : Forecast.Service,
             try_smoothing L workingData steps
                           (try_sarima L workingData steps
                                       (None, unknown, st1))
             <> Some (values, IBM_Granite_TTM_R2)).
  { intros st1. cbn [try_sarima]. unfold _sarima_fallback_forecast.
    destruct (forecast _ _ _ _) as [[r|] sarima'];
      cbn [option_map try_smoothing]; [discriminate|].
    destruct (_prepare_series _ _) as [series|]; [|discriminate].
    destruct (_exponential_smoothing_forecast L series steps);
      discriminate. }
  unfold try_granite.
  destruct (use_granite st && (context_length st <=? length workingData)%nat);
    [|intros H; destruct (Hsar _ H)].
  destruct (_granite_forecast L st workingData steps)
    as [[gv|] st1] eqn:Eg; [|intros H; destruct (Hsar _ H)].
  cbn [try_sarima try_smoothing]. intros H. injection H as <-.
  destruct (granite_forecast_count _ _ _ _ _ Eg)
    as (df & column & Hdf & Hcol & ->).
  exists df, column. split; [exact Hdf|]. split; [exact Hcol|reflexivity].
Qed.

Lemma simple_forecast_length (series : list (Q * Q)) (steps : nat)
      (values : list Q) :
  _simple_forecast L series steps = Some values -> length values = steps.
Proof.
  unfold _simple_forecast.
  destruct (Py.last_item (map snd series)); [|discriminate].
  intros H. injection H as <-. rewrite length_map. apply length_seq.
Qed.

Lemma exponential_smoothing_forecast_length (series : list (Q * Q))
      (steps : nat) (values : list Q) :
  _exponential_smoothing_forecast L series steps = Some values ->
  length values = steps.
Proof.
  unfold _exponential_smoothing_forecast.
  destruct (ExponentialSmoothing L _ _ _) as [forecast|] eqn:E.
  - intros H. injection H as <-.
    exact (ExponentialSmoothing_length _ _ _ _ E).
  - apply simple_forecast_length.
Qed.

Lemma addAnnualSeasonalComponent_length (st : Forecast.Service)
      (values : list Q) (baseTimestamp : Q) :
  length (addAnnualSeasonalComponent L st values baseTimestamp)
  = length values.
Proof.
  unfold addAnnualSeasonalComponent.
  destruct (negb (enableAnnualSeasonality st)); [reflexivity|].
  rewrite length_map. apply enumerate_from_length.
Qed.

Lemma applyHumidityCorrection_length (values : list Q)
      (humidityHistory : list Point) :
  length (applyHumidityCorrection values humidityHistory) = length values.
Proof.
  unfold applyHumidityCorrection.
  destruct (length humidityHistory <? 10)%nat; [reflexivity|].
  destruct (aggregateHourlyData humidityHistory); [reflexivity|].
  rewrite length_map. apply enumerate_from_length.
Qed.

Lemma tolist_length (values : Np.Floats) :
  length (Np.tolist values) = Np.size values.
Proof.
  destruct values as [l|n]; cbn [Np.tolist Np.size];
    [apply length_map|apply repeat_length].
Qed.

Lemma on_numbers_size (correction : list Q -> list Q) (values : Np.Floats) :
  (forall l, length (correction l) = length l) ->
  Np.size (on_numbers correction values) = Np.size values.
Proof.
  intros H. destruct values as [l|n]; cbn [on_numbers Np.size];
    [apply H|reflexivity].
Qed.

Lemma build_predictions_length (last_timestamp interval : Q)
      (values : Np.Floats) :
  length (build_predictions last_timestamp interval values)
  = Np.size values.
Proof.
  unfold build_predictions, enumerate.
  rewrite length_map, enumerate_from_length. apply tolist_length.
Qed.

Lemma try_smoothing_shape (st : Forecast.Service)
      (workingData : list Point) (steps : nat) (values : Np.Floats)
      (m : Model) :
  try_smoothing L workingData steps
                (try_sarima L workingData steps
                            (try_granite L st workingData steps))
  = Some (values, m) ->
  stage_shape steps values m.
Proof.
  unfold try_granite.
  destruct (use_granite st && (context_length st <=? length workingData)%nat).
  - destruct (_granite_forecast L st workingData steps)
      as [[gv|] st1] eqn:Eg.
    + cbn [try_sarima try_smoothing].
      intros H. injection H as <- <-. left. split; [reflexivity|].
      exact (granite_forecast_bounds _ _ _ _ _ Eg).
    + cbn [try_sarima]. unfold _sarima_fallback_forecast.
      destruct (forecast _ _ _ _) as [[r|] sarima'] eqn:Es;
        cbn [option_map try_smoothing].
      * intros H. injection H as <- <-. right.
        split; [discriminate|]. exact (forecast_length _ _ _ _ _ Es).
      * destruct (_prepare_series _ _) as [series|]; [|discriminate].
        destruct (_exponential_smoothing_forecast L series steps)
          as [ev|] eqn:Ee; [|discriminate].
        intros H. injection H as <- <-. right.
        split; [discriminate|].
        exact (exponential_smoothing_forecast_length _ _ _ Ee).
  - cbn [try_sarima]. unfold _sarima_fallback_forecast.
    destruct (forecast _ _ _ _) as [[r|] sarima'] eqn:Es;
      cbn [option_map try_smoothing].
    + intros H. injection H as <- <-. right.
      split; [discriminate|]. exact (forecast_length _ _ _ _ _ Es).
    + destruct (_prepare_series _ _) as [series|]; [|discriminate].
      destruct (_exponential_smoothing_forecast L series steps)
        as [ev|] eqn:Ee; [|discriminate].
      intros H. injection H as <- <-. right.
      split; [discriminate|].
      exact (exponential_smoothing_forecast_length _ _ _ Ee).
Qed.

(** C4 (amended).  Provided statsmodels returns as many values as it is
    asked for, a result of [predict] never has more than
    [min(forecast_horizon, 24)] predictions and has exactly that many when
    the model used is not Granite.  When it is Granite, the number of
    predictions is the number of finite numbers found, nested cells
    flattened, in the first [min(forecast_horizon, 24)] cells of the column
    the pipeline returned for the prepared frame, capped at
    [min(forecast_horizon, 24)], and it is at least one.  The reported
    horizon is [min(forecast_horizon, 24)] in every case. *)
Theorem predictions_count (st st' : Forecast.Service)
        (data_history : list Point) (aggregateData : bool)
        (exogenousData : option (list Point)) (r : Result) :
  predict L st data_history aggregateData exogenousData = (Some r, st') ->
  let steps := Nat.min (forecast_horizon st) 24 in
  (length (Forecast.predictions r) <= steps)%nat /\
  (model r <> IBM_Granite_TTM_R2 ->
   length (Forecast.predictions r) = steps) /\
  (model r = IBM_Granite_TTM_R2 ->
   (1 <= length (Forecast.predictions r))%nat /\
   exists (df : list (Q * Q)) (column : list PyVal),
     _prepare_series st (workingData_of st data_history aggregateData)
     = Some df /\
     granite_pipeline L df = Some column /\
     length (Forecast.predictions r)
     = Nat.min steps
               (length (finite_leaves (PyList (firstn steps column))))) /\
  forecast_horizon_hours r = steps.
Proof.
  unfold predict, workingData_of.
  destruct (length data_history <? 10)%nat; [discriminate|].
  destruct (try_smoothing _ _ _ _) as [[values m]|] eqn:E; [|discriminate].
  assert (Hg : m = IBM_Granite_TTM_R2 ->
               exists (df : list (Q * Q)) (column : list PyVal),
                 _prepare_series
                   st (if aggregateData
                          && (sampleInterval st <? length data_history)%nat
                       then aggregateHourlyData data_history
                       else data_history) = Some df /\
                 granite_pipeline L df = Some column /\
                 Np.size values
                 = Nat.min (Nat.min (forecast_horizon st) 24)
                     (length (finite_leaves
                                (PyList (firstn (Nat.min (forecast_horizon st)
                                                         24) column))))).
  { intros ->. destruct (try_smoothing_granite _ _ _ _ E)
      as (df & column & Hdf & Hcol & ->).
    exists df, column. split; [exact Hdf|]. split; [exact Hcol|].
    apply length_firstn. }
  apply try_smoothing_shape in E.
  destruct (option_map _ _) as [[last_timestamp|]|]; try discriminate.
  match goal with
  | |- context [if ?b then on_numbers ?f ?v else _] =>
      assert (Hs : Np.size (if b then on_numbers f v else v) = Np.size v)
        by (destruct b;
            [apply on_numbers_size; intros l;
             apply addAnnualSeasonalComponent_length
            |reflexivity])
  end.
  destruct exogenousData as [exogenous|];
    (destruct (interval_hours _ _) as [interval|]; [|discriminate]);
    intros H; injection H as <- <-;
    cbn [Forecast.predictions model forecast_horizon_hours];
    rewrite build_predictions_length,
      ?(on_numbers_size
          (fun values => applyHumidityCorrection values exogenous))
      by (intros l; apply applyHumidityCorrection_length);
    rewrite Hs;
    (split; [destruct E as [[-> Hb]|[Hm Hb]]; lia|]);
    (split; [destruct E as [[-> Hb]|[Hm Hb]]; intros; [congruence|lia]|]);
    (split; [|reflexivity]);
    intros Hm; (split; [destruct E as [[_ Hb]|[Hn _]]; [lia|congruence]|]);
    exact (Hg Hm).
Qed.

End WithLibraries.

End PredictionCount.

Section PredictionCountExamples.

Import Forecast.

(** Ten hourly readings on an installation with statsmodels: 24
    predictions. *)
Lemma predictions_count_witness :
  match predict Scenario.statsLibs
                (Scenario.defaultService Scenario.statsLibs)
                Scenario.ten_points true None
  with
  | (Some r, _) => length (predictions r) = 24%nat
  | (None, _) => False
  end.
Proof.
  destruct (predict Scenario.statsLibs
                    (Scenario.defaultService Scenario.statsLibs)
                    Scenario.ten_points true None)
    as [[r|] st'] eqn:E.
  - refine (proj1 (proj2 (predictions_count Scenario.statsLibs _ _ _ _ _ _ _
                                            _ E)) _).
    + intros cfg series n values H. injection H as <-.
      apply repeat_length.
    + intros values sp n forecast H. injection H as <-.
      apply repeat_length.
    + vm_compute in E. injection E as <- <-. discriminate.
  - vm_compute in E. discriminate E.
Defined.

(** C4, as first stated, fails on the Granite path: with a horizon of 24
    and a pipeline answer whose 24th cell is nan, [predict] returns 23
    predictions while reporting a horizon of 24. *)
Lemma predictions_count_short_on_granite :
  let L := Scenario.graniteLibs Scenario.column_with_nan in
  let st := Scenario.shortContextService L in
  match predict L st Scenario.ten_points true None with
  | (Some r, _) =>
      length (predictions r) = 23%nat /\
      Nat.min (forecast_horizon st) 24 = 24%nat /\
      forecast_horizon_hours r = 24%nat /\
      model r = IBM_Granite_TTM_R2
  | (None, _) => False
  end.
Proof. vm_compute. repeat split; reflexivity. Qed.

End PredictionCountExamples.

(** ** What [predict] writes *)

Section PredictFrame.

Import Forecast.

Lemma sarima_forecast_frame (L : Sarima.Libs) (st : Sarima.Service)
      (dataHistory : list Sarima.Point) (steps : nat) :
  Sarima.frame (snd (Sarima.forecast L st dataHistory steps))
  = Sarima.frame st.
Proof.
  unfold Sarima.forecast.
  destruct (negb (Sarima._running st)); [reflexivity|].
  destruct (length dataHistory <? 10)%nat; [reflexivity|].
  destruct (Sarima.parse_timestamps dataHistory) as [tss|]; [|reflexivity].
  set (st1 := if Sarima.autoSelectParams (Sarima.config st) then _ else st).
  assert (H1 : Sarima.frame st1 = Sarima.frame st).
  { unfold st1. destruct (Sarima.autoSelectParams (Sarima.config st));
      [|reflexivity].
    destruct (negb _); reflexivity. }
  destruct (Sarima.STATSMODELS_AVAILABLE L).
  - unfold Sarima._statsmodelsSarimaForecast.
    destruct (Sarima.SARIMAX L _ _ _); destruct (Py.last_item tss);
      cbn [snd]; exact H1.
  - destruct (Py.last_item tss); cbn [snd]; exact H1.
Qed.

Lemma granite_forecast_frame (L : Libs) (st : Service)
      (data_history : list Sarima.Point) (steps : nat) :
  frame (snd (_granite_forecast L st data_history steps)) = frame st /\
  useFallback (snd (_granite_forecast L st data_history steps))
  = useFallback st.
Proof.
  unfold _granite_forecast.
  assert (Hl : frame (_load_granite_model L st) = frame st /\
               useFallback (_load_granite_model L st) = useFallback st).
  { unfold _load_granite_model.
    destruct (_model_loaded st || negb (GRANITE_AVAILABLE L));
      [split; reflexivity|].
    destruct (granite_load L); split; reflexivity. }
  destruct (negb (_model_loaded (_load_granite_model L st)));
    [exact Hl|].
  destruct (Sarima.parse_timestamps _); [|exact Hl].
  destruct (granite_pipeline L _); [|exact Hl].
  destruct (_sanitize_predictions _ _); exact Hl.
Qed.

Lemma stages_frame (L : Libs) (st : Service)
      (workingData : list Sarima.Point) (steps : nat) :
  let st' := snd (try_sarima L workingData steps
                             (try_granite L st workingData steps)) in
  frame st' = frame st /\
  (useFallback st' = useFallback st \/ useFallback st' = true).
Proof.
  cbv zeta.
  assert (Hg : frame (snd (try_granite L st workingData steps)) = frame st /\
               useFallback (snd (try_granite L st workingData steps))
               = useFallback st).
  { unfold try_granite.
    destruct (use_granite st && _); [|split; reflexivity].
    pose proof (granite_forecast_frame L st workingData steps) as H.
    destruct (_granite_forecast L st workingData steps) as [[v|] st1];
      exact H. }
  destruct (try_granite L st workingData steps) as [[fv m] st1].
  cbn [snd] in Hg. destruct Hg as [Hf Hu].
  unfold try_sarima. destruct fv as [v|].
  - cbn [snd]. split; [exact Hf|left; exact Hu].
  - unfold _sarima_fallback_forecast.
    pose proof (sarima_forecast_frame (sarimaLibs L) (sarimaFallback st1)
                                      workingData steps) as Hs.
    destruct (Sarima.forecast _ _ _ _) as [[r|] sarima'];
      cbn [option_map snd] in *.
    + split; [|right; reflexivity].
      rewrite <- Hf. unfold frame. cbn. rewrite Hs. reflexivity.
    + split; [|left; exact Hu].
      rewrite <- Hf. unfold frame. cbn. rewrite Hs. reflexivity.
Qed.

Lemma predict_state (L : Libs) (st : Service)
      (data_history : list Sarima.Point) (aggregateData : bool)
      (exogenousData : option (list Sarima.Point)) :
  snd (predict L st data_history aggregateData exogenousData) = st \/
  exists workingData steps,
    snd (predict L st data_history aggregateData exogenousData)
    = snd (try_sarima L workingData steps
                      (try_granite L st workingData steps)).
Proof.
  unfold predict.
  destruct (length data_history <? 10)%nat; [left; reflexivity|].
  right. do 2 eexists.
  destruct (try_smoothing _ _ _ _) as [[values m]|]; [|reflexivity].
  destruct (option_map _ _) as [[last_timestamp|]|]; try reflexivity.
  destruct exogenousData; destruct (interval_hours _ _); reflexivity.
Qed.

(** C9 (amended).  [predict] leaves the error tracking of both services
    untouched (prediction and actual histories, current MAE, thresholds,
    window size, the SARIMA service's [fallbackActive]), as well as the
    horizon, context, sample interval, running flags, seasonality switch and
    every SARIMA order other than the period.  [useFallback] either keeps
    its value or becomes True.  The seasonal period [s], the fitted-model
    handle and the two Granite flags are not covered: [predict] may write
    them. *)
Theorem predict_frame (L : Libs) (st : Service)
        (data_history : list Sarima.Point) (aggregateData : bool)
        (exogenousData : option (list Sarima.Point)) :
  let st' := snd (predict L st data_history aggregateData exogenousData) in
  let sarima := sarimaFallback st in
  let sarima' := sarimaFallback st' in
  (predictionHistory st' = predictionHistory st /\
   actualHistory st' = actualHistory st /\
   currentMae st' = currentMae st /\
   maeThreshold st' = maeThreshold st) /\
  (Sarima.predictionHistory sarima' = Sarima.predictionHistory sarima /\
   Sarima.actualHistory sarima' = Sarima.actualHistory sarima /\
   Sarima.currentMae sarima' = Sarima.currentMae sarima /\
   Sarima.fallbackActive sarima' = Sarima.fallbackActive sarima /\
   Sarima._running sarima' = Sarima._running sarima) /\
  Sarima.with_s (Sarima.config sarima') 0
  = Sarima.with_s (Sarima.config sarima) 0 /\
  (forecast_horizon st' = forecast_horizon st /\
   context_length st' = context_length st /\
   sampleInterval st' = sampleInterval st /\
   _running st' = _running st /\
   enableAnnualSeasonality st' = enableAnnualSeasonality st) /\
  (useFallback st' = useFallback st \/ useFallback st' = true).
Proof.
  cbv zeta.
  assert (H : frame (snd (predict L st data_history aggregateData
                                  exogenousData)) = frame st /\
              (useFallback (snd (predict L st data_history aggregateData
                                         exogenousData)) = useFallback st \/
               useFallback (snd (predict L st data_history aggregateData
                                         exogenousData)) = true)).
  { destruct (predict_state L st data_history aggregateData exogenousData)
      as [->|(workingData & steps & ->)].
    - split; [reflexivity|left; reflexivity].
    - apply stages_frame. }
  destruct H as [Hf Hu].
  set (st' := snd (predict L st data_history aggregateData exogenousData))
    in *.
  pose proof (fun (A : Type) (f : Service -> A) => f_equal f Hf) as Hfield.
  pose proof (fun (A : Type) (f : Sarima.Service -> A) =>
                Hfield A (fun s => f (sarimaFallback s))) as Hsarima.
  split; [|split; [|split; [|split]]].
  - repeat split.
    + exact (Hfield _ predictionHistory).
    + exact (Hfield _ actualHistory).
    + exact (Hfield _ currentMae).
    + exact (Hfield _ maeThreshold).
  - repeat split.
    + exact (Hsarima _ Sarima.predictionHistory).
    + exact (Hsarima _ Sarima.actualHistory).
    + exact (Hsarima _ Sarima.currentMae).
    + exact (Hsarima _ Sarima.fallbackActive).
    + exact (Hsarima _ Sarima._running).
  - exact (Hsarima _ Sarima.config).
  - repeat split.
    + exact (Hfield _ forecast_horizon).
    + exact (Hfield _ context_length).
    + exact (Hfield _ sampleInterval).
    + exact (Hfield _ _running).
    + exact (Hfield _ enableAnnualSeasonality).
  - exact Hu.
Qed.

(** C9, as first stated, fails.  With Granite installed and ten points of
    history, fewer than the context of 168, the forecast comes from SARIMA
    and [useFallback] goes from False to True.  With sixty points of period
    5 the call also overwrites the seasonal period, 24, with the detected
    one, 5. *)
Lemma predict_writes_state :
  let L := Scenario.graniteLibs [] in
  let st := Scenario.defaultService L in
  useFallback st = false /\
  useFallback (snd (predict L st Scenario.ten_points true None)) = true /\
  Sarima.cfg_s (Sarima.config (sarimaFallback st)) = 24%nat /\
  Sarima.cfg_s
    (Sarima.config
       (sarimaFallback
          (snd (predict L st (Scenario.hourly Scenario.periodic_values)
                        true None)))) = 5%nat.
Proof. vm_compute. repeat split; reflexivity. Qed.

End PredictFrame.

(** * Further properties of the two services and of their caller *)

(** ** Mean absolute error *)

Section MeanAbsoluteError.

Import Sarima.

Lemma fold_sum_acc (l : list Q) (a : Q) :
  fold_left (fun total x => Qred (total + x)) l a == a + Py.sum l.
Proof.
  unfold Py.sum. revert a; induction l as [|x l IH]; intros a.
  - simpl. ring.
  - cbn [fold_left]. rewrite (IH (Qred (a + x))), (IH (Qred (0 + x))).
    rewrite !Qred_correct. ring.
Qed.

Lemma sum_cons (x : Q) (l : list Q) : Py.sum (x :: l) == x + Py.sum l.
Proof.
  unfold Py.sum at 1. cbn [fold_left]. rewrite fold_sum_acc, Qred_correct.
  ring.
Qed.

Lemma sum_bounds (l : list Q) (lo hi : Q) :
  Forall (fun x => lo <= x <= hi) l ->
  Py.len l * lo <= Py.sum l <= Py.len l * hi.
Proof.
  induction 1 as [|x l [Hlo Hhi] _ [IHlo IHhi]].
  - unfold Py.len, Py.sum. simpl. split; unfold Qle; simpl; lia.
  - unfold Py.len in *. cbn [length]. rewrite inject_nat_succ, sum_cons.
    split.
    + setoid_replace ((inject_Z (Z.of_nat (length l)) + 1) * lo)
        with (lo + inject_Z (Z.of_nat (length l)) * lo) by ring.
      apply Qplus_le_compat; assumption.
    + setoid_replace ((inject_Z (Z.of_nat (length l)) + 1) * hi)
        with (hi + inject_Z (Z.of_nat (length l)) * hi) by ring.
      apply Qplus_le_compat; assumption.
Qed.

Lemma len_positive {A} (l : list A) : l <> [] -> 0 < Py.len l.
Proof.
  intros H. destruct l; [congruence|]. unfold Py.len, Qlt. simpl. lia.
Qed.

Lemma combine_fst_snd {A B} (l : list (A * B)) :
  combine (map fst l) (map snd l) = l.
Proof.
  induction l as [|[a b] l IH]; simpl; [|rewrite IH]; reflexivity.
Qed.

(** [calculateMae] is the mean absolute error of the pairs [zip] forms. *)
Lemma calculateMae_combine (predictions actuals : list Q) :
  calculateMae predictions actuals
  = match combine predictions actuals with
    | [] => 0
    | pairs =>
        Py.sum (map (fun pa => Qabs (fst pa - snd pa)) pairs) / Py.len pairs
    end.
Proof.
  unfold calculateMae.
  destruct predictions as [|x p]; [reflexivity|].
  destruct actuals as [|y a]; [reflexivity|].
  cbn [length Nat.min Nat.eqb combine]. unfold Py.len.
  cbn [length]. rewrite length_combine. reflexivity.
Qed.

Lemma calculateMae_pairs (pairs : list (Q * Q)) :
  pairs <> [] ->
  calculateMae (map fst pairs) (map snd pairs)
  = Py.sum (map (fun pa => Qabs (fst pa - snd pa)) pairs) / Py.len pairs.
Proof.
  intros Hne. rewrite calculateMae_combine, combine_fst_snd.
  destruct pairs; [congruence|reflexivity].
Qed.

Lemma mean_error_between (pairs : list (Q * Q)) (lo hi : Q) :
  pairs <> [] ->
  Forall (fun pa => lo <= Qabs (fst pa - snd pa) <= hi) pairs ->
  lo <= Py.sum (map (fun pa => Qabs (fst pa - snd pa)) pairs) / Py.len pairs
  <= hi.
Proof.
  intros Hne Hall.
  pose proof (len_positive pairs Hne) as Hpos.
  assert (Hb : Forall (fun x => lo <= x <= hi)
                      (map (fun pa => Qabs (fst pa - snd pa)) pairs)).
  { apply Forall_map. exact Hall. }
  apply sum_bounds in Hb. unfold Py.len in Hb. rewrite length_map in Hb.
  fold (Py.len pairs) in Hb. destruct Hb as [Hlo Hhi]. split.
  - apply Qle_shift_div_l; [exact Hpos|].
    rewrite Qmult_comm. exact Hlo.
  - apply Qle_shift_div_r; [exact Hpos|].
    rewrite Qmult_comm. exact Hhi.
Qed.

Lemma calculateMae_between (pairs : list (Q * Q)) (lo hi : Q) :
  pairs <> [] ->
  Forall (fun pa => lo <= Qabs (fst pa - snd pa) <= hi) pairs ->
  lo <= calculateMae (map fst pairs) (map snd pairs) <= hi.
Proof.
  intros Hne Hall. rewrite (calculateMae_pairs _ Hne).
  apply mean_error_between; assumption.
Qed.

Lemma sum_nonneg (l : list Q) : Forall (fun x => 0 <= x) l -> 0 <= Py.sum l.
Proof.
  induction 1 as [|x l Hx _ IH]; [apply Qle_refl|].
  rewrite sum_cons. setoid_replace 0 with (0 + 0) by ring.
  apply Qplus_le_compat; assumption.
Qed.

Lemma combine_app_left {A B} (p surplus : list A) (a : list B) :
  length p = length a -> combine (p ++ surplus) a = combine p a.
Proof.
  revert a; induction p as [|x p IH]; intros [|y a] H; try discriminate.
  - destruct surplus; reflexivity.
  - simpl in *. injection H as H. rewrite (IH _ H). reflexivity.
Qed.

Lemma combine_diagonal {A} (l : list A) (u v : A) :
  In (u, v) (combine l l) -> u = v.
Proof.
  induction l as [|w l IH]; simpl; [tauto|].
  intros [H|H]; [congruence|auto].
Qed.

Lemma calculateMae_nonneg (predictions actuals : list Q) :
  0 <= calculateMae predictions actuals.
Proof.
  rewrite calculateMae_combine.
  destruct (combine predictions actuals) as [|pa pairs] eqn:E;
    [apply Qle_refl|].
  apply Qle_shift_div_l; [apply len_positive; discriminate|].
  rewrite Qmult_0_l. apply sum_nonneg, Forall_map, Forall_forall.
  intros q _. apply Qabs_nonneg.
Qed.

(** X1.  [calculateMae] is never negative, is zero when every prediction
    equals its actual value, and looks only at the first
    [min(len(predictions), len(actuals))] pairs: predictions beyond the
    number of actual values do not change it. *)
Theorem calculateMae_basic (predictions actuals surplus : list Q) :
  0 <= calculateMae predictions actuals /\
  calculateMae predictions predictions == 0 /\
  (length predictions = length actuals ->
   calculateMae (predictions ++ surplus) actuals
   = calculateMae predictions actuals).
Proof.
  split; [|split].
  - apply calculateMae_nonneg.
  - rewrite calculateMae_combine.
    destruct (combine predictions predictions) as [|pa pairs] eqn:E;
      [reflexivity|].
    destruct (mean_error_between (pa :: pairs) 0 0) as [Hlo Hhi];
      [discriminate| |apply Qle_antisym; assumption].
    apply Forall_forall. intros [u v] Hin. rewrite <- E in Hin.
    apply combine_diagonal in Hin. subst v. cbn [fst snd].
    unfold Qminus. rewrite Qplus_opp_r. simpl. split; apply Qle_refl.
  - intros Hlen. rewrite !calculateMae_combine, combine_app_left by exact Hlen.
    reflexivity.
Qed.

End MeanAbsoluteError.

(** ** Rolling error of the SARIMA service *)

Section RollingError.

Import Sarima.

Lemma updateMaeTracking_mae (st : Service) (predicted actual : Q) :
  let st' := snd (updateMaeTracking st predicted actual) in
  currentMae st' = calculateMae (predictionHistory st') (actualHistory st') /\
  fst (updateMaeTracking st predicted actual) = currentMae st'.
Proof. split; reflexivity. Qed.

(** X2.  On a fresh service, after any sequence of [updateMaeTracking]
    calls the stored [currentMae] is the mean absolute error of the pairs
    still in the window, the last [maeWindowSize] ones, and 0 when the
    window is empty; it is never negative. *)
Theorem currentMae_is_window_mean (cfg : SarimaConfig)
        (updates : list (Q * Q)) :
  let st := track (init cfg) updates in
  let window := skipn (length updates - maeWindowSize cfg) updates in
  currentMae st
  = match window with
    | [] => 0
    | _ => Py.sum (map (fun pa => Qabs (fst pa - snd pa)) window)
           / Py.len window
    end /\
  0 <= currentMae st.
Proof.
  cbv zeta.
  assert (H : currentMae (track (init cfg) updates)
              = calculateMae
                  (predictionHistory (track (init cfg) updates))
                  (actualHistory (track (init cfg) updates))).
  { destruct updates as [|u updates] using rev_ind; [reflexivity|].
    rewrite track_snoc. reflexivity. }
  destruct (track_histories cfg updates) as [Hp Ha].
  cbv zeta in Hp, Ha. rewrite Hp, Ha in H. rewrite H.
  rewrite !skipn_map. split.
  - rewrite calculateMae_combine, combine_fst_snd.
    destruct (skipn _ updates); reflexivity.
  - apply calculateMae_nonneg.
Qed.

(** The tracking attributes of a service: what [updateMaeTracking] and
    [resetMaeTracking] read and write. *)
Lemma track_same_tracking (st1 st2 : Service) (updates : list (Q * Q)) :
  config st1 = config st2 ->
  predictionHistory st1 = predictionHistory st2 ->
  actualHistory st1 = actualHistory st2 ->
  predictionHistory (track st1 updates)
  = predictionHistory (track st2 updates) /\
  actualHistory (track st1 updates) = actualHistory (track st2 updates) /\
  (updates <> [] ->
   currentMae (track st1 updates) = currentMae (track st2 updates)).
Proof.
  revert st1 st2; induction updates as [|u updates IH] using rev_ind;
    intros st1 st2 Hc Hp Ha.
  - split; [exact Hp|]. split; [exact Ha|]. congruence.
  - rewrite !track_snoc. destruct (IH st1 st2 Hc Hp Ha) as (IHp & IHa & _).
    cbn [snd updateMaeTracking predictionHistory actualHistory currentMae].
    rewrite !track_config, Hc, IHp, IHa. repeat split; reflexivity.
Qed.

(** X3.  [resetMaeTracking] empties both histories, zeroes the MAE and
    clears [fallbackActive] while keeping the configuration; tracking
    resumed after it fills the histories exactly as on a freshly built
    service with that configuration. *)
Theorem resetMaeTracking_restarts (st : Service) (updates : list (Q * Q)) :
  let st0 := resetMaeTracking st in
  (predictionHistory st0 = [] /\ actualHistory st0 = [] /\
   currentMae st0 = 0 /\ fallbackActive st0 = false /\
   config st0 = config st) /\
  predictionHistory (track st0 updates)
  = predictionHistory (track (init (config st)) updates) /\
  actualHistory (track st0 updates)
  = actualHistory (track (init (config st)) updates) /\
  currentMae (track st0 updates)
  = currentMae (track (init (config st)) updates).
Proof.
  cbv zeta. split; [repeat split|].
  destruct (track_same_tracking (resetMaeTracking st) (init (config st))
                                updates eq_refl eq_refl eq_refl)
    as (Hp & Ha & Hm).
  split; [exact Hp|]. split; [exact Ha|].
  destruct updates as [|u updates]; [reflexivity|].
  apply Hm. discriminate.
Qed.

End RollingError.

(** ** Error tracking of the orchestrator *)

Section OrchestratorTracking.

Import Forecast.

Lemma forecast_track_snoc (st : Service) (updates : list (Q * Q))
      (u : Q * Q) :
  track st (updates ++ [u])
  = snd (updateMaeTracking (track st updates) (fst u) (snd u)).
Proof. unfold track. rewrite fold_left_app. reflexivity. Qed.

Lemma sarima_shouldUseFallback_fields (s : Sarima.Service) (m : option Q) :
  let s' := snd (Sarima.shouldUseFallback s m) in
  Sarima.config s' = Sarima.config s /\
  Sarima.predictionHistory s' = Sarima.predictionHistory s /\
  Sarima.actualHistory s' = Sarima.actualHistory s /\
  Sarima.currentMae s' = Sarima.currentMae s.
Proof.
  unfold Sarima.shouldUseFallback. destruct m as [mae|].
  - destruct (Py.gtb mae _); destruct (Sarima.fallbackActive s);
      repeat split; reflexivity.
  - destruct (Sarima.fallbackActive s); repeat split; reflexivity.
Qed.

Lemma updateMaeTracking_in_step (threshold : Q) (st : Service)
      (predicted actual : Q) :
  in_step threshold st ->
  let st' := snd (updateMaeTracking st predicted actual) in
  in_step threshold st' /\
  predictionHistory st'
  = Py.deque_append 168 (predictionHistory st) predicted /\
  actualHistory st' = Py.deque_append 168 (actualHistory st) actual /\
  currentMae st'
  = calculateMae (predictionHistory st') (actualHistory st') /\
  useFallback st' = Py.gtb (currentMae st') threshold /\
  useFallback st' = Sarima.fallbackActive (sarimaFallback st').
Proof.
  intros (Hw & Ht & Hp & Ha & Hm). cbv zeta.
  unfold updateMaeTracking. cbv zeta.
  unfold Sarima.updateMaeTracking. cbv zeta. cbn [snd].
  unfold Sarima.shouldUseFallback. cbn [Sarima.config Sarima.fallbackActive].
  rewrite Hw, Ht, <- Hp, <- Ha.
  destruct (Py.gtb _ threshold) eqn:E;
    destruct (Sarima.fallbackActive (sarimaFallback st));
    destruct (useFallback st);
    cbn; rewrite ?E; unfold in_step; cbn; rewrite ?Hw, ?Ht;
    repeat split; reflexivity.
Qed.

Lemma init_in_step (L : Libs) (horizon context interval : nat)
      (threshold : Q) (daily : nat) (annual : bool) :
  in_step threshold (init L horizon context interval threshold daily annual).
Proof. repeat split. Qed.

Lemma track_in_step (threshold : Q) (st : Service)
      (updates : list (Q * Q)) :
  in_step threshold st ->
  in_step threshold (track st updates) /\
  (updates <> [] ->
   currentMae (track st updates)
   = calculateMae (predictionHistory (track st updates))
                  (actualHistory (track st updates)) /\
   useFallback (track st updates)
   = Py.gtb (currentMae (track st updates)) threshold /\
   useFallback (track st updates)
   = Sarima.fallbackActive (sarimaFallback (track st updates))).
Proof.
  intros H0.
  induction updates as [|u updates [IH _]] using rev_ind.
  - split; [exact H0|congruence].
  - rewrite forecast_track_snoc.
    destruct (updateMaeTracking_in_step threshold _ (fst u) (snd u) IH)
      as (H1 & _ & _ & H4 & H5 & H6).
    split; [exact H1|]. intros _. repeat split; assumption.
Qed.

Lemma forecast_track_histories (st : Service) (updates : list (Q * Q)) :
  predictionHistory st = [] -> actualHistory st = [] ->
  predictionHistory (track st updates)
  = skipn (length updates - 168) (map fst updates) /\
  actualHistory (track st updates)
  = skipn (length updates - 168) (map snd updates).
Proof.
  intros Hp0 Ha0.
  induction updates as [|u updates [IHp IHa]] using rev_ind.
  - split; assumption.
  - rewrite forecast_track_snoc.
    cbn [snd updateMaeTracking predictionHistory actualHistory].
    unfold updateMaeTracking.
    destruct (Sarima.shouldUseFallback _ _) as [answer sarima2].
    cbn [snd predictionHistory actualHistory].
    rewrite IHp, IHa, !map_app, length_app. cbn [map length].
    split.
    + rewrite <- (length_map fst updates) at 1.
      rewrite deque_append_window, length_app, length_map. reflexivity.
    + rewrite <- (length_map snd updates) at 1.
      rewrite deque_append_window, length_app, length_map. reflexivity.
Qed.

(** X4.  On a service built by [__init__], after any sequence of
    [ForecastService.updateMaeTracking] calls the orchestrator's histories
    hold the last 168 predicted and actual values, in order, and are equal
    to the histories kept by its SARIMA service, as is the MAE; after at
    least one call [useFallback] equals the SARIMA service's
    [fallbackActive]. *)
Theorem orchestrator_tracks_with_sarima (L : Libs)
        (horizon context interval : nat) (threshold : Q) (daily : nat)
        (annual : bool) (updates : list (Q * Q)) :
  let st := track (init L horizon context interval threshold daily annual)
                  updates in
  predictionHistory st = skipn (length updates - 168) (map fst updates) /\
  actualHistory st = skipn (length updates - 168) (map snd updates) /\
  predictionHistory st = Sarima.predictionHistory (sarimaFallback st) /\
  actualHistory st = Sarima.actualHistory (sarimaFallback st) /\
  currentMae st = Sarima.currentMae (sarimaFallback st) /\
  (updates <> [] ->
   useFallback st = Sarima.fallbackActive (sarimaFallback st)).
Proof.
  cbv zeta.
  destruct (forecast_track_histories
              (init L horizon context interval threshold daily annual)
              updates eq_refl eq_refl) as [Hp Ha].
  destruct (track_in_step threshold _ updates
              (init_in_step L horizon context interval threshold daily
                            annual))
    as [(_ & _ & Sp & Sa & Sm) Hne].
  repeat split; try assumption.
  intros H. apply Hne, H.
Qed.

End OrchestratorTracking.

(** ** Differencing: totality, lengths and round trips *)

Section DifferencingRoundTrip.

Import Sarima.

Lemma diff_length (l : list Q) : length (Np.diff l) = (length l - 1)%nat.
Proof.
  induction l as [|x l IH]; [reflexivity|].
  destruct l as [|y l]; [reflexivity|].
  change (Np.diff (x :: y :: l)) with ((y - x) :: Np.diff (y :: l)).
  cbn [length] in *. rewrite IH. lia.
Qed.

Lemma sub_same_length (a b : list Q) :
  length a = length b ->
  Np.sub a b = Some (map (fun xy => fst xy - snd xy) (combine a b)).
Proof.
  intros H. unfold Np.sub. rewrite H, Nat.eqb_refl. reflexivity.
Qed.

Lemma seasonal_difference_long (s : nat) (l : list Q) :
  (1 <= s)%nat -> (s < length l)%nat ->
  seasonal_difference s l
  = Some (map (fun xy => fst xy - snd xy)
              (combine (skipn s l) (firstn (length l - s) l))).
Proof.
  intros Hs Hl. unfold seasonal_difference, Py.from, Py.upto_neg.
  destruct (Nat.ltb_spec s (length l)) as [_|H]; [|lia].
  destruct (Nat.eqb_spec s 0) as [H|_]; [lia|].
  apply sub_same_length. rewrite length_skipn, length_firstn. lia.
Qed.

Lemma seasonal_passes (s : nat) :
  (1 <= s)%nat ->
  forall (D : nat) (l : list Q),
  exists r,
    repeat_steps D (seasonal_difference s) l = Some r /\
    (length r <= length l)%nat /\
    ((D * s < length l)%nat -> length r = (length l - D * s)%nat).
Proof.
  intros Hs. induction D as [|D IH]; intros l.
  - exists l. split; [reflexivity|]. split; lia.
  - cbn [repeat_steps].
    destruct (Nat.ltb_spec s (length l)) as [Hl|Hl].
    + rewrite (seasonal_difference_long s l Hs Hl).
      set (l' := map _ _).
      assert (Hlen : length l' = (length l - s)%nat).
      { unfold l'. rewrite length_map, length_combine, length_skipn,
          length_firstn. lia. }
      destruct (IH l') as (r & Hr & Hle & Hex).
      exists r. split; [exact Hr|]. split; [lia|].
      intros Hd. rewrite Hex by (rewrite Hlen; simpl in Hd; lia).
      rewrite Hlen. simpl. lia.
    + unfold seasonal_difference.
      destruct (Nat.ltb_spec s (length l)) as [H|_]; [lia|].
      destruct (IH l) as (r & Hr & Hle & Hex).
      exists r. split; [exact Hr|]. split; [exact Hle|].
      intros Hd. simpl in Hd. lia.
Qed.

Lemma plain_passes (d : nat) (l : list Q) :
  exists r,
    repeat_steps d plain_difference l = Some r /\
    (length r <= length l)%nat /\
    ((d < length l)%nat -> length r = (length l - d)%nat).
Proof.
  revert l; induction d as [|d IH]; intros l.
  - exists l. split; [reflexivity|]. split; lia.
  - cbn [repeat_steps]. unfold plain_difference.
    destruct (Nat.ltb_spec 1 (length l)) as [Hl|Hl].
    + destruct (IH (Np.diff l)) as (r & Hr & Hle & Hex).
      rewrite diff_length in Hle, Hex.
      exists r. split; [exact Hr|]. split; [lia|].
      intros Hd. rewrite Hex by lia. lia.
    + destruct (IH l) as (r & Hr & Hle & Hex).
      exists r. split; [exact Hr|]. split; [exact Hle|]. intros Hd. lia.
Qed.

(** X6.  With a seasonal period of at least 1, [_applyDifferencing] never
    raises and never lengthens the series; when the series is longer than
    [D * s + d] it loses exactly [D * s + d] values. *)
Theorem applyDifferencing_total (series : list Q) (d s D : nat) :
  (1 <= s)%nat ->
  exists result,
    _applyDifferencing series d s D = Some result /\
    (length result <= length series)%nat /\
    ((D * s + d < length series)%nat ->
     length result = (length series - D * s - d)%nat).
Proof.
  intros Hs. unfold _applyDifferencing.
  destruct (seasonal_passes s Hs D series) as (mid & Hmid & Hle1 & Hex1).
  rewrite Hmid.
  destruct (plain_passes d mid) as (r & Hr & Hle2 & Hex2).
  exists r. split; [exact Hr|]. split; [lia|].
  intros Hlen. rewrite Hex2; rewrite Hex1; lia.
Qed.

Lemma applyDifferencing_total_witness :
  exists result,
    _applyDifferencing [1; 2; 4; 7; 11; 16] 1 2 1 = Some result /\
    length result = 3%nat.
Proof.
  destruct (applyDifferencing_total [1; 2; 4; 7; 11; 16] 1 2 1
                                    ltac:(lia))
    as (r & Hr & _ & Hlen).
  exists r. split; [exact Hr|]. apply Hlen. simpl. lia.
Defined.

Lemma last_item_snoc {A} (l : list A) (x : A) :
  Py.last_item l = Some x -> exists l', l = l' ++ [x].
Proof.
  unfold Py.last_item. destruct (rev l) as [|y r] eqn:E; [discriminate|].
  intros H. injection H as ->. exists (rev r).
  rewrite <- (rev_involutive l), E. reflexivity.
Qed.

Lemma diff_snoc_app (l : list Q) (a : Q) (c : list Q) :
  Np.diff (l ++ a :: c) = Np.diff (l ++ [a]) ++ Np.diff (a :: c).
Proof.
  induction l as [|y l IH]; [reflexivity|].
  destruct l as [|z l].
  - destruct c; reflexivity.
  - change (Np.diff ((y :: z :: l) ++ a :: c))
      with ((z - y) :: Np.diff ((z :: l) ++ a :: c)).
    change (Np.diff ((y :: z :: l) ++ [a]))
      with ((z - y) :: Np.diff ((z :: l) ++ [a])).
    rewrite IH. reflexivity.
Qed.

Lemma cumsum_diff (c : list Q) :
  forall a acc base : Q,
    base + acc == a ->
    Forall2 Qeq (map (fun v => base + v)
                     (Np.cumsum_from acc (Np.diff (a :: c)))) c.
Proof.
  induction c as [|y c IH]; intros a acc base H; [constructor|].
  change (Np.diff (a :: y :: c)) with ((y - a) :: Np.diff (y :: c)).
  cbn [Np.cumsum_from map]. constructor.
  - rewrite <- H. ring.
  - apply IH. rewrite <- H. ring.
Qed.

(** X7.  One plain difference is undone exactly: for a non-empty series
    and any continuation, the differences that the continuation adds to the
    differenced series are the differences of the last value followed by the
    continuation, and [_invertDifferencing] with [d = 1], [D = 0] maps them
    back to the continuation. *)
Theorem plain_differencing_round_trip (series continuation : list Q)
        (lastValue : Q) (s : nat) :
  Py.last_item series = Some lastValue ->
  Np.diff (series ++ continuation)
  = Np.diff series ++ Np.diff (lastValue :: continuation) /\
  exists result,
    _invertDifferencing (Np.diff (lastValue :: continuation)) series 1 s 0
    = Some result /\
    Forall2 Qeq result continuation.
Proof.
  intros Hlast. split.
  - destruct (last_item_snoc _ _ Hlast) as [l' ->].
    rewrite <- app_assoc. apply diff_snoc_app.
  - unfold _invertDifferencing. cbn [repeat_steps]. unfold undo_plain.
    rewrite Hlast. eexists. split; [reflexivity|].
    apply cumsum_diff. ring.
Qed.

Lemma plain_differencing_round_trip_witness :
  exists result,
    _invertDifferencing (Np.diff [4; 7; 5]) [1; 2; 4] 1 24 0 = Some result /\
    Forall2 Qeq result [7; 5].
Proof.
  exact (proj2 (plain_differencing_round_trip [1; 2; 4] [7; 5] 4 24
                                              eq_refl)).
Defined.

End DifferencingRoundTrip.

Section SeasonalInversion.

Import Sarima.

Lemma skipn_cons_nth {A} (i : nat) (l : list A) :
  (i < length l)%nat ->
  exists b, nth_error l i = Some b /\ skipn i l = b :: skipn (S i) l.
Proof.
  revert i; induction l as [|x l IH]; intros i Hi; [simpl in Hi; lia|].
  destruct i as [|i].
  - exists x. split; reflexivity.
  - destruct (IH i) as (b & Hb & Hs); [simpl in Hi; lia|].
    exists b. split; [exact Hb|]. exact Hs.
Qed.

(** Adding the base back to differences taken against it, within one
    season. *)
Lemma add_base_round_trip (s : nat) (baseValues : list Q) :
  length baseValues = s ->
  forall (c : list Q) (i : nat),
    (i + length c <= s)%nat ->
    exists r,
      add_base s baseValues i
               (map (fun cb => fst cb - snd cb)
                    (combine c (skipn i baseValues))) = Some r /\
      Forall2 Qeq r c.
Proof.
  intros Hb. induction c as [|y c IH]; intros i Hi.
  - exists []. split; [reflexivity|constructor].
  - cbn [length] in Hi.
    destruct (skipn_cons_nth i baseValues) as (b & Hnth & Hskip); [lia|].
    rewrite Hskip. cbn [combine map add_base fst snd].
    destruct (Nat.eqb_spec s 0) as [H|_]; [lia|].
    rewrite Nat.mod_small by lia. unfold Py.item. rewrite Hnth.
    destruct (IH (S i)) as (r & Hr & Hf); [lia|].
    rewrite Hr. eexists. split; [reflexivity|].
    constructor; [ring|exact Hf].
Qed.

(** X8.  One seasonal difference is undone exactly within one season: for a
    continuation of at most [s] values, the differences of the continuation
    against the last [s] values of the series are the values seasonal
    differencing appends for it, and [_invertDifferencing] with [d = 0],
    [D = 1] maps them back to the continuation. *)
Theorem seasonal_differencing_round_trip (series continuation : list Q)
        (s : nat) :
  (1 <= s <= length series)%nat ->
  (1 <= length continuation <= s)%nat ->
  let deltas :=
    map (fun cb => fst cb - snd cb)
        (combine continuation (Py.tail s series)) in
  seasonal_difference s (series ++ continuation)
  = Some (map (fun xy => fst xy - snd xy)
              (combine (skipn s series)
                       (firstn (length series - s) series))
          ++ deltas) /\
  exists result,
    _invertDifferencing deltas series 0 s 1 = Some result /\
    Forall2 Qeq result continuation.
Proof.
  intros [Hs Hn] [Hc Hk] deltas. split.
  - rewrite seasonal_difference_long by (rewrite ?length_app; lia).
    f_equal. unfold deltas, Py.tail.
    destruct (Nat.eqb_spec s 0) as [H|_]; [lia|].
    rewrite length_app, skipn_app, firstn_app.
    replace (s - length series)%nat with 0%nat by lia.
    replace (length series + length continuation - s - length series)%nat
      with 0%nat by lia.
    cbn [skipn firstn]. rewrite app_nil_r.
    rewrite <- (firstn_skipn (length series - s)
                             (firstn (length series + length continuation
                                      - s) series)).
    rewrite firstn_firstn, Nat.min_l by lia.
    assert (Hsplit : forall (A B : Type) (a1 a2 : list A) (b1 b2 : list B),
               length a1 = length b1 ->
               combine (a1 ++ a2) (b1 ++ b2)
               = combine a1 b1 ++ combine a2 b2).
    { intros A B a1. induction a1 as [|x a1 IH]; intros a2 [|y b1] b2 H;
        try discriminate; [reflexivity|].
      simpl in *. injection H as H. rewrite IH by exact H. reflexivity. }
    rewrite Hsplit by (rewrite length_skipn, length_firstn; lia).
    rewrite map_app. f_equal. f_equal.
    assert (Hcut : forall (A B : Type) (a : list A) (b : list B),
               combine a b = combine a (firstn (length a) b)).
    { intros A B a. induction a as [|x a IH]; intros [|y b];
        try reflexivity. simpl. rewrite <- IH. reflexivity. }
    rewrite (Hcut _ _ continuation (skipn (length series - s) series)).
    f_equal.
    rewrite <- (firstn_skipn (length series - s) series) at 3.
    rewrite firstn_app, length_firstn, Nat.min_l by lia.
    rewrite firstn_all2 by (rewrite length_firstn; lia).
    rewrite skipn_app, length_firstn, Nat.min_l by lia.
    rewrite skipn_all2 by (rewrite length_firstn; lia).
    rewrite Nat.sub_diag. cbn [skipn app]. f_equal. lia.
  - unfold _invertDifferencing. cbn [repeat_steps]. unfold undo_seasonal.
    destruct (Nat.leb_spec s (length series)) as [_|H]; [|lia].
    destruct (add_base_round_trip s (Py.tail s series)) with
      (c := continuation) (i := 0%nat) as (r & Hr & Hf).
    + rewrite tail_length by lia.
      destruct (Nat.eqb_spec s 0); [lia|reflexivity].
    + lia.
    + cbn [skipn] in Hr. fold deltas in Hr. rewrite Hr.
      exists r. split; [reflexivity|exact Hf].
Qed.

Lemma seasonal_differencing_round_trip_witness :
  exists result,
    _invertDifferencing [5 - 1; 7 - 2] [3; 1; 2] 0 2 1 = Some result /\
    Forall2 Qeq result [5; 7].
Proof.
  exact (proj2 (seasonal_differencing_round_trip
                  [3; 1; 2] [5; 7] 2
                  ltac:(simpl; lia) ltac:(simpl; lia))).
Defined.

(** X9.  [_invertDifferencing] returns as many values as it is given when
    the original series is not empty and the period is at most its length
    and at least 1.  It raises when a plain difference has to be undone on
    an empty series (no last value), and when a seasonal difference has to
    be undone with period 0 on a non-empty forecast (modulo by zero). *)
Theorem invertDifferencing_total (forecasts originalSeries : list Q)
        (d s D : nat) :
  ((1 <= s <= length originalSeries)%nat ->
   exists result,
     _invertDifferencing forecasts originalSeries d s D = Some result /\
     length result = length forecasts) /\
  ((1 <= d)%nat -> _invertDifferencing forecasts [] d s D = None) /\
  ((1 <= D)%nat -> forecasts <> [] -> originalSeries <> [] ->
   _invertDifferencing forecasts originalSeries d 0 D = None).
Proof.
  split; [|split].
  - apply invertDifferencing_some.
  - intros Hd. unfold _invertDifferencing.
    destruct d as [|d]; [lia|]. reflexivity.
  - intros HD Hf Hne. unfold _invertDifferencing.
    destruct (repeat_steps d (undo_plain originalSeries) forecasts)
      as [mid|] eqn:E; [|reflexivity].
    assert (Hlen : length mid = length forecasts).
    { exact (repeat_steps_length _ _ _ _ (undo_plain_length originalSeries)
                                 E). }
    destruct D as [|D]; [lia|]. cbn [repeat_steps].
    unfold undo_seasonal at 1. cbn [Nat.leb].
    destruct mid as [|v mid].
    + destruct forecasts; [congruence|discriminate].
    + reflexivity.
Qed.

End SeasonalInversion.

(** ** Seasonality detection and the shape of a SARIMA result *)

Section SarimaResult.

Import Sarima.

Lemma find_peaks_range (autocorr : list Q) (i : nat) (v : Q) :
  In (i, v) (find_peaks autocorr) ->
  (2 <= i)%nat /\ (i + 1 < length autocorr)%nat.
Proof.
  unfold find_peaks. rewrite in_flat_map. intros (j & Hj & Hin).
  apply in_seq in Hj.
  destruct (_ && _ && _); [|destruct Hin].
  destruct Hin as [Hin|[]]. injection Hin as -> _. lia.
Qed.

Lemma max_by_value_in (best : nat * Q) (peaks : list (nat * Q)) :
  In (max_by_value best peaks) (best :: peaks).
Proof.
  revert best; induction peaks as [|pk rest IH]; intros best.
  - left. reflexivity.
  - cbn [max_by_value].
    destruct (IH (if Py.gtb (snd pk) (snd best) then pk else best))
      as [H|H].
    + destruct (Py.gtb (snd pk) (snd best)).
      * right. left. exact H.
      * left. exact H.
    + right. right. exact H.
Qed.

(** The detected period, when there is one, does not depend on the
    configuration. *)
Lemma detectSeasonality_peak (L : Libs) (series : list Q) :
  exists found : option nat,
    (forall cfg, _detectSeasonality L cfg series
                 = match found with
                   | Some period => period
                   | None => cfg_s cfg
                   end) /\
    (forall period, found = Some period ->
       (50 <= length series)%nat /\ (2 <= period)%nat /\
       (STATSMODELS_AVAILABLE L = false ->
        (period + 1 < Nat.min 100 (length series / 2))%nat)).
Proof.
  unfold _detectSeasonality.
  destruct (Nat.ltb_spec (length series) 50) as [Hn|Hn].
  { exists None. split; [reflexivity|discriminate]. }
  cbv zeta.
  set (autocorr := if STATSMODELS_AVAILABLE L then _ else _).
  assert (Hlen : STATSMODELS_AVAILABLE L = false ->
                 forall ac, autocorr = Some ac ->
                   (length ac <= Nat.min 100 (length series / 2))%nat).
  { intros Hsm ac. unfold autocorr. rewrite Hsm. intros H.
    pose proof (f_equal (fun o => match o with
                                  | Some l => length l
                                  | None => 0%nat
                                  end) H) as Hl.
    cbv beta iota in Hl. rewrite <- Hl, length_map, length_firstn. lia. }
  destruct autocorr as [ac|].
  - destruct (find_peaks ac) as [|pk rest] eqn:E.
    + exists None. split; [reflexivity|discriminate].
    + exists (Some (fst (max_by_value pk rest))).
      split; [reflexivity|]. intros period H. injection H as <-.
      pose proof (max_by_value_in pk rest) as Hin. rewrite <- E in Hin.
      destruct (max_by_value pk rest) as [i v].
      apply find_peaks_range in Hin. cbn [fst].
      split; [exact Hn|]. split; [lia|].
      intros Hsm. specialize (Hlen Hsm ac eq_refl). lia.
  - exists None. split; [reflexivity|discriminate].
Qed.

(** X10.  [_detectSeasonality] returns the configured period for fewer than
    50 points; otherwise it returns either the configured period or a lag of
    at least 2, and with the module's own autocorrelation that lag is
    below [min(100, n // 2) - 1], hence at most 98 and less than half the
    series length. *)
Theorem detectSeasonality_range (L : Libs) (cfg : SarimaConfig)
        (series : list Q) :
  let detected := _detectSeasonality L cfg series in
  ((length series < 50)%nat -> detected = cfg_s cfg) /\
  (detected = cfg_s cfg \/
   ((2 <= detected)%nat /\
    (STATSMODELS_AVAILABLE L = false ->
     (detected <= 98)%nat /\ (2 * detected < length series)%nat))).
Proof.
  cbv zeta. destruct (detectSeasonality_peak L series) as (found & Hd & Hf).
  rewrite Hd. destruct found as [period|].
  - destruct (Hf period eq_refl) as (Hn & H2 & Hsm). split; [lia|].
    right. split; [exact H2|]. intros H. specialize (Hsm H).
    pose proof (Nat.Div0.mul_div_le (length series) 2). lia.
  - split; [reflexivity|left; reflexivity].
Qed.

Lemma nth_map_seq {A} (f : nat -> A) (d : A) (n : nat) :
  forall start k : nat,
    (k < n)%nat -> nth k (map f (seq start n)) d = f (start + k)%nat.
Proof.
  induction n as [|n IH]; intros start k Hk; [lia|].
  destruct k as [|k]; cbn [seq map nth].
  - rewrite Nat.add_0_r. reflexivity.
  - rewrite IH by lia. f_equal. lia.
Qed.

Lemma clamp_between (x lo hi : Q) :
  lo <= hi -> lo <= Spec.clamp x lo hi <= hi.
Proof.
  intros Hle. unfold Spec.clamp.
  destruct (Py.ltb x lo) eqn:E1; [split; [apply Qle_refl|exact Hle]|].
  apply ltb_false_iff in E1.
  destruct (Py.ltb hi x) eqn:E2; [split; [exact Hle|apply Qle_refl]|].
  apply ltb_false_iff in E2. split; assumption.
Qed.

(** X11.  A returned [ForecastResult] is well formed: its confidence lies
    between 0.5 and 0.95, it carries one future timestamp per requested
    step, the k-th one lying [k + 1] times the last observed spacing after
    the last observation, it is marked as coming from the fallback, and it
    reports the MAE tracked at the time of the call. *)
Theorem forecast_result_well_formed (L : Libs) (st st' : Service)
        (dataHistory : list Point) (steps : nat) (r : ForecastResult) :
  forecast L st dataHistory steps = (Some r, st') ->
  (5 # 10 <= confidence r <= 95 # 100) /\
  length (timestamps r) = steps /\
  (exists tss lastTimestamp,
      parse_timestamps dataHistory = Some tss /\
      Py.last_item tss = Some lastTimestamp /\
      forall k, (k < steps)%nat ->
        nth k (timestamps r) 0
        = lastTimestamp
          + (lastTimestamp - nth (length tss - 2) tss 0)
            * inject_Z (Z.of_nat (k + 1))) /\
  isFromFallback r = true /\
  mae r = Some (currentMae st) /\
  modelUsed r = config st'.
Proof.
  intros H.
  assert (Hc : 5 # 10 <= confidence r <= 95 # 100).
  { destruct (forecast_confidence_of_result _ _ _ _ _ _ H) as [-> _].
    rewrite forecast_confidence_mixed. apply clamp_between.
    unfold Qle. simpl. lia. }
  pose proof (f_equal (fun s => currentMae s)
                      (sarima_forecast_frame L st dataHistory steps)) as Hm.
  rewrite H in Hm. cbn [snd frame currentMae] in Hm.
  revert H. unfold forecast.
  destruct (negb (_running st)); [discriminate|].
  destruct (Nat.ltb_spec (length dataHistory) 10) as [|Hlen];
    [discriminate|].
  destruct (parse_timestamps dataHistory) as [tss|] eqn:Hp; [|discriminate].
  match goal with
  | |- context [let '(_, _) := ?e in _] => destruct e as [preds st2]
  end.
  destruct (Py.last_item tss) as [lastTimestamp|] eqn:Hl; [|discriminate].
  assert (H2 : (2 <=? length tss)%nat = true).
  { apply Nat.leb_le. rewrite (parse_timestamps_length _ _ Hp). lia. }
  rewrite H2. intros H. injection H as <- <-.
  cbn [timestamps isFromFallback mae modelUsed].
  split; [exact Hc|]. split.
  { unfold future_timestamps. rewrite length_map. apply length_seq. }
  split.
  { exists tss, lastTimestamp. split; [reflexivity|].
    split; [exact Hl|]. intros k Hk. unfold future_timestamps.
    rewrite nth_map_seq by exact Hk. reflexivity. }
  split; [reflexivity|]. split; [|reflexivity].
  cbn [currentMae] in Hm. rewrite Hm. reflexivity.
Qed.

Lemma forecast_result_well_formed_witness :
  match forecast Scenario.bareSarimaLibs (init defaultConfig)
                 Scenario.ten_points 3
  with
  | (Some r, _) =>
      5 # 10 <= confidence r <= 95 # 100 /\ length (timestamps r) = 3%nat
  | (None, _) => False
  end.
Proof.
  destruct (forecast Scenario.bareSarimaLibs (init defaultConfig)
                     Scenario.ten_points 3) as [[r|] st'] eqn:E.
  - destruct (forecast_result_well_formed _ _ _ _ _ _ E) as (H1 & H2 & _).
    split; assumption.
  - vm_compute in E. discriminate E.
Defined.

End SarimaResult.

(** ** Repeating a SARIMA forecast *)

Section ForecastTwice.

Import Sarima.

Lemma forecast_unfold (L : Libs) (st : Service) (dataHistory : list Point)
      (steps : nat) :
  forecast L st dataHistory steps
  = if negb (_running st) then (None, st)
    else if (length dataHistory <? 10)%nat then (None, st)
    else
      let values := map value dataHistory in
      match parse_timestamps dataHistory with
      | None => (None, st)
      | Some tss =>
          let '(preds, st2) :=
            model_step L values (sort_index (combine tss values)) steps
                       (detect_step L values st) in
          match Py.last_item tss with
          | None => (None, st2)
          | Some lastTimestamp =>
              let interval :=
                if (2 <=? length tss)%nat then
                  lastTimestamp - nth (length tss - 2) tss 0
                else 1 in
              (Some (mkForecastResult
                       preds
                       (future_timestamps lastTimestamp interval steps)
                       (Some (currentMae st2))
                       (config st2)
                       true
                       (forecast_confidence values)),
               st2)
          end
      end.
Proof. reflexivity. Qed.

Lemma detect_step_fields (L : Libs) (values : list Q) (st : Service) :
  _running (detect_step L values st) = _running st /\
  autoSelectParams (config (detect_step L values st))
  = autoSelectParams (config st).
Proof.
  unfold detect_step. destruct (autoSelectParams (config st)) eqn:E;
    [|split; [reflexivity|exact E]].
  cbv zeta. destruct (negb _); split; try reflexivity; exact E.
Qed.

(** After the detection step the period is the one detection returns. *)
Lemma detect_step_settled (L : Libs) (values : list Q) (st : Service) :
  let st1 := detect_step L values st in
  autoSelectParams (config st1) = true ->
  _detectSeasonality L (config st1) values = cfg_s (config st1).
Proof.
  cbv zeta. unfold detect_step.
  destruct (detectSeasonality_peak L values) as (found & Hd & _).
  destruct (autoSelectParams (config st)) eqn:E; [|congruence].
  cbv zeta. rewrite (Hd (config st)).
  destruct (Nat.eqb_spec (match found with
                          | Some period => period
                          | None => cfg_s (config st)
                          end) (cfg_s (config st))) as [Heq|Hne];
    cbn [negb]; intros _.
  - rewrite Hd. exact Heq.
  - rewrite Hd. destruct found as [period|]; [reflexivity|congruence].
Qed.

Lemma detect_step_stable (L : Libs) (values : list Q) (st : Service) :
  (autoSelectParams (config st) = true ->
   _detectSeasonality L (config st) values = cfg_s (config st)) ->
  detect_step L values st = st.
Proof.
  intros H. unfold detect_step.
  destruct (autoSelectParams (config st)); [|reflexivity].
  cbv zeta. rewrite (H eq_refl), Nat.eqb_refl. reflexivity.
Qed.

Lemma model_step_fields (L : Libs) (values : list Q)
      (series : list (Q * Q)) (steps : nat) (st1 : Service) :
  let st2 := snd (model_step L values series steps st1) in
  config st2 = config st1 /\ _running st2 = _running st1 /\
  model_step L values series steps st2
  = model_step L values series steps st1.
Proof.
  cbv zeta. unfold model_step.
  destruct (STATSMODELS_AVAILABLE L); [|repeat split].
  unfold _statsmodelsSarimaForecast.
  destruct (SARIMAX L (config st1) series steps) eqn:E; cbn [snd];
    cbn [config set_modelFitted]; rewrite ?E; repeat split.
Qed.

(** X12.  [forecast] settles after one call: calling it again on the state
    it left behind, with the same history and number of steps, returns the
    same result and leaves that state as it is.  In particular a period
    written by the detection is not written again. *)
Theorem forecast_twice (L : Libs) (st : Service) (dataHistory : list Point)
        (steps : nat) :
  forecast L (snd (forecast L st dataHistory steps)) dataHistory steps
  = forecast L st dataHistory steps.
Proof.
  rewrite (forecast_unfold L st).
  destruct (negb (_running st)) eqn:Hrun.
  { cbn [snd]. rewrite forecast_unfold, Hrun. reflexivity. }
  destruct (length dataHistory <? 10)%nat eqn:Hlen.
  { cbn [snd]. rewrite forecast_unfold, Hrun, Hlen. reflexivity. }
  cbv zeta.
  destruct (parse_timestamps dataHistory) as [tss|] eqn:Hp.
  2:{ cbn [snd]. rewrite forecast_unfold, Hrun, Hlen, Hp. reflexivity. }
  set (values := map value dataHistory).
  set (series := sort_index (combine tss values)).
  set (st1 := detect_step L values st).
  destruct (detect_step_fields L values st) as [Hr1 Ha1]. fold st1 in Hr1, Ha1.
  pose proof (detect_step_settled L values st) as Hs1.
  cbv zeta in Hs1. fold st1 in Hs1.
  destruct (model_step_fields L values series steps st1)
    as (Hc2 & Hr2 & Hm2).
  destruct (model_step L values series steps st1) as [preds st2] eqn:Em.
  cbn [snd] in Hc2, Hr2, Hm2.
  assert (Hd2 : detect_step L values st2 = st2).
  { apply detect_step_stable. rewrite Hc2. exact Hs1. }
  assert (Hsecond : forecast L st2 dataHistory steps
                    = match Py.last_item tss with
                      | None => (None, st2)
                      | Some lastTimestamp =>
                          (Some (mkForecastResult
                                   preds
                                   (future_timestamps
                                      lastTimestamp
                                      (if (2 <=? length tss)%nat
                                       then lastTimestamp
                                            - nth (length tss - 2) tss 0
                                       else 1) steps)
                                   (Some (currentMae st2))
                                   (config st2)
                                   true
                                   (forecast_confidence values)),
                           st2)
                      end).
  { rewrite forecast_unfold, Hr2, Hr1, Hrun, Hlen, Hp. cbv zeta.
    fold values. fold series. rewrite Hd2, Hm2. reflexivity. }
  destruct (Py.last_item tss) as [lastTimestamp|]; cbn [snd];
    exact Hsecond.
Qed.

End ForecastTwice.

(** ** Sanitised pipeline output *)

Section SanitizeSpec.

Import Forecast.

(** X13.  [_sanitize_predictions] returns the finite numbers of its
    argument in depth-first, left-to-right order, whatever the nesting,
    cut to the first [limit] of them when a limit is given; values that
    are not finite or not numeric are dropped and nothing is reordered. *)
Theorem sanitize_predictions_leaves (raw_predictions : PyVal) (k : nat) :
  _sanitize_predictions raw_predictions (Some k)
  = firstn k (finite_leaves raw_predictions) /\
  _sanitize_predictions raw_predictions None
  = finite_leaves raw_predictions.
Proof.
  split.
  - apply sanitize_predictions_limited.
  - unfold _sanitize_predictions.
    rewrite sanitize_loop_leaves_unbounded
      by (unfold stack_weight; cbn [fold_right]; lia).
    cbn [flat_map app]. rewrite app_nil_r.
    destruct (finite_leaves raw_predictions); reflexivity.
Qed.

End SanitizeSpec.

(** ** Hourly aggregation *)

Section Aggregation.

Import Forecast.

Lemma mean_between (l : list Q) (lo hi : Q) :
  l <> [] -> Forall (fun x => lo <= x <= hi) l -> lo <= Np.mean l <= hi.
Proof.
  intros Hne Hall. unfold Np.mean.
  pose proof (len_positive l Hne) as Hpos.
  destruct (sum_bounds l lo hi Hall) as [Hlo Hhi]. split.
  - apply Qle_shift_div_l; [exact Hpos|]. rewrite Qmult_comm. exact Hlo.
  - apply Qle_shift_div_r; [exact Hpos|]. rewrite Qmult_comm. exact Hhi.
Qed.

(** What [insert_bucket] keeps: hours strictly ascending, no empty bucket,
    and every stored value satisfying [P]. *)
Lemma insert_bucket_keeps (P : Q -> Prop) (b : Z) (v : Q)
      (buckets : list (Z * list Q)) :
  P v ->
  Sorted Z.lt (map fst buckets) ->
  Forall (fun bucket => snd bucket <> [] /\ Forall P (snd bucket)) buckets ->
  Sorted Z.lt (map fst (insert_bucket b v buckets)) /\
  Forall (fun bucket => snd bucket <> [] /\ Forall P (snd bucket))
         (insert_bucket b v buckets) /\
  (length (insert_bucket b v buckets) <= S (length buckets))%nat /\
  (forall a, HdRel Z.lt a (map fst buckets) -> (a < b)%Z ->
             HdRel Z.lt a (map fst (insert_bucket b v buckets))).
Proof.
  intros Hv. induction buckets as [|[b' vs] rest IH]; intros Hs Hf.
  - cbn. repeat split; repeat constructor; auto. discriminate.
  - cbn [insert_bucket].
    apply Sorted_inv in Hs. destruct Hs as [Hs Hh].
    inversion Hf as [|? ? [Hne Hvs] Hf']; subst. cbn [snd] in *.
    destruct (Z.ltb_spec b b') as [Hlt|Hge].
    + cbn [map fst length]. repeat split.
      * constructor; [constructor; assumption|constructor; exact Hlt].
      * constructor; [split; [discriminate|repeat constructor; exact Hv]|].
        exact Hf.
      * lia.
      * intros a _ Ha. constructor. exact Ha.
    + destruct (Z.eqb_spec b b') as [->|Hneq].
      * cbn [map fst length]. repeat split.
        -- constructor; assumption.
        -- constructor; [|exact Hf']. cbn [snd]. split.
           ++ destruct vs; discriminate.
           ++ apply Forall_app. split; [exact Hvs|repeat constructor; exact Hv].
        -- lia.
        -- intros a Ha _. inversion Ha; subst. constructor. assumption.
      * destruct (IH Hs Hf') as (IHs & IHf & IHl & IHh).
        cbn [map fst length]. repeat split.
        -- constructor; [exact IHs|]. apply IHh; [exact Hh|lia].
        -- constructor; [split; assumption|exact IHf].
        -- lia.
        -- intros a Ha _. inversion Ha; subst. constructor. assumption.
Qed.

Lemma resample_hourly_keeps (P : Q -> Prop) (rows : list (Q * Q)) :
  Forall (fun row => P (snd row)) rows ->
  Sorted Z.lt (map fst (resample_hourly rows)) /\
  Forall (fun bucket => snd bucket <> [] /\ Forall P (snd bucket))
         (resample_hourly rows) /\
  (length (resample_hourly rows) <= length rows)%nat.
Proof.
  unfold resample_hourly.
  induction rows as [|row rows IH] using rev_ind; intros Hall.
  - cbn. repeat split; constructor.
  - apply Forall_app in Hall. destruct Hall as [Hall Hrow].
    inversion Hrow; subst.
    destruct (IH Hall) as (IHs & IHf & IHl).
    rewrite fold_left_app. cbn [fold_left].
    destruct (insert_bucket_keeps P (hour_bucket (fst row)) (snd row) _
                                  ltac:(assumption) IHs IHf)
      as (Hs & Hf & Hl & _).
    rewrite length_app. cbn [length]. repeat split; [exact Hs|exact Hf|lia].
Qed.

(** X14.  [aggregateHourlyData] returns nothing for an empty history.  It
    hands the history back unchanged when the column of timestamps does not
    parse as a whole: when an entry does not parse, and also when an entry
    does not follow the format of the first one.  When every entry parses
    and all follow one format, it returns one point for every calendar hour
    that holds a sample and no other, in strictly ascending order of the
    hour, each stamped with the start of its hour and valued with the mean
    of the samples of that hour; it never returns more points than it
    received. *)
Theorem aggregateHourlyData_shape (data_history : list Sarima.Point) :
  aggregateHourlyData [] = [] /\
  ((exists pt, In pt data_history /\ Sarima.timestamp pt = None) ->
   aggregateHourlyData data_history = data_history) /\
  (forall first rest other,
      data_history = first :: rest -> In other rest ->
      Sarima.layout other <> Sarima.layout first ->
      aggregateHourlyData data_history = data_history) /\
  (forall (tss : list Q) (l : nat),
     Sarima.parse_timestamps data_history = Some tss ->
     (forall pt, In pt data_history -> Sarima.layout pt = l) ->
     let rows := combine tss (map Sarima.value data_history) in
     exists hours : list Z,
       map Sarima.timestamp (aggregateHourlyData data_history)
       = map (fun h => Some (3600 * inject_Z h)) hours /\
       map Sarima.value (aggregateHourlyData data_history)
       = map (fun h => Np.mean (Spec.samples_of h rows)) hours /\
       Sorted Z.lt hours /\
       (forall h, In h hours <->
                  exists row, In row rows /\ Spec.hour_of (fst row) = h) /\
       (length (aggregateHourlyData data_history)
        <= length data_history)%nat).
Proof.
  assert (Hraw : to_datetime_column data_history = None ->
                 aggregateHourlyData data_history = data_history).
  { intros Hp. unfold aggregateHourlyData. rewrite Hp.
    destruct data_history; reflexivity. }
  split; [reflexivity|]. split; [|split].
  - intros H. apply Hraw, to_datetime_column_none. left. exact H.
  - intros first rest other Hd Hin Hl.
    apply Hraw, to_datetime_column_none. right.
    exists first, rest, other. repeat split; assumption.
  - intros tss l Hparse Hlayout rows.
    assert (Hp : to_datetime_column data_history = Some tss).
    { rewrite (to_datetime_column_uniform _ l Hlayout). exact Hparse. }
    assert (Hagg : aggregateHourlyData data_history
                   = map (fun bucket =>
                            Sarima.mkPoint
                              (Some (3600 * inject_Z (fst bucket)))
                              (Np.mean (snd bucket)) Sarima.iso)
                         (resample_hourly rows)).
    { unfold aggregateHourlyData, rows. clear rows.
      destruct data_history as [|pt rest] eqn:Hd.
      - injection Hp as <-. reflexivity.
      - rewrite <- Hd in *. rewrite Hp. reflexivity. }
    assert (Hrows : length rows = length data_history).
    { unfold rows. rewrite length_combine, length_map,
        (parse_timestamps_length _ _ Hparse).
      apply Nat.min_id. }
    destruct (resample_hourly_buckets rows) as (Hs & Hv & Hk).
    destruct (resample_hourly_keeps (fun _ => True) rows) as (_ & _ & Hl).
    { apply Forall_forall. intros; exact I. }
    exists (map fst (resample_hourly rows)). rewrite Hagg, !map_map.
    split; [reflexivity|]. split.
    { apply map_ext_in. intros [h vs] Hin. cbn [Sarima.value fst snd].
      rewrite (Hv h vs Hin). reflexivity. }
    split; [apply StronglySorted_Sorted; exact Hs|].
    split; [exact Hk|]. rewrite length_map. lia.
Qed.

End Aggregation.

(** ** Size of the two corrections *)

Section CorrectionBounds.

Import Forecast.

Lemma py_max_min_between (x lo hi : Q) :
  lo <= hi -> lo <= Py.max lo (Py.min hi x) <= hi.
Proof.
  intros Hle. rewrite max_min_clamp by exact Hle.
  apply clamp_between, Hle.
Qed.

(** X15.  The humidity correction never moves a predicted temperature by
    more than 2.5 degrees, whatever the humidity history, and it keeps the
    number of predictions. *)
Theorem humidity_correction_bounded (tempPredictions : list Q)
        (humidityHistory : list Sarima.Point) :
  let corrected := applyHumidityCorrection tempPredictions humidityHistory in
  length corrected = length tempPredictions /\
  forall (i : nat) (t : Q),
    nth_error tempPredictions i = Some t ->
    exists t',
      nth_error corrected i = Some t' /\
      - (5 # 2) <= t' - t <= 5 # 2.
Proof.
  cbv zeta. split; [apply applyHumidityCorrection_length|].
  intros i t Hi.
  destruct (Nat.ltb_spec (length humidityHistory) 10) as [Hs|Hl].
  - rewrite applyHumidityCorrection_short by exact Hs.
    exists t. split; [exact Hi|].
    setoid_replace (t - t) with 0 by ring.
    split; unfold Qle; simpl; lia.
  - rewrite (applyHumidityCorrection_loop _ _ Hl).
    rewrite nth_error_map. unfold enumerate.
    rewrite enumerate_from_nth, Hi. cbn [option_map fst snd Nat.add].
    eexists. split; [reflexivity|].
    match goal with
    | |- context [Py.max 0 (Py.min 100 ?x)] =>
        destruct (py_max_min_between x 0 100) as [H0 H100];
        [unfold Qle; simpl; lia|];
        set (projected := Py.max 0 (Py.min 100 x)) in *
    end.
    setoid_replace (t + (projected - 50) * (5 # 100) - t)
      with ((projected - 50) * (5 # 100)) by ring.
    split.
    + setoid_replace (- (5 # 2)) with ((0 - 50) * (5 # 100))
        by (unfold Qeq; simpl; lia).
      apply Qmult_le_compat_r; [|unfold Qle; simpl; lia].
      apply Qplus_le_compat; [exact H0|apply Qle_refl].
    + setoid_replace (5 # 2) with ((100 - 50) * (5 # 100))
        by (unfold Qeq; simpl; lia).
      apply Qmult_le_compat_r; [|unfold Qle; simpl; lia].
      apply Qplus_le_compat; [exact H100|apply Qle_refl].
Qed.

(** X16.  [addAnnualSeasonalComponent] returns its input when annual
    seasonality is disabled; when it is enabled it keeps the number of
    predictions and, the factor being a cosine between -1 and 1, moves no
    prediction by more than the amplitude 3. *)
Theorem annual_component_bounded (L : Libs) (st : Service)
        (predictions : list Q) (baseTimestamp : Q) :
  (forall k : Z, -1 <= seasonalFactor L k <= 1) ->
  let adjusted :=
    addAnnualSeasonalComponent L st predictions baseTimestamp in
  (enableAnnualSeasonality st = false -> adjusted = predictions) /\
  length adjusted = length predictions /\
  forall (i : nat) (v : Q),
    nth_error predictions i = Some v ->
    exists v', nth_error adjusted i = Some v' /\ -3 <= v' - v <= 3.
Proof.
  intros Hcos. cbv zeta. split; [|split].
  - intros Hoff. unfold addAnnualSeasonalComponent. rewrite Hoff.
    reflexivity.
  - apply addAnnualSeasonalComponent_length.
  - intros i v Hi. unfold addAnnualSeasonalComponent.
    destruct (enableAnnualSeasonality st); cbn [negb].
    + rewrite nth_error_map. unfold enumerate.
      rewrite enumerate_from_nth, Hi. cbn [option_map fst snd Nat.add].
      eexists. split; [reflexivity|].
      match goal with
      | |- context [seasonalFactor L ?k] =>
          destruct (Hcos k) as [Hlo Hhi]; set (factor := seasonalFactor L k)
                                           in *
      end.
      setoid_replace (v + factor * 3 - v) with (factor * 3) by ring.
      split.
      * setoid_replace (-3) with (-1 * 3) by ring.
        apply Qmult_le_compat_r; [exact Hlo|unfold Qle; simpl; lia].
      * setoid_replace 3 with (1 * 3) at 2 by ring.
        apply Qmult_le_compat_r; [exact Hhi|unfold Qle; simpl; lia].
    + exists v. split; [exact Hi|].
      setoid_replace (v - v) with 0 by ring.
      split; unfold Qle; simpl; lia.
Qed.

Lemma annual_component_bounded_witness :
  exists v',
    nth_error (addAnnualSeasonalComponent
                 Scenario.bareLibs
                 (Scenario.defaultService Scenario.bareLibs) [20; 21] 0) 1
    = Some v' /\ -3 <= v' - 21 <= 3.
Proof.
  refine (proj2 (proj2 (annual_component_bounded
                          Scenario.bareLibs
                          (Scenario.defaultService Scenario.bareLibs)
                          [20; 21] 0 _)) 1%nat 21 eq_refl).
  intros k. split; unfold Qle; simpl; lia.
Defined.

End CorrectionBounds.

(** ** [predict]: which model answered, and that one always does *)

Section PredictProvenance.

Import Forecast.

Lemma granite_forecast_keeps (L : Libs) (st : Service)
      (data_history : list Sarima.Point) (steps : nat) :
  let out := _granite_forecast L st data_history steps in
  sarimaFallback (snd out) = sarimaFallback st /\
  useFallback (snd out) = useFallback st /\
  (fst out <> None -> _model_loaded (snd out) = true).
Proof.
  cbv zeta. unfold _granite_forecast.
  assert (Hl : sarimaFallback (_load_granite_model L st) = sarimaFallback st
               /\ useFallback (_load_granite_model L st) = useFallback st).
  { unfold _load_granite_model.
    destruct (_model_loaded st || negb (GRANITE_AVAILABLE L));
      [split; reflexivity|].
    destruct (granite_load L); split; reflexivity. }
  destruct Hl as [Hl1 Hl2].
  destruct (_model_loaded (_load_granite_model L st)) eqn:E; cbn [negb];
    [|repeat split; try assumption; cbn; congruence].
  destruct (Sarima.parse_timestamps _);
    [|repeat split; try assumption; cbn; congruence].
  destruct (granite_pipeline L _);
    [|repeat split; try assumption; cbn; congruence].
  destruct (_sanitize_predictions _ _); cbn [fst snd];
    repeat split; try assumption; intros H; try exact E; congruence.
Qed.

Lemma sarima_forecast_some (L : Sarima.Libs) (s s' : Sarima.Service)
      (dataHistory : list Sarima.Point) (steps : nat)
      (r : Sarima.ForecastResult) :
  Sarima.forecast L s dataHistory steps = (Some r, s') ->
  Sarima._running s = true /\ (10 <= length dataHistory)%nat.
Proof.
  unfold Sarima.forecast.
  destruct (Sarima._running s); cbn [negb]; [|discriminate].
  destruct (Nat.ltb_spec (length dataHistory) 10); [discriminate|].
  intros _. split; [reflexivity|assumption].
Qed.

Lemma stages_provenance (L : Libs) (st : Service)
      (workingData : list Sarima.Point) (steps : nat) (values : Np.Floats)
      (m : Model) :
  try_smoothing L workingData steps
                (try_sarima L workingData steps
                            (try_granite L st workingData steps))
  = Some (values, m) ->
  provenance L st
             (snd (try_sarima L workingData steps
                              (try_granite L st workingData steps)))
             workingData steps m.
Proof.
  unfold try_granite.
  assert (Hsar : forall st1 : Service,
             sarimaFallback st1 = sarimaFallback st ->
             useFallback st1 = useFallback st ->
             try_smoothing L workingData steps
                           (try_sarima L workingData steps
                                       (None, unknown, st1))
             = Some (values, m) ->
             provenance L st
                        (snd (try_sarima L workingData steps
                                         (None, unknown, st1)))
                        workingData steps m).
  { intros st1 Hs Hu. cbn [try_sarima]. unfold _sarima_fallback_forecast.
    rewrite Hs.
    destruct (Sarima.forecast (sarimaLibs L) (sarimaFallback st) workingData
                              steps) as [[r|] sarima'] eqn:Es;
      cbn [option_map try_smoothing snd].
    - intros H. injection H as <- <-. cbn [provenance].
      destruct (sarima_forecast_some _ _ _ _ _ _ Es) as [Hrun Hlen].
      repeat split; assumption.
    - destruct (_prepare_series _ _) as [series|]; [|discriminate].
      destruct (_exponential_smoothing_forecast L series steps);
        [|discriminate].
      intros H. injection H as <- <-. cbn [provenance].
      split; [exact Hu|rewrite Es; reflexivity]. }
  destruct (use_granite st) eqn:Hg; cbn [andb];
    [|apply Hsar; reflexivity].
  destruct (Nat.leb_spec (context_length st) (length workingData))
    as [Hctx|Hctx]; [|apply Hsar; reflexivity].
  destruct (granite_forecast_keeps L st workingData steps)
    as (Hs & Hu & Hload).
  destruct (_granite_forecast L st workingData steps) as [[gv|] st1].
  - cbn [try_sarima try_smoothing snd fst] in *.
    intros H. injection H as <- <-. cbn [provenance].
    repeat split; try assumption. apply Hload. discriminate.
  - cbn [snd] in *. apply Hsar; assumption.
Qed.

Lemma predict_some_inv (L : Libs) (st st' : Service)
      (data_history : list Sarima.Point) (aggregateData : bool)
      (exogenousData : option (list Sarima.Point)) (r : Result) :
  predict L st data_history aggregateData exogenousData = (Some r, st') ->
  let workingData := workingData_of st data_history aggregateData in
  let steps := Nat.min (forecast_horizon st) 24 in
  let stage2 := try_sarima L workingData steps
                           (try_granite L st workingData steps) in
  st' = snd stage2 /\
  (exists values,
      try_smoothing L workingData steps stage2 = Some (values, model r)) /\
  (10 <= length data_history)%nat /\
  context_size r = length workingData /\
  original_data_points r = length data_history /\
  aggregated r
  = aggregateData && (sampleInterval st <? length data_history)%nat /\
  annual_seasonality_applied r = enableAnnualSeasonality (snd stage2) /\
  humidity_correction_applied r
  = match exogenousData with Some _ => true | None => false end.
Proof.
  unfold predict, workingData_of.
  destruct (Nat.ltb_spec (length data_history) 10) as [|Hlen];
    [discriminate|].
  destruct (try_smoothing _ _ _ _) as [[values m]|] eqn:E; [|discriminate].
  destruct (option_map _ _) as [[last_timestamp|]|]; try discriminate.
  destruct exogenousData as [exogenous|];
    (destruct (interval_hours _ _) as [interval|]; [|discriminate]);
    intros H; injection H as <- <-; cbn;
    (split; [reflexivity|]); (split; [exists values; reflexivity|]);
    repeat split; assumption.
Qed.

(** X17.  The model tag of a result is never ["unknown"].  It is Granite
    only if Granite was enabled, the working data filled the context and
    the model is loaded afterwards; it is SARIMA only if the SARIMA service
    was running and the working data had at least 10 points, and then
    [useFallback] is True afterwards; it is exponential smoothing only if
    the SARIMA service returned nothing.  Unless SARIMA answered,
    [useFallback] is left as it was. *)
Theorem predict_provenance (L : Libs) (st st' : Service)
        (data_history : list Sarima.Point) (aggregateData : bool)
        (exogenousData : option (list Sarima.Point)) (r : Result) :
  predict L st data_history aggregateData exogenousData = (Some r, st') ->
  provenance L st st' (workingData_of st data_history aggregateData)
             (Nat.min (forecast_horizon st) 24) (model r).
Proof.
  intros H. apply predict_some_inv in H.
  destruct H as (-> & (values & Hv) & _).
  exact (stages_provenance _ _ _ _ _ _ Hv).
Qed.

Lemma predict_provenance_witness :
  match predict Scenario.bareLibs
                (Scenario.defaultService Scenario.bareLibs)
                Scenario.ten_points true None
  with
  | (Some r, st') => model r = SARIMA /\ useFallback st' = true
  | (None, _) => False
  end.
Proof.
  destruct (predict Scenario.bareLibs
                    (Scenario.defaultService Scenario.bareLibs)
                    Scenario.ten_points true None) as [[r|] st'] eqn:E.
  - pose proof (predict_provenance _ _ _ _ _ _ _ E) as H.
    assert (Hm : model r = SARIMA).
    { vm_compute in E. injection E as <- _. reflexivity. }
    rewrite Hm in H. split; [exact Hm|]. exact (proj1 H).
  - vm_compute in E. discriminate E.
Defined.

(** X18.  After [stop()] the orchestrator still answers, but never with
    SARIMA, whose service refuses to forecast while stopped, and it leaves
    [useFallback] as it was; [start()] sets both running flags again. *)
Theorem stopped_service_skips_sarima (L : Libs) (st st' : Service)
        (data_history : list Sarima.Point) (aggregateData : bool)
        (exogenousData : option (list Sarima.Point)) (r : Result) :
  predict L (stop st) data_history aggregateData exogenousData
  = (Some r, st') ->
  model r <> SARIMA /\
  useFallback st' = useFallback st /\
  _running (start (stop st)) = true /\
  Sarima._running (sarimaFallback (start (stop st))) = true.
Proof.
  intros H. apply predict_some_inv in H.
  destruct H as (-> & (values & Hv) & _).
  apply stages_provenance in Hv. split; [|split; [|split; reflexivity]].
  - intros Hm. rewrite Hm in Hv. cbn [provenance] in Hv.
    destruct Hv as (_ & Hrun & _). discriminate Hrun.
  - destruct (model r); cbn [provenance] in Hv.
    + destruct Hv.
    + destruct Hv as (_ & _ & _ & Hu). exact Hu.
    + destruct Hv as (_ & Hrun & _). discriminate Hrun.
    + destruct Hv as [Hu _]. exact Hu.
Qed.

Lemma stopped_service_skips_sarima_witness :
  match predict Scenario.bareLibs
                (stop (Scenario.defaultService Scenario.bareLibs))
                Scenario.ten_points true None
  with
  | (Some r, _) => model r <> SARIMA
  | (None, _) => False
  end.
Proof.
  destruct (predict Scenario.bareLibs
                    (stop (Scenario.defaultService Scenario.bareLibs))
                    Scenario.ten_points true None) as [[r|] st'] eqn:E.
  - exact (proj1 (stopped_service_skips_sarima _ _ _ _ _ _ _ E)).
  - vm_compute in E. discriminate E.
Defined.

Lemma tail_in {A} (n : nat) (l : list A) (x : A) :
  In x (Py.tail n l) -> In x l.
Proof.
  unfold Py.tail. destruct (n =? 0)%nat; [trivial|].
  intros H. rewrite <- (firstn_skipn (length l - n) l).
  apply in_or_app. right. exact H.
Qed.

Lemma tail_nonempty {A} (n : nat) (l : list A) :
  l <> [] -> Py.tail n l <> [].
Proof.
  intros Hne. unfold Py.tail. destruct (n =? 0)%nat eqn:E; [exact Hne|].
  apply Nat.eqb_neq in E. intros H.
  apply (f_equal (@length A)) in H. rewrite length_skipn in H.
  destruct l; [congruence|]. cbn [length] in H. lia.
Qed.

Lemma insert_row_length (row : Q * Q) (rows : list (Q * Q)) :
  length (Sarima.insert_row row rows) = S (length rows).
Proof.
  induction rows as [|r rows IH]; [reflexivity|].
  cbn [Sarima.insert_row]. destruct (Py.ltb (fst row) (fst r));
    cbn [length]; [reflexivity|]. rewrite IH. reflexivity.
Qed.

Lemma sort_index_length (rows : list (Q * Q)) :
  length (Sarima.sort_index rows) = length rows.
Proof.
  unfold Sarima.sort_index.
  induction rows as [|row rows IH] using rev_ind; [reflexivity|].
  rewrite fold_left_app. cbn [fold_left].
  rewrite insert_row_length, IH, length_app. cbn [length]. lia.
Qed.

(** Every point of a non-empty history whose timestamps parse: the working
    data are not empty, at least ten points long when they are the history
    itself, and every point of them carries a timestamp that parses. *)
Lemma workingData_stamped (st : Service) (data_history : list Sarima.Point)
      (aggregateData : bool) :
  (10 <= length data_history)%nat ->
  (forall pt, In pt data_history -> Sarima.timestamp pt <> None) ->
  let workingData := workingData_of st data_history aggregateData in
  workingData <> [] /\
  (forall pt, In pt workingData -> Sarima.timestamp pt <> None) /\
  (aggregateData && (sampleInterval st <? length data_history)%nat = false ->
   workingData = data_history).
Proof.
  intros Hlen Hts. cbv zeta. unfold workingData_of.
  destruct (aggregateData && _).
  - split; [|split; [|discriminate]].
    + apply aggregateHourlyData_nonempty.
      intros ->. cbn in Hlen. lia.
    + intros pt. unfold aggregateHourlyData.
      destruct data_history as [|pt0 rest] eqn:Hd; [intros []|].
      rewrite <- Hd in *.
      destruct (to_datetime_column data_history) as [tss|].
      * intros Hin. apply in_map_iff in Hin.
        destruct Hin as (bucket & <- & _). discriminate.
      * apply Hts.
  - split; [|split; [exact Hts|reflexivity]].
    intros ->. cbn in Hlen. lia.
Qed.

Lemma prepare_series_some (st : Service) (workingData : list Sarima.Point) :
  workingData <> [] ->
  (forall pt, In pt workingData -> Sarima.timestamp pt <> None) ->
  exists series,
    _prepare_series st workingData = Some series /\ series <> [].
Proof.
  intros Hne Hts. unfold _prepare_series.
  destruct (parse_timestamps_some (Py.tail (context_length st) workingData))
    as [tss Hp].
  { intros pt Hin. apply Hts. exact (tail_in _ _ _ Hin). }
  rewrite Hp. eexists. split; [reflexivity|].
  intros H. apply (f_equal (@length (Q * Q))) in H.
  rewrite sort_index_length, length_combine, length_map,
    (parse_timestamps_length _ _ Hp), Nat.min_id in H.
  pose proof (tail_nonempty (context_length st) workingData Hne) as Ht.
  destruct (Py.tail (context_length st) workingData); [congruence|].
  discriminate H.
Qed.

Lemma exponential_smoothing_forecast_some (L : Libs) (series : list (Q * Q))
      (steps : nat) :
  series <> [] ->
  exists values, _exponential_smoothing_forecast L series steps = Some values.
Proof.
  intros Hne. unfold _exponential_smoothing_forecast.
  destruct (ExponentialSmoothing L _ _ _); [eexists; reflexivity|].
  unfold _simple_forecast.
  destruct (last_item_some (map snd series)) as [x Hx].
  { destruct series; [congruence|discriminate]. }
  rewrite Hx. eexists; reflexivity.
Qed.

Lemma interval_hours_some (is_aggregated : bool)
      (workingData : list Sarima.Point) :
  (forall pt, In pt workingData -> Sarima.timestamp pt <> None) ->
  exists interval, interval_hours is_aggregated workingData = Some interval.
Proof.
  intros Hts. unfold interval_hours.
  destruct is_aggregated; [eexists; reflexivity|].
  destruct (Nat.leb_spec 2 (length workingData)) as [Hlen|];
    [|eexists; reflexivity].
  destruct (last_item_some workingData) as [pt1 H1].
  { intros ->. cbn in Hlen. lia. }
  rewrite H1. unfold Py.item.
  destruct (nth_error workingData (length workingData - 2)) as [pt2|] eqn:H2.
  - assert (Hin1 : In pt1 workingData).
    { unfold Py.last_item in H1. apply in_rev.
      destruct (rev workingData); [discriminate|].
      injection H1 as ->. left; reflexivity. }
    pose proof (Hts pt1 Hin1) as Ht1.
    pose proof (Hts pt2 (nth_error_In _ _ H2)) as Ht2.
    destruct (Sarima.timestamp pt1); [|congruence].
    destruct (Sarima.timestamp pt2); [|congruence].
    eexists; reflexivity.
  - apply nth_error_None in H2. lia.
Qed.

(** With at least ten points whose timestamps all parse, [predict] returns
    a result; what the libraries do decides which model, not whether. *)
Lemma predict_total (L : Libs) (st : Service)
      (data_history : list Sarima.Point) (aggregateData : bool)
      (exogenousData : option (list Sarima.Point)) :
  (10 <= length data_history)%nat ->
  (forall pt, In pt data_history -> Sarima.timestamp pt <> None) ->
  exists r,
    fst (predict L st data_history aggregateData exogenousData) = Some r.
Proof.
  intros Hlen Hts.
  destruct (workingData_stamped st data_history aggregateData Hlen Hts)
    as (Hne & Hwts & _).
  unfold predict, workingData_of in *.
  destruct (Nat.ltb_spec (length data_history) 10) as [|_]; [lia|].
  set (is_aggregated :=
         aggregateData && (sampleInterval st <? length data_history)%nat)
    in *.
  set (workingData := if is_aggregated then aggregateHourlyData data_history
                      else data_history) in *.
  set (steps := Nat.min (forecast_horizon st) 24).
  set (stage2 := try_sarima L workingData steps
                            (try_granite L st workingData steps)).
  assert (Hs : exists vm, try_smoothing L workingData steps stage2 = Some vm).
  { destruct stage2 as [[[values|] m] st2]; cbn [try_smoothing].
    - eexists; reflexivity.
    - destruct (prepare_series_some st2 workingData Hne Hwts)
        as (series & -> & Hsne).
      destruct (exponential_smoothing_forecast_some L series steps Hsne)
        as [values ->].
      eexists; reflexivity. }
  destruct Hs as [[values m] ->].
  destruct (last_item_some workingData Hne) as [pt Hpt].
  assert (Hin : In pt workingData).
  { unfold Py.last_item in Hpt. apply in_rev.
    destruct (rev workingData); [discriminate|].
    injection Hpt as ->. left; reflexivity. }
  rewrite Hpt. cbn [option_map].
  pose proof (Hwts pt Hin) as Ht.
  destruct (Sarima.timestamp pt) as [last_timestamp|]; [|congruence].
  destruct (interval_hours_some is_aggregated workingData Hwts)
    as [interval ->].
  destruct exogenousData; eexists; reflexivity.
Qed.

(** X19.  For a history whose timestamps all parse, [predict] returns
    [None] exactly when the history has fewer than 10 points: neither a
    missing or failing library, nor a stopped service, nor any setting of
    the flags makes it give up. *)
Theorem predict_none_iff_short (L : Libs) (st : Service)
        (data_history : list Sarima.Point) (aggregateData : bool)
        (exogenousData : option (list Sarima.Point)) :
  (forall pt, In pt data_history -> Sarima.timestamp pt <> None) ->
  fst (predict L st data_history aggregateData exogenousData) = None
  <-> (length data_history < 10)%nat.
Proof.
  intros Hts. split.
  - intros Hnone.
    destruct (Nat.lt_ge_cases (length data_history) 10) as [|Hlen];
      [assumption|].
    destruct (predict_total L st data_history aggregateData exogenousData
                            Hlen Hts) as [r Hr].
    congruence.
  - intros Hlen. unfold predict.
    apply Nat.ltb_lt in Hlen. rewrite Hlen. reflexivity.
Qed.

Lemma predict_none_iff_short_witness :
  fst (predict Scenario.bareLibs
               (stop (Scenario.defaultService Scenario.bareLibs))
               Scenario.ten_points false None) = None
  <-> (length Scenario.ten_points < 10)%nat.
Proof.
  apply predict_none_iff_short.
  intros pt Hin.
  repeat (destruct Hin as [<-|Hin]; [discriminate|]). destruct Hin.
Defined.

Lemma predict_some_predictions (L : Libs) (st st' : Service)
      (data_history : list Sarima.Point) (aggregateData : bool)
      (exogenousData : option (list Sarima.Point)) (r : Result) :
  predict L st data_history aggregateData exogenousData = (Some r, st') ->
  let workingData := workingData_of st data_history aggregateData in
  exists last_timestamp interval values,
    option_map Sarima.timestamp (Py.last_item workingData)
    = Some (Some last_timestamp) /\
    interval_hours (aggregated r) workingData = Some interval /\
    predictions r = build_predictions last_timestamp interval values /\
    forecast_horizon_hours r = Nat.min (forecast_horizon st) 24.
Proof.
  unfold predict, workingData_of.
  destruct (length data_history <? 10)%nat; [discriminate|].
  destruct (try_smoothing _ _ _ _) as [[values m]|]; [|discriminate].
  destruct (option_map _ _) as [[last_timestamp|]|]; try discriminate.
  destruct exogenousData as [exogenous|];
    (destruct (interval_hours _ _) as [interval|] eqn:Ei; [|discriminate]);
    intros H; injection H as <- <-; cbn;
    exists last_timestamp, interval; eexists;
    (split; [reflexivity|]); (split; [exact Ei|]); split; reflexivity.
Qed.

Lemma aggregateHourlyData_length (data_history : list Sarima.Point) :
  (length (aggregateHourlyData data_history) <= length data_history)%nat.
Proof.
  unfold aggregateHourlyData.
  destruct data_history as [|pt rest] eqn:Hd; [apply le_n|].
  rewrite <- Hd. clear Hd.
  destruct (to_datetime_column data_history) as [tss|] eqn:Hp;
    [|apply le_n].
  apply to_datetime_column_parse in Hp.
  rewrite length_map.
  destruct (resample_hourly_keeps
              (fun _ => True)
              (combine tss (map Sarima.value data_history)))
    as (_ & _ & Hl).
  { apply Forall_forall. intros; exact I. }
  rewrite length_combine, length_map,
    (parse_timestamps_length _ _ Hp), Nat.min_id in Hl.
  exact Hl.
Qed.

(** X20.  The result reports the capped horizon and never more context
    than data points received.  Its predictions are numbered 1, 2, ... and
    follow the last working point in time: one hour apart, [hours_ahead]
    equal to the step number, when the data were aggregated; at the spacing
    of the last two points of the history otherwise. *)
Theorem predict_timeline (L : Libs) (st st' : Service)
        (data_history : list Sarima.Point) (aggregateData : bool)
        (exogenousData : option (list Sarima.Point)) (r : Result) :
  predict L st data_history aggregateData exogenousData = (Some r, st') ->
  forecast_horizon_hours r = Nat.min (forecast_horizon st) 24 /\
  (context_size r <= original_data_points r)%nat /\
  exists last_timestamp,
    option_map Sarima.timestamp
               (Py.last_item (workingData_of st data_history aggregateData))
    = Some (Some last_timestamp) /\
    forall (k : nat) (p : Prediction),
      nth_error (predictions r) k = Some p ->
      horizon_step p = (k + 1)%nat /\
      (aggregated r = true ->
       pred_timestamp p
       == last_timestamp + 3600 * inject_Z (Z.of_nat (k + 1)) /\
       hours_ahead p = Z.of_nat (k + 1)) /\
      (aggregated r = false ->
       forall (older : list Sarima.Point) (pt2 pt1 : Sarima.Point) (t2 : Q),
         data_history = older ++ [pt2; pt1] ->
         Sarima.timestamp pt2 = Some t2 ->
         pred_timestamp p
         == last_timestamp
            + (last_timestamp - t2) * inject_Z (Z.of_nat (k + 1))).
Proof.
  intros H.
  destruct (predict_some_predictions _ _ _ _ _ _ _ H)
    as (last_timestamp & interval & values & Hlast & Hint & Hpred & Hsteps).
  destruct (predict_some_inv _ _ _ _ _ _ _ H)
    as (_ & _ & _ & Hctx & Horig & Hagg & _).
  split; [exact Hsteps|]. split.
  { rewrite Hctx, Horig. unfold workingData_of.
    destruct (aggregateData && _);
      [apply aggregateHourlyData_length|apply le_n]. }
  exists last_timestamp. split; [exact Hlast|].
  intros k p Hk. rewrite Hpred in Hk. unfold build_predictions in Hk.
  rewrite nth_error_map in Hk. unfold enumerate in Hk.
  rewrite enumerate_from_nth in Hk.
  destruct (nth_error (Np.tolist values) k) as [v|]; [|discriminate Hk].
  cbn [option_map Nat.add] in Hk. injection Hk as <-.
  cbn [horizon_step pred_timestamp hours_ahead fst snd].
  split; [reflexivity|]. split.
  - intros Ha. rewrite Ha in Hint. cbn [interval_hours] in Hint.
    injection Hint as <-. unfold steps_ahead. split.
    + rewrite Qmult_1_l. reflexivity.
    + unfold int_of. cbn [Qmult Qnum Qden inject_Z Pos.mul].
      rewrite Z.quot_1_r. destruct (Z.of_nat (k + 1)); reflexivity.
  - intros Ha older pt2 pt1 t2 Hd Ht2.
    rewrite Ha in Hint, Hagg.
    unfold workingData_of in Hlast, Hint. rewrite <- Hagg in Hlast, Hint.
    subst data_history. unfold interval_hours in Hint.
    rewrite length_app in Hint. cbn [length] in Hint.
    replace (2 <=? length older + 2)%nat with true in Hint
      by (symmetry; apply Nat.leb_le; lia).
    unfold Py.last_item, Py.item in Hlast, Hint.
    rewrite rev_app_distr in Hlast, Hint. cbn [rev app] in Hlast, Hint.
    replace (length older + 2 - 2)%nat with (length older) in Hint by lia.
    rewrite nth_error_app2 in Hint by apply le_n.
    rewrite Nat.sub_diag in Hint. cbn [nth_error option_map] in Hlast, Hint.
    injection Hlast as Hlast. rewrite Hlast, Ht2 in Hint.
    injection Hint as <-. unfold steps_ahead. field.
Qed.

Lemma predict_timeline_witness :
  match predict Scenario.bareLibs
                (Scenario.defaultService Scenario.bareLibs)
                Scenario.ten_points true None
  with
  | (Some r, _) => forecast_horizon_hours r = 24%nat
  | (None, _) => False
  end.
Proof.
  destruct (predict Scenario.bareLibs
                    (Scenario.defaultService Scenario.bareLibs)
                    Scenario.ten_points true None) as [[r|] st'] eqn:E.
  - exact (proj1 (predict_timeline _ _ _ _ _ _ _ E)).
  - vm_compute in E. discriminate E.
Defined.

End PredictProvenance.

(** ** The caller: [update_metric_forecast] *)

Section Caller.

Import App.

Lemma stamp_length (limit : nat) (currentTime : Q) (history : list Q) :
  length (stamp limit currentTime history)
  = length (Py.tail limit history).
Proof.
  unfold stamp, Forecast.enumerate.
  rewrite length_map, enumerate_from_length. reflexivity.
Qed.

Lemma stamp_parses (limit : nat) (currentTime : Q) (history : list Q)
      (pt : Sarima.Point) :
  In pt (stamp limit currentTime history) -> Sarima.timestamp pt <> None.
Proof.
  unfold stamp. intros Hin. apply in_map_iff in Hin.
  destruct Hin as (iv & <- & _). discriminate.
Qed.

Lemma updateMaeTracking_histories (st : Forecast.Service)
      (predicted actual : Q) :
  Forecast.predictionHistory
    (snd (Forecast.updateMaeTracking st predicted actual))
  = Py.deque_append 168 (Forecast.predictionHistory st) predicted /\
  Forecast.actualHistory
    (snd (Forecast.updateMaeTracking st predicted actual))
  = Py.deque_append 168 (Forecast.actualHistory st) actual.
Proof.
  unfold Forecast.updateMaeTracking.
  destruct (Sarima.shouldUseFallback _ _) as [shouldFallback sarima2].
  split; reflexivity.
Qed.

(** X21.  Without a forecast service, or with fewer than 3600 samples, the
    forecast written is the straight line through the last two samples,
    one finite value per step of the horizon; a single sample is repeated.  No
    metadata is written and the dashboard is left as it was.  An empty
    history writes an empty forecast. *)
Theorem update_metric_forecast_linear (L : Forecast.Libs) (app : Dashboard)
        (currentTime : Q) (older humidity_history : list Q) (prev last : Q)
        (metric : Metric) :
  forecastService app = None \/ (length older + 2 < 3600)%nat ->
  update_metric_forecast L app currentTime (older ++ [prev; last])
                         humidity_history metric
  = (mkWritten
       (map Np.Fin
            (map (fun step =>
                    last + (last - prev) * inject_Z (Z.of_nat step))
                 (seq 1 (forecast_horizon app))))
       None,
     app) /\
  update_metric_forecast L app currentTime [last] humidity_history metric
  = (mkWritten
       (map Np.Fin
            (map (fun step => last + 0 * inject_Z (Z.of_nat step))
                 (seq 1 (forecast_horizon app))))
       None,
     app) /\
  update_metric_forecast L app currentTime [] humidity_history metric
  = (mkWritten [] None, app).
Proof.
  intros H. split; [|split; [|reflexivity]].
  - assert (Hlen : length (older ++ [prev; last]) = (length older + 2)%nat).
    { rewrite length_app. reflexivity. }
    assert (Hlin : linear_forecast (forecast_horizon app)
                                   (older ++ [prev; last])
                   = Some (map (fun step =>
                                  last + (last - prev)
                                         * inject_Z (Z.of_nat step))
                               (seq 1 (forecast_horizon app)))).
    { unfold linear_forecast, Py.last_item.
      rewrite rev_app_distr. cbn [rev List.app]. rewrite Hlen.
      replace (2 <=? length older + 2)%nat with true
        by (symmetry; apply Nat.leb_le; lia).
      replace (length older + 2 - 2)%nat with (length older) by lia.
      rewrite app_nth2 by lia. rewrite Nat.sub_diag. reflexivity. }
    unfold update_metric_forecast.
    destruct (older ++ [prev; last]) as [|x rest] eqn:Hd.
    { destruct older; discriminate Hd. }
    rewrite <- Hd in *. clear Hd.
    destruct H as [Hnone|Hshort].
    + rewrite Hnone, Hlin. reflexivity.
    + destruct (forecastService app);
        [|rewrite Hlin; reflexivity].
      unfold minSamples. rewrite Hlen.
      replace (3600 <=? length older + 2)%nat with false
        by (symmetry; apply Nat.leb_gt; exact Hshort).
      rewrite Hlin. reflexivity.
  - unfold update_metric_forecast.
    destruct (forecastService app); reflexivity.
Qed.

Lemma update_metric_forecast_linear_witness :
  forecast
    (fst (update_metric_forecast
            Scenario.bareLibs
            (mkDashboard
               (Some (Scenario.defaultService Scenario.bareLibs)) 3600 3)
            0 ([20; 21] ++ [22; 24]) [] temperature))
  = map Np.Fin
        [24 + (24 - 22) * 1; 24 + (24 - 22) * 2; 24 + (24 - 22) * 3].
Proof.
  rewrite (proj1 (update_metric_forecast_linear
                    Scenario.bareLibs
                    (mkDashboard
                       (Some (Scenario.defaultService Scenario.bareLibs))
                       3600 3)
                    0 [20; 21] [] 22 24 temperature
                    ltac:(right; cbn [length]; lia))).
  reflexivity.
Defined.

(** X22.  With a forecast service, at least 3600 samples and a history
    limit of 0 or at least 10, the service's answer is always the one
    written, never the straight line: at most
    [forecast_horizon] values together with the metadata.  The model is
    never ["unknown"]; the aggregated flag says whether the stamped slice is
    longer than the service's [sampleInterval]; the humidity flag is set
    exactly for the temperature with at least 3600 humidity samples.  The
    service is then told once that the last sample was the prediction and
    the one before it the actual value. *)
Theorem update_metric_forecast_service (L : Forecast.Libs) (app : Dashboard)
        (service : Forecast.Service) (currentTime : Q)
        (history humidity_history : list Q) (metric : Metric) :
  forecastService app = Some service ->
  (3600 <= length history)%nat ->
  history_limit app = 0%nat \/ (10 <= history_limit app)%nat ->
  let out := update_metric_forecast L app currentTime history
                                    humidity_history metric in
  exists (m : Forecast.Model) (seasonal : bool) (last : Q)
         (service' : Forecast.Service),
    metadata (fst out)
    = Some (m,
            (Forecast.sampleInterval service
             <? length (Py.tail (history_limit app) history))%nat,
            seasonal,
            match metric with
            | temperature => (3600 <=? length humidity_history)%nat
            | humidity => false
            end) /\
    m <> Forecast.unknown /\
    (length (forecast (fst out)) <= forecast_horizon app)%nat /\
    Py.last_item history = Some last /\
    forecastService (snd out) = Some service' /\
    Forecast.predictionHistory service'
    = Py.deque_append 168 (Forecast.predictionHistory service) last /\
    Forecast.actualHistory service'
    = Py.deque_append 168 (Forecast.actualHistory service)
                      (nth (length history - 2) history 0).
Proof.
  intros Hservice Hlen Hlimit. cbv zeta.
  unfold update_metric_forecast.
  destruct history as [|x rest] eqn:Hd; [cbn in Hlen; lia|].
  rewrite <- Hd in *.
  assert (Hne : history <> []) by (rewrite Hd; discriminate).
  clear Hd x rest.
  rewrite Hservice. unfold minSamples.
  replace (3600 <=? length history)%nat with true
    by (symmetry; apply Nat.leb_le; exact Hlen).
  set (dataHistory := stamp (history_limit app) currentTime history).
  set (exogenousData := match metric with
                        | temperature => _
                        | humidity => None
                        end).
  assert (Hdata : (10 <= length dataHistory)%nat).
  { unfold dataHistory. rewrite stamp_length. unfold Py.tail.
    destruct (history_limit app =? 0)%nat eqn:E; [lia|].
    apply Nat.eqb_neq in E. rewrite length_skipn. lia. }
  destruct (predict_total L service dataHistory true exogenousData Hdata
                          (stamp_parses _ _ _)) as [r Hr].
  destruct (Forecast.predict L service dataHistory true exogenousData)
    as [result service1] eqn:Ep.
  cbn [fst] in Hr. subst result.
  destruct (predict_some_inv _ _ _ _ _ _ _ Ep)
    as (Hst & (values & Hv) & _ & _ & _ & Hagg & _ & Hhum).
  pose proof (stages_provenance _ _ _ _ _ _ Hv) as Hprov.
  destruct (stages_frame L service
                         (Forecast.workingData_of service dataHistory true)
                         (Nat.min (Forecast.forecast_horizon service) 24))
    as [Hframe _].
  cbv zeta in Hframe. rewrite <- Hst in Hframe.
  destruct (last_item_some history Hne) as [last Hlast].
  replace (2 <=? length history)%nat with true
    by (symmetry; apply Nat.leb_le; lia).
  rewrite Hlast. cbn [fst snd metadata forecast forecastService].
  destruct (updateMaeTracking_histories
              service1 last (nth (length history - 2) history 0))
    as [Hph Hah].
  exists (Forecast.model r), (Forecast.annual_seasonality_applied r), last.
  eexists. split; [|split; [|split; [|split; [|split; [|split]]]]].
  - rewrite Hagg, Hhum. cbn [andb]. unfold dataHistory.
    rewrite stamp_length. do 3 f_equal.
    unfold exogenousData. destruct metric; [|reflexivity].
    destruct (3600 <=? length humidity_history)%nat; reflexivity.
  - intros Hm. rewrite Hm in Hprov. exact Hprov.
  - rewrite length_map. apply firstn_le_length.
  - reflexivity.
  - reflexivity.
  - rewrite Hph.
    exact (f_equal (fun s => Py.deque_append 168 s last)
                   (f_equal Forecast.predictionHistory Hframe)).
  - rewrite Hah.
    exact (f_equal (fun s => Py.deque_append
                               168 s (nth (length history - 2) history 0))
                   (f_equal Forecast.actualHistory Hframe)).
Qed.

Lemma update_metric_forecast_service_witness :
  (length
     (forecast
        (fst (update_metric_forecast
                Scenario.bareLibs
                (mkDashboard
                   (Some (Scenario.defaultService Scenario.bareLibs)) 0 24)
                0 (repeat (20 # 1) 3600) [] humidity)))
   <= 24)%nat.
Proof.
  destruct (update_metric_forecast_service
              Scenario.bareLibs
              (mkDashboard
                 (Some (Scenario.defaultService Scenario.bareLibs)) 0 24)
              (Scenario.defaultService Scenario.bareLibs)
              0 (repeat (20 # 1) 3600) [] humidity
              eq_refl
              ltac:(rewrite repeat_length; apply le_n)
              ltac:(left; reflexivity))
    as (m & seasonal & last & service' & _ & _ & Hlen & _).
  exact Hlen.
Defined.

Lemma resample_hourly_keys (k : Z) (rows : list (Q * Q)) :
  In k (map fst (Forecast.resample_hourly rows)) ->
  exists row, In row rows /\ k = Forecast.hour_bucket (fst row).
Proof.
  unfold Forecast.resample_hourly.
  induction rows as [|row rows IH] using rev_ind; [intros []|].
  rewrite fold_left_app. cbn [fold_left]. intros H.
  apply insert_bucket_keys in H. destruct H as [->|H].
  - exists row. split; [apply in_or_app; right; left|]; reflexivity.
  - destruct (IH H) as (row' & Hin & ->).
    exists row'. split; [apply in_or_app; left; exact Hin|reflexivity].
Qed.

(** Strictly ascending integers between [lo] and [hi]: there are at most
    [hi - lo + 1] of them. *)
Lemma sorted_range_length (l : list Z) (lo hi : Z) :
  Sorted Z.lt l ->
  (forall x, In x l -> (lo <= x <= hi)%Z) ->
  (Z.of_nat (length l) <= Z.max 0 (hi - lo + 1))%Z.
Proof.
  intros Hs. apply Sorted_StronglySorted in Hs;
    [|exact (fun x y z => Z.lt_trans x y z)].
  revert lo. induction Hs as [|x l Hs IH Hall]; intros lo Hin.
  - cbn [length]. lia.
  - assert (Hx : (lo <= x <= hi)%Z) by (apply Hin; left; reflexivity).
    assert (Hl : (Z.of_nat (length l) <= Z.max 0 (hi - (x + 1) + 1))%Z).
    { apply IH. intros y Hy. rewrite Forall_forall in Hall.
      pose proof (Hall y Hy). pose proof (Hin y (or_intror Hy)). lia. }
    cbn [length]. lia.
Qed.

Lemma Qfloor_minus_Z (t : Q) (m : Z) :
  Qfloor (t - inject_Z m) = (Qfloor t - m)%Z.
Proof.
  apply Z.le_antisymm.
  - assert (H : inject_Z (Qfloor (t - inject_Z m) + m) <= t).
    { rewrite inject_Z_plus.
      apply Qle_trans with (t - inject_Z m + inject_Z m).
      - apply Qplus_le_compat; [apply Qfloor_le|apply Qle_refl].
      - setoid_replace (t - inject_Z m + inject_Z m) with t by ring.
        apply Qle_refl. }
    apply Qfloor_resp_le in H. rewrite Qfloor_Z in H. lia.
  - assert (H : inject_Z (Qfloor t - m) <= t - inject_Z m).
    { unfold Z.sub. rewrite inject_Z_plus, inject_Z_opp.
      apply Qplus_le_compat; [apply Qfloor_le|apply Qle_refl]. }
    apply Qfloor_resp_le in H. rewrite Qfloor_Z in H. exact H.
Qed.

Lemma enumerate_from_index {A} (j i : nat) (x : A) (l : list A) :
  In (i, x) (Forecast.enumerate_from j l) ->
  (j <= i < j + length l)%nat.
Proof.
  revert j; induction l as [|y l IH]; intros j; [intros []|].
  cbn [Forecast.enumerate_from length]. intros [H|H].
  - injection H as <- _. lia.
  - apply IH in H. lia.
Qed.

(** The samples are stamped with whole seconds, none later than
    [currentTime] and none earlier than the length of the slice allows. *)
Lemma stamp_timestamps (limit : nat) (currentTime : Q) (history : list Q)
      (pt : Sarima.Point) :
  In pt (stamp limit currentTime history) ->
  exists z : Z,
    Sarima.timestamp pt = Some (inject_Z z) /\
    (Qfloor currentTime - Z.of_nat (length (Py.tail limit history) - 1)
     <= z <= Qfloor currentTime)%Z.
Proof.
  unfold stamp. intros Hin. apply in_map_iff in Hin.
  destruct Hin as ([i x] & <- & Hin). cbn [fst snd Sarima.timestamp].
  apply enumerate_from_index in Hin.
  eexists. split; [reflexivity|].
  rewrite Qfloor_minus_Z. lia.
Qed.

Lemma parse_timestamps_in (data : list Sarima.Point) (tss : list Q) (t : Q) :
  Sarima.parse_timestamps data = Some tss ->
  In t tss ->
  exists pt, In pt data /\ Sarima.timestamp pt = Some t.
Proof.
  revert tss; induction data as [|pt data IH]; intros tss; cbn.
  - intros H; injection H as <-. intros [].
  - destruct (Sarima.timestamp pt) as [t0|] eqn:E; [|discriminate].
    destruct (Sarima.parse_timestamps data) as [ts|]; [|discriminate].
    intros H; injection H as <-. intros [<-|Hin].
    + exists pt. split; [left; reflexivity|exact E].
    + destruct (IH ts eq_refl Hin) as (pt' & Hin' & Ht).
      exists pt'. split; [right; exact Hin'|exact Ht].
Qed.

(** Samples one second apart fall into few hours: the aggregation of a
    stamped slice of [n] samples has at most [(n - 1) / 3600 + 2] points. *)
Lemma stamped_hours (limit : nat) (currentTime : Q) (history : list Q) :
  (length (Forecast.aggregateHourlyData (stamp limit currentTime history))
   <= (length (Py.tail limit history) - 1) / 3600 + 2)%nat.
Proof.
  set (data := stamp limit currentTime history).
  set (n := length (Py.tail limit history)).
  unfold Forecast.aggregateHourlyData.
  destruct data as [|pt0 rest] eqn:Hd; [cbn [length]; lia|].
  rewrite <- Hd. clear pt0 rest Hd.
  destruct (parse_timestamps_some data) as [tss Hp].
  { intros pt Hin. exact (stamp_parses _ _ _ _ Hin). }
  rewrite (to_datetime_column_uniform data Sarima.iso), Hp, length_map.
  2:{ intros pt Hin. unfold data, stamp in Hin. apply in_map_iff in Hin.
      destruct Hin as (iv & <- & _). reflexivity. }
  set (rows := combine tss (map Sarima.value data)).
  destruct (resample_hourly_keeps (fun _ => True) rows) as (Hs & _ & _).
  { apply Forall_forall. intros; exact I. }
  pose proof (sorted_range_length
                (map fst (Forecast.resample_hourly rows))
                ((Qfloor currentTime - Z.of_nat (n - 1)) / 3600)
                (Qfloor currentTime / 3600) Hs) as Hbound.
  rewrite length_map in Hbound.
  assert (Hkeys : forall k,
             In k (map fst (Forecast.resample_hourly rows)) ->
             ((Qfloor currentTime - Z.of_nat (n - 1)) / 3600 <= k
              <= Qfloor currentTime / 3600)%Z).
  { intros k Hk. apply resample_hourly_keys in Hk.
    destruct Hk as ([t v] & Hin & ->). cbn [fst].
    apply in_combine_l in Hin.
    destruct (parse_timestamps_in _ _ _ Hp Hin) as (pt & Hpt & Ht).
    destruct (stamp_timestamps _ _ _ _ Hpt) as (z & Hz & Hrange).
    rewrite Hz in Ht. injection Ht as <-.
    unfold Forecast.hour_bucket.
    change (3600 : Q) with (inject_Z 3600). rewrite <- Zdiv_Qdiv.
    fold n in Hrange.
    split; apply Z.div_le_mono; lia. }
  specialize (Hbound Hkeys).
  apply Nat2Z.inj_le. rewrite Nat2Z.inj_add, Nat2Z.inj_div.
  change (Z.of_nat 3600) with 3600%Z. change (Z.of_nat 2) with 2%Z.
  revert Hbound. generalize (Z.of_nat (n - 1)) (Nat2Z.is_nonneg (n - 1)).
  generalize (Qfloor currentTime).
  generalize (Z.of_nat (length (Forecast.resample_hourly rows))).
  intros len T m Hm. Z.div_mod_to_equations. lia.
Qed.



End Caller.
